(** * workspace_one_python: the CMSURL authenticator and the request dispatchers

    A shallow embedding of
      - [workspace_one_python/auth/workspace_one_auth.py]   (WorkspaceOneAuth),
      - [workspace_one_python/environment/aw_environment.py] (AWEnvironment),
      - [workspace_one_python/mdm/mdm.py], [mam/mam.py], [system/system.py]
        (the three request dispatchers and the event-notification methods),
    followed by the properties established about them.

    Conventions.
      - A Python [str] is represented by the [string] of its UTF-8 bytes, so
        [s.encode("utf-8")] is [list_byte_of_string s]; [bytes] is [list byte].
      - Python objects whose attributes are read by name (the environment
        object) are modelled by their instance dictionary, a [gmap] from
        attribute names to values.
      - Calls into the Python standard library, [cryptography], [requests]
        and the file system are the fields of the class [Platform]; every such
        call that the code makes is recorded in a trace of [Event]s.
      - Logger calls are left out: they return nothing and never raise. *)

From Stdlib Require Import ZArith NArith Lia.
From Stdlib.Strings Require Import Ascii String Byte.
From Stdlib Require Import List.
From stdpp Require Import base strings gmap list.
From stdpp Require Import pretty.

Open Scope string_scope.
Open Scope list_scope.
Open Scope Z_scope.

(* ===================================================================== *)
(** * Strings and bytes *)
(* ===================================================================== *)

Definition str := string.
Definition bytes := list byte.

(** [s.encode("utf-8")] under the representation above. *)
Definition encode_utf8 (s : str) : bytes := list_byte_of_string s.

(** [all(p(c) for c in s)] *)
Fixpoint str_forall (p : ascii -> bool) (s : string) : bool :=
  match s with
  | EmptyString => true
  | String c s' => p c && str_forall p s'
  end.

(** ** base64.b64encode (RFC 4648, standard alphabet, with padding) *)
Module Base64.

Definition alphabet : string :=
  "ABCDEFGHIJKLMNOPQRSTUVWXYZabcdefghijklmnopqrstuvwxyz0123456789+/".

Definition pad : ascii := "="%char.

Definition sextet (n : N) : ascii :=
  match String.get (N.to_nat n) alphabet with
  | Some c => c
  | None => pad
  end.

(** The 24-bit group made of up to three input bytes. *)
Definition group (a b c : N) : N :=
  N.lor (N.shiftl a 16) (N.lor (N.shiftl b 8) c).

Definition digit (g : N) (k : N) : ascii :=
  sextet (N.land (N.shiftr g (18 - 6 * k)) 63).

Fixpoint encode (bs : bytes) : string :=
  match bs with
  | [] => EmptyString
  | [a] =>
      let g := group (Byte.to_N a) 0 0 in
      String (digit g 0) (String (digit g 1) (String pad (String pad EmptyString)))
  | [a; b] =>
      let g := group (Byte.to_N a) (Byte.to_N b) 0 in
      String (digit g 0) (String (digit g 1) (String (digit g 2) (String pad EmptyString)))
  | a :: b :: c :: rest =>
      let g := group (Byte.to_N a) (Byte.to_N b) (Byte.to_N c) in
      String (digit g 0) (String (digit g 1) (String (digit g 2) (String (digit g 3)
        (encode rest))))
  end.

(** A character that may occur in base64 text. *)
Definition is_b64_char (c : ascii) : bool :=
  let n := N_of_ascii c in
  ((65 <=? n) && (n <=? 90) || (97 <=? n) && (n <=? 122) ||
   (48 <=? n) && (n <=? 57) || (n =? 43) || (n =? 47) || (n =? 61))%N%bool.

End Base64.

(** [base64.b64encode(b).decode()] : the base64 text as a [str]. *)
Definition b64encode (b : bytes) : str := Base64.encode b.

(* ===================================================================== *)
(** * Values, responses, exceptions *)
(* ===================================================================== *)

(** JSON-like Python data: request payloads and parsed response bodies. *)
#[warnings="-register-all"]
Inductive Json :=
| JNull
| JBool (b : bool)
| JInt (n : Z)
| JStr (s : str)
| JList (l : list Json)
| JDict (d : list (str * Json)).

(** The empty mapping [{}]. *)
Definition empty_dict : Json := JDict [].

(** The part of [requests.Response] that the dispatchers read. *)
Record Response := { status_code : Z; text : str }.

(** Modelled from the spec: the class [APIRequestError] lives in
    [workspace_one_python/exceptions/api_request_error.py], which is not part
    of the sources at hand.  Following the data model ("an error carrying the
    HTTP status code (if available) and a message") it is an exception with a
    message and an optional status code; a call that passes no [status_code]
    keyword leaves it at [None]. *)
Record APIRequestErrorData := { message : str; error_status_code : option Z }.

Inductive exn :=
| ValueError (msg : str)
| AttributeError (msg : str)
| TypeError (msg : str)
| OSError (msg : str)
| LibraryError (msg : str)                              (* any other Exception *)
| CMSURLError (msg : str)
| RequestException (msg : str) (response : option Response)
| JSONDecodeError (msg : str)
| APIRequestError (err : APIRequestErrorData).

(** [str(e)] *)
Definition exn_str (e : exn) : str :=
  match e with
  | ValueError m | AttributeError m | TypeError m | OSError m
  | LibraryError m | CMSURLError m | RequestException m _ | JSONDecodeError m => m
  | APIRequestError d => message d
  end.

Inductive Outcome (A : Type) :=
| Ok (a : A)
| Raise (e : exn).
Arguments Ok {A} a.
Arguments Raise {A} e.

(* ===================================================================== *)
(** * urllib.parse.urlparse *)
(* ===================================================================== *)

(** A model of CPython's [urllib.parse.urlparse] (3.12), used to run the
    authenticator on concrete URLs.  The two validity checks that need
    Unicode tables or the [ipaddress] module, [_check_bracketed_host] and the
    non-ASCII branch of [_checknetloc], are parameters: each answers with the
    text of the [ValueError] it raises for its argument, or with [None] when
    it returns. *)
Module UrlParse.

Record ParseResult := {
  scheme : str; netloc : str; path : str;
  params : str; query : str; fragment : str
}.

Fixpoint find (c : ascii) (s : string) : option nat :=
  match s with
  | EmptyString => None
  | String d s' => if Ascii.eqb c d then Some 0%nat else option_map S (find c s')
  end.

Fixpoint rfind (c : ascii) (s : string) : option nat :=
  match s with
  | EmptyString => None
  | String d s' =>
      match rfind c s' with
      | Some i => Some (S i)
      | None => if Ascii.eqb c d then Some 0%nat else None
      end
  end.

Fixpoint take (n : nat) (s : string) : string :=
  match n, s with
  | S n', String c s' => String c (take n' s')
  | _, _ => EmptyString
  end.

Fixpoint drop (n : nat) (s : string) : string :=
  match n, s with
  | S n', String _ s' => drop n' s'
  | _, _ => s
  end.

Definition contains (c : ascii) (s : string) : bool :=
  match find c s with Some _ => true | None => false end.

(** [s.find(c, start)] *)
Definition find_from (c : ascii) (start : nat) (s : string) : option nat :=
  option_map (fun i => (start + i)%nat) (find c (drop start s)).

Fixpoint lstrip (p : ascii -> bool) (s : string) : string :=
  match s with
  | EmptyString => EmptyString
  | String c s' => if p c then lstrip p s' else s
  end.

Fixpoint remove (p : ascii -> bool) (s : string) : string :=
  match s with
  | EmptyString => EmptyString
  | String c s' => if p c then remove p s' else String c (remove p s')
  end.

Definition code (c : ascii) : N := N_of_ascii c.

(** [_WHATWG_C0_CONTROL_OR_SPACE] and [_UNSAFE_URL_BYTES_TO_REMOVE] *)
Definition is_c0_control_or_space (c : ascii) : bool := (code c <=? 32)%N.
Definition is_unsafe_url_byte (c : ascii) : bool :=
  ((code c =? 9) || (code c =? 10) || (code c =? 13))%N.

Definition is_upper (c : ascii) : bool := ((65 <=? code c) && (code c <=? 90))%N.
Definition is_lower (c : ascii) : bool := ((97 <=? code c) && (code c <=? 122))%N.
Definition is_digit (c : ascii) : bool := ((48 <=? code c) && (code c <=? 57))%N.
Definition is_ascii (c : ascii) : bool := (code c <? 128)%N.
Definition is_ascii_alpha (c : ascii) : bool := is_upper c || is_lower c.

(** [scheme_chars]: letters, digits, [+], [-] and [.] *)
Definition is_scheme_char (c : ascii) : bool :=
  is_ascii_alpha c || is_digit c ||
  ((code c =? 43) || (code c =? 45) || (code c =? 46))%N.

Definition lower_char (c : ascii) : ascii :=
  if is_upper c then ascii_of_N (code c + 32) else c.

Fixpoint lower (s : string) : string :=
  match s with
  | EmptyString => EmptyString
  | String c s' => String (lower_char c) (lower s')
  end.

Definition uses_params : list str :=
  [""; "ftp"; "hdl"; "prospero"; "http"; "imap"; "https"; "shttp"; "rtsp";
   "rtsps"; "rtspu"; "sip"; "sips"; "mms"; "sftp"; "tel"].

(** The scheme prefix: [url.find(':') > 0], a letter first, scheme
    characters up to the colon. *)
Definition split_scheme (url : str) : str * str :=
  match find ":" url, url with
  | Some (S i), String c0 _ =>
      if is_ascii_alpha c0 && str_forall is_scheme_char (take (S i) url)
      then (lower (take (S i) url), drop (S (S i)) url)
      else (EmptyString, url)
  | _, _ => (EmptyString, url)
  end.

(** [_splitnetloc(url, start)] *)
Definition splitnetloc (url : str) (start : nat) : str * str :=
  let delim :=
    fold_left
      (fun delim c =>
         match find_from c start url with
         | Some w => Nat.min delim w
         | None => delim
         end)
      ["/"%char; "?"%char; "#"%char] (String.length url) in
  (take (delim - start) (drop start url), drop delim url).

(** [s.partition(c)[2]] and [s.partition(c)[0]] *)
Definition after_first (c : ascii) (s : str) : str :=
  match find c s with Some i => drop (S i) s | None => EmptyString end.
Definition before_first (c : ascii) (s : str) : str :=
  match find c s with Some i => take i s | None => s end.

(** [url.split(c, 1)] when [c in url] *)
Definition split_once (c : ascii) (s : str) : str * str :=
  match find c s with
  | Some i => (take i s, drop (S i) s)
  | None => (s, EmptyString)
  end.

Section Checks.
Variable check_bracketed_host : str -> option str.
Variable checknetloc_non_ascii : str -> option str.

(** [_checknetloc(netloc)]: nothing to check in an empty or ASCII netloc. *)
Definition checknetloc (nl : str) : option str :=
  match nl with
  | EmptyString => None
  | _ => if str_forall is_ascii nl then None else checknetloc_non_ascii nl
  end.

(** [urlsplit(url)] : scheme, netloc, path, query, fragment *)
Definition urlsplit (url0 : str) : Outcome (str * str * str * str * str) :=
  let url := remove is_unsafe_url_byte (lstrip is_c0_control_or_space url0) in
  let '(scheme, url) := split_scheme url in
  let '(netloc, url) :=
    if String.eqb (take 2 url) "//" then splitnetloc url 2 else (EmptyString, url) in
  let lb := contains "[" netloc in
  let rb := contains "]" netloc in
  if (lb && negb rb) || (rb && negb lb) then Raise (ValueError "Invalid IPv6 URL")
  else
    match (if lb && rb
           then check_bracketed_host (before_first "]" (after_first "[" netloc))
           else None) with
    | Some msg => Raise (ValueError msg)
    | None =>
        let '(url, fragment) :=
          if contains "#" url then split_once "#" url else (url, EmptyString) in
        let '(url, query) :=
          if contains "?" url then split_once "?" url else (url, EmptyString) in
        match checknetloc netloc with
        | Some msg => Raise (ValueError msg)
        | None => Ok (scheme, netloc, url, query, fragment)
        end
    end.

(** [_splitparams(url)] *)
Definition splitparams (url : str) : str * str :=
  let whole := (url, EmptyString) in
  let cut (i : nat) := (take i url, drop (S i) url) in
  match rfind "/" url with
  | Some r =>
      match find_from ";" r url with
      | Some i => cut i
      | None => whole
      end
  | None =>
      match find ";" url with
      | Some i => cut i
      | None => (take (String.length url - 1) url, url)   (* i = -1 *)
      end
  end.

Definition urlparse (url0 : str) : Outcome ParseResult :=
  match urlsplit url0 with
  | Raise e => Raise e
  | Ok (scheme, netloc, url, query, fragment) =>
      let '(url, params) :=
        if existsb (String.eqb scheme) uses_params && contains ";" url
        then splitparams url else (url, EmptyString) in
      Ok {| scheme := scheme; netloc := netloc; path := url;
            params := params; query := query; fragment := fragment |}
  end.

End Checks.
End UrlParse.


(* ===================================================================== *)
(** * Python objects read by attribute name *)
(* ===================================================================== *)

Inductive pyval :=
| PyNone
| PyStr (s : str)
| PyLogger (name : str).

(** An instance dictionary. *)
Abbreviation Object := (gmap string pyval).

(** [obj.name] *)
Definition getattr (obj : Object) (name : string) : Outcome pyval :=
  match obj !! name with
  | Some v => Ok v
  | None => Raise (AttributeError ("object has no attribute '" +:+ name +:+ "'"))
  end.

(** [Optional[str]] as a Python value. *)
Definition of_optional (o : option str) : pyval :=
  match o with Some s => PyStr s | None => PyNone end.

(** [not s] for a [str]: only the empty string is falsy. *)
Definition str_falsy (s : str) : bool :=
  match s with EmptyString => true | String _ _ => false end.

(** How a value is rendered inside an f-string. *)
Definition format_value (v : pyval) : str :=
  match v with
  | PyStr s => s
  | PyNone => "None"
  | PyLogger name => "<Logger " +:+ name +:+ " (WARNING)>"   (* repr, default level *)
  end.

(** Sequencing of fallible pure steps. *)
Definition obind {A B} (o : Outcome A) (k : A -> Outcome B) : Outcome B :=
  match o with Ok a => k a | Raise e => Raise e end.

Notation "'let?' x ':=' o 'in' k" := (obind o (fun x => k))
  (at level 10, x name, o at level 100, k at level 200, only parsing).

(* ===================================================================== *)
(** * The libraries the code calls *)
(* ===================================================================== *)

(** ** cryptography: PKCS#7 signature builder *)

Inductive HashAlgorithm := SHA1 | SHA224 | SHA256 | SHA384 | SHA512.
Inductive Encoding := PEM | DER | SMIME.
Inductive PKCS7Options :=
| Text | Binary | DetachedSignature | NoCapabilities | NoAttributes | NoCerts.

Record PKCS7SignatureBuilder (K C : Type) := {
  builder_data : option bytes;
  builder_signers : list (C * K * HashAlgorithm)
}.
Arguments builder_data {K C} _.
Arguments builder_signers {K C} _.

(** [PKCS7SignatureBuilder()], [.set_data(d)] and [.add_signer(c, k, h)]
    build a new builder value; the library's validation of these arguments
    is reported by the signing call. *)
Definition new_builder {K C} : PKCS7SignatureBuilder K C :=
  {| builder_data := None; builder_signers := [] |}.
Definition set_data {K C} (b : PKCS7SignatureBuilder K C) (d : bytes) :=
  {| builder_data := Some d; builder_signers := builder_signers b |}.
Definition add_signer {K C} (b : PKCS7SignatureBuilder K C)
    (certificate : C) (private_key : K) (h : HashAlgorithm) :=
  {| builder_data := builder_data b;
     builder_signers := builder_signers b ++ [(certificate, private_key, h)] |}.

(** ** requests: sessions, adapters and retry policy *)

(** One of the optional counters of a [Retry]: [None], [False] or an [int]. *)
Inductive RetryCount :=
| Unset
| Never
| Count (n : Z).

(** [Retry(total, read, backoff_factor, status_forcelist)], the other
    parameters at their defaults. *)
Record Retry := {
  total : Z;
  read : RetryCount;
  backoff_factor : Z;
  status_forcelist : list Z
}.
Record HTTPAdapter := { max_retries : Retry }.
Record Session := { adapters : list (str * HTTPAdapter) }.

(** [HTTPAdapter()] : [max_retries = DEFAULT_RETRIES = 0], kept as
    [Retry(0, read=False)]. *)
Definition default_adapter : HTTPAdapter :=
  {| max_retries := {| total := 0; read := Never; backoff_factor := 0;
                       status_forcelist := [] |} |}.

(** [Session.mount]: assign in the ordered dictionary, then move every
    shorter prefix behind. *)
Fixpoint assign (prefix : str) (a : HTTPAdapter) (l : list (str * HTTPAdapter)) :=
  match l with
  | [] => [(prefix, a)]
  | (k, v) :: l' =>
      if String.eqb k prefix then (k, a) :: l' else (k, v) :: assign prefix a l'
  end.

Definition mount (s : Session) (prefix : str) (a : HTTPAdapter) : Session :=
  let l := assign prefix a (adapters s) in
  let shorter (kv : str * HTTPAdapter) :=
    (String.length (fst kv) <? String.length prefix)%nat in
  {| adapters := List.filter (fun kv => negb (shorter kv)) l ++ List.filter shorter l |}.

(** [requests.Session()] *)
Definition new_session : Session :=
  mount (mount {| adapters := [] |} "https://" default_adapter) "http://" default_adapter.

(** [Session.get_adapter(url)]: the first mounted prefix of the lowered URL. *)
Definition get_adapter (s : Session) (url : str) : option HTTPAdapter :=
  option_map snd
    (List.find (fun kv => String.prefix (UrlParse.lower (fst kv)) (UrlParse.lower url))
               (adapters s)).

(** A file object handed to [files=]. *)
Record pyfile := { file_path : str; file_closed : bool }.

(** One call of [requests.request] ([call_session = None]) or of
    [Session.request] with the arguments the dispatcher passes. *)
Record HttpCall := {
  call_session : option Session;
  call_method : str;
  call_url : str;
  call_headers : list (str * pyval);
  call_json : option Json;
  call_files : option (list (str * pyfile));
  call_timeout : Z
}.

(** ** urllib3 and requests: sending with retries *)

(** A model of [urllib3.util.retry.Retry] (2.x), of the retry loop of
    [HTTPConnectionPool.urlopen] and of what [requests] makes of its result
    in [HTTPAdapter.send] and [Session.request], for a [Retry] as above and
    a server that does not redirect. *)
Module Urllib3.

(** What the network does with one attempt: it answers, [retry_after] being
    the seconds that the [Retry-After] header of the response asks for when
    it has one; or the connection cannot be made; or the request is sent and
    no response can be read. *)
Inductive WireAnswer :=
| Answered (status : Z) (retry_after : option Z) (text : str)
| ConnectFailed
| ReadFailed.

(** How a request ends when it does not end with a response. *)
Inductive Failure :=
| TooManyResponses (status : Z)   (* MaxRetryError, reason ResponseError *)
| TooManyConnectErrors            (* MaxRetryError, reason the connect error *)
| TooManyReadErrors               (* MaxRetryError, reason the read error *)
| ReadErrorReraised               (* the read error itself *)
| NoAdapter.                      (* InvalidSchema *)

Definition upper_char (c : ascii) : ascii :=
  if UrlParse.is_lower c then ascii_of_N (UrlParse.code c - 32) else c.

Fixpoint upper (s : string) : string :=
  match s with
  | EmptyString => EmptyString
  | String c s' => String (upper_char c) (upper s')
  end.

Definition DEFAULT_ALLOWED_METHODS : list str :=
  ["HEAD"; "GET"; "PUT"; "DELETE"; "OPTIONS"; "TRACE"].
Definition RETRY_AFTER_STATUS_CODES : list Z := [413; 429; 503].
Definition DEFAULT_BACKOFF_MAX : Z := 120.

Definition status_in (status : Z) (l : list Z) : bool := existsb (Z.eqb status) l.

(** A [Retry] object in the course of a request: its counters, and the
    length of its [history]. *)
Record State := { policy : Retry; history : nat }.

(** [retries = self.max_retries] at the first attempt *)
Definition start (r : Retry) : State := {| policy := r; history := 0 |}.

Definition _is_method_retryable (method : str) : bool :=
  existsb (String.eqb (upper method)) DEFAULT_ALLOWED_METHODS.

(** [Retry.is_retry(method, status_code, has_retry_after)] *)
Definition is_retry (r : Retry) (method : str) (status_code : Z)
    (has_retry_after : bool) : bool :=
  if negb (_is_method_retryable method) then false
  else if status_in status_code (status_forcelist r) then true
  else negb (total r =? 0) && has_retry_after
       && status_in status_code RETRY_AFTER_STATUS_CODES.

(** [Retry.is_exhausted()]: the counters that are set and not zero, the
    least of them below zero. *)
Definition is_exhausted (r : Retry) : bool :=
  let retry_counts :=
    (if total r =? 0 then [] else [total r]) ++
    match read r with
    | Count n => if n =? 0 then [] else [n]
    | _ => []
    end in
  existsb (fun x => x <? 0) retry_counts.

Definition decrement (c : RetryCount) : RetryCount :=
  match c with Count n => Count (n - 1) | _ => c end.

(** [Retry.increment(method, url, response=..., error=...)]: the object for
    the next attempt, or how the request ends. *)
Definition increment (retries : State) (method : str) (answer : WireAnswer)
  : State + Failure :=
  let r := policy retries in
  let next (read' : RetryCount) (reason : Failure) : State + Failure :=
    let new_retry := {| total := total r - 1; read := read';
                        backoff_factor := backoff_factor r;
                        status_forcelist := status_forcelist r |} in
    if is_exhausted new_retry then inr reason
    else inl {| policy := new_retry; history := S (history retries) |} in
  match answer with
  | ConnectFailed => next (read r) TooManyConnectErrors
  | ReadFailed =>
      match read r with
      | Never => inr ReadErrorReraised
      | _ =>
          if _is_method_retryable method then next (decrement (read r)) TooManyReadErrors
          else inr ReadErrorReraised
      end
  | Answered status _ _ => next (read r) (TooManyResponses status)
  end.

(** [Retry.get_backoff_time()], no entry of the history being a redirect. *)
Definition get_backoff_time (retries : State) : Z :=
  if (history retries <=? 1)%nat then 0
  else
    let backoff_value :=
      backoff_factor (policy retries) * 2 ^ (Z.of_nat (history retries) - 1) in
    Z.max 0 (Z.min DEFAULT_BACKOFF_MAX backoff_value).

(** [Retry.sleep(response)]: the seconds slept, the [Retry-After] of the
    response when it asks for some, the backoff time otherwise. *)
Definition sleep (retries : State) (retry_after : option Z) : Z :=
  match retry_after with
  | Some seconds => if 0 <? seconds then seconds else get_backoff_time retries
  | None => get_backoff_time retries
  end.

(** [HTTPConnectionPool.urlopen]: attempt after attempt, [wire n] being what
    the network does with attempt [n].  The result is the response returned
    (its status and text) or the failure raised, with the seconds slept
    before each further attempt. *)
Fixpoint urlopen_from (fuel : nat) (retries : State) (method : str)
    (wire : nat -> WireAnswer) (attempt : nat)
  : option ((Z * str + Failure) * list Z) :=
  match fuel with
  | O => None
  | S fuel' =>
      let again (retries' : State) (slept : Z) :=
        match urlopen_from fuel' retries' method wire (S attempt) with
        | Some (result, sleeps) => Some (result, slept :: sleeps)
        | None => None
        end in
      match wire attempt with
      | Answered status retry_after text =>
          if is_retry (policy retries) method status
               (match retry_after with Some _ => true | None => false end)
          then match increment retries method (wire attempt) with
               | inr failure => Some (inr failure, [])
               | inl retries' => again retries' (sleep retries' retry_after)
               end
          else Some (inl (status, text), [])
      | _ =>
          match increment retries method (wire attempt) with
          | inr failure => Some (inr failure, [])
          | inl retries' => again retries' (sleep retries' None)
          end
      end
  end.

Definition urlopen (r : Retry) (method : str) (wire : nat -> WireAnswer)
  : option ((Z * str + Failure) * list Z) :=
  urlopen_from (S (Z.to_nat (total r))) (start r) method wire 0.

(** [Session.request(method, url, ...)]: the adapter mounted for the URL
    sends the request, the method in upper case.  Every failure reaches the
    caller as a [RequestException] that carries no response, [describe]
    giving its text. *)
Definition Session_request (describe : Failure -> str) (s : Session)
    (method url : str) (wire : nat -> WireAnswer)
  : option (Outcome Response * list Z) :=
  let failed (failure : Failure) : Outcome Response :=
    Raise (RequestException (describe failure) None) in
  match get_adapter s url with
  | None => Some (failed NoAdapter, [])
  | Some adapter =>
      match urlopen (max_retries adapter) (upper method) wire with
      | Some (inl (status, text), sleeps) =>
          Some (Ok {| status_code := status; text := text |}, sleeps)
      | Some (inr failure, sleeps) => Some (failed failure, sleeps)
      | None => None
      end
  end.

End Urllib3.

(** ** The platform *)

Class Platform := {
  PrivateKey : Type;
  Certificate : Type;
  (** [open(path, "rb").read()] *)
  read_file : str -> Outcome bytes;
  (** [pkcs12.load_key_and_certificates(data, password)], first two results *)
  load_key_and_certificates :
    bytes -> bytes -> Outcome (option PrivateKey * option Certificate);
  (** [builder.sign(encoding, options)] *)
  pkcs7_sign :
    PKCS7SignatureBuilder PrivateKey Certificate ->
    Encoding -> list PKCS7Options -> Outcome bytes;
  (** [urllib.parse.urlparse(url)] *)
  urlparse : str -> Outcome UrlParse.ParseResult;
  (** the transport: what the HTTP call returns or raises *)
  http_request : HttpCall -> Outcome Response;
  (** the text of the [HTTPError] that [raise_for_status] builds *)
  http_error_msg : Response -> str;
  (** [response.json()] *)
  response_json : Response -> Outcome Json
}.

(** What the code asks of the platform, in order. *)
Inductive Event `{Platform} :=
| EvOpen (path : str)
| EvLoadP12 (data password : bytes)
| EvSign (b : PKCS7SignatureBuilder PrivateKey Certificate)
         (enc : Encoding) (opts : list PKCS7Options)
| EvHttp (c : HttpCall).

(* ===================================================================== *)
(** * Effects: a trace of events, and exceptions *)
(* ===================================================================== *)

Section Monad.
Context `{Platform}.

Definition M (A : Type) : Type := list Event -> Outcome A * list Event.

Definition ret {A} (a : A) : M A := fun h => (Ok a, h).
Definition raise {A} (e : exn) : M A := fun h => (Raise e, h).
Definition bind {A B} (m : M A) (k : A -> M B) : M B :=
  fun h => match m h with
           | (Ok a, h') => k a h'
           | (Raise e, h') => (Raise e, h')
           end.
Definition emit (e : Event) : M unit := fun h => (Ok tt, h ++ [e]).
Definition lift {A} (o : Outcome A) : M A := fun h => (o, h).

(** [try: m  except <classes selected by handler>: ...]; a handler that
    answers [None] does not match and the exception propagates. *)
Definition try_except {A} (m : M A) (handler : exn -> option (M A)) : M A :=
  fun h => match m h with
           | (Ok a, h') => (Ok a, h')
           | (Raise e, h') =>
               match handler e with
               | Some k => k h'
               | None => (Raise e, h')
               end
           end.

End Monad.

Notation "'let*' x ':=' m 'in' k" := (bind m (fun x => k))
  (at level 10, x name, m at level 100, k at level 200, only parsing).

(** The HTTP calls recorded in a trace. *)
Definition http_calls `{Platform} (h : list Event) : list HttpCall :=
  omap (fun e => match e with EvHttp c => Some c | _ => None end) h.

(** The data handed to the signing step, call by call. *)
Definition signed_data `{Platform} (h : list Event) : list (option bytes) :=
  omap (fun e => match e with EvSign b _ _ => Some (builder_data b) | _ => None end) h.

(* ===================================================================== *)
(** * environment/aw_environment.py *)
(* ===================================================================== *)

Module AWEnvironment.

Definition module_name : str := "workspace_one_python.environment.aw_environment".

(** [AWEnvironment(api_url, tenant_code, parent_og=None)]: the instance
    dictionary of the new object, or the exception raised. *)
Definition __init__ (api_url tenant_code : str) (parent_og : option str)
  : Outcome Object :=
  let self : Object := {[ "logger" := PyLogger module_name ]} in
  if str_falsy api_url || str_falsy tenant_code
  then Raise (ValueError "Both 'api_url' and 'tenant_code' are required.")
  else
    let self := <[ "api_url" := PyStr api_url ]> self in
    let self := <[ "tenant_code" := PyStr tenant_code ]> self in
    let self := <[ "parent_og" := of_optional parent_og ]> self in
    Ok self.

End AWEnvironment.

(* ===================================================================== *)
(** * auth/workspace_one_auth.py *)
(* ===================================================================== *)

Module WorkspaceOneAuth.

(** The attributes of an instance; [cert_bytes] and [use_memory_cert] exist
    only on instances made by [from_memory]. *)
Record t := {
  cert_path : str;
  cert_pw : str;
  cert_bytes : option bytes;
  use_memory_cert : option bool
}.

Definition __init__ (cert_path cert_pw : str) : Outcome t :=
  Ok {| cert_path := cert_path; cert_pw := cert_pw;
        cert_bytes := None; use_memory_cert := None |}.

Definition from_memory (cert_bytes : bytes) (cert_pw : str) : Outcome t :=
  let? self := __init__ "" cert_pw in
  Ok {| cert_path := cert_path self; cert_pw := WorkspaceOneAuth.cert_pw self;
        cert_bytes := Some cert_bytes; use_memory_cert := Some true |}.

Definition header_prefix : str := "CMSURL`1 ".

Section Methods.
Context `{Platform}.

Definition is_CMSURLError (e : exn) : bool :=
  match e with CMSURLError _ => true | _ => false end.

Definition _load_p12_cert (self : t) (p12_path password : str)
  : M (option PrivateKey * option Certificate) :=
  try_except
    (let* p12_data :=
       (if default false (use_memory_cert self)
        then match cert_bytes self with
             | Some b => ret b
             | None => raise (AttributeError "object has no attribute 'cert_bytes'")
             end
        else (let* _ := emit (EvOpen p12_path) in lift (read_file p12_path))) in
     let* _ := emit (EvLoadP12 p12_data (encode_utf8 password)) in
     let* kc := lift (load_key_and_certificates p12_data (encode_utf8 password)) in
     ret kc)
    (fun e =>
       Some (raise (CMSURLError ("Failed to load PKCS#12 certificate: " +:+ exn_str e)))).

Definition _sign_data (self : t) (private_key : PrivateKey)
    (certificate : Certificate) (data : str) : M (option bytes) :=
  try_except
    (let data_bytes := encode_utf8 data in
     let builder := set_data new_builder data_bytes in
     let builder := add_signer builder certificate private_key SHA512 in
     let* _ := emit (EvSign builder DER [DetachedSignature]) in
     let* cms_der := lift (pkcs7_sign builder DER [DetachedSignature]) in
     ret (Some cms_der))
    (fun e => Some (ret None)).

Definition get_cmsurl_header (self : t) (url : str) : M (option str) :=
  let p12_cert_path := cert_path self in
  let cert_password := cert_pw self in
  let* loaded :=
    try_except
      (let* kc := _load_p12_cert self p12_cert_path cert_password in ret (Some kc))
      (fun e => if is_CMSURLError e then Some (ret None) else None) in
  match loaded with
  | None => ret None
  | Some (Some private_key, Some certificate) =>
      let* parsed_url := lift (urlparse url) in
      let canonical_path := UrlParse.path parsed_url in
      let* cms_container := _sign_data self private_key certificate canonical_path in
      match cms_container with
      | None => ret None
      | Some cms =>
          let encoded_signature := b64encode cms in
          let header_value := header_prefix +:+ encoded_signature in
          ret (Some header_value)
      end
  | Some _ => ret None
  end.

End Methods.
End WorkspaceOneAuth.

(* ===================================================================== *)
(** * The request dispatchers *)
(* ===================================================================== *)

(** [response.raise_for_status()] *)
Definition raise_for_status `{Platform} (r : Response) : M unit :=
  if (400 <=? status_code r) && (status_code r <? 600)
  then raise (RequestException (http_error_msg r) (Some r))
  else ret tt.

(** [getattr(e.response, 'status_code', None)] *)
Definition response_status (r : option Response) : option Z :=
  option_map status_code r.

(** [response.json() if response.text else {}] *)
Definition json_or_empty `{Platform} (r : Response) : M Json :=
  if str_falsy (text r) then ret empty_dict else lift (response_json r).

Definition headers_dict (authorization : option str) (tenant_code : pyval)
  : list (str * pyval) :=
  [("Authorization", of_optional authorization);
   ("aw-tenant-code", tenant_code);
   ("Content-Type", PyStr "application/json")].

(** ** mdm/mdm.py *)
Module MDM.

Record t := { aw_environment : Object; auth : WorkspaceOneAuth.t }.

Definition __init__ (aw_environment : Object) (workspaceOneAuth : WorkspaceOneAuth.t)
  : Outcome t :=
  Ok {| aw_environment := aw_environment; auth := workspaceOneAuth |}.

Section Methods.
Context `{Platform}.

Definition _get_headers (self : t) (url : str) : M (list (str * pyval)) :=
  let* authorization := WorkspaceOneAuth.get_cmsurl_header (auth self) url in
  let* tenant_code := lift (getattr (aw_environment self) "tenant_code") in
  ret (headers_dict authorization tenant_code).

Definition _send_request (self : t) (method url : str) (data : option Json) : M Json :=
  let* headers := _get_headers self url in
  try_except
    (let call := {| call_session := None; call_method := method; call_url := url;
                    call_headers := headers; call_json := data;
                    call_files := None; call_timeout := 90 |} in
     let* _ := emit (EvHttp call) in
     let* response := lift (http_request call) in
     let* _ := raise_for_status response in
     json_or_empty response)
    (fun e =>
       match e with
       | RequestException _ e_response =>
           Some (raise (APIRequestError
                   {| message := "API request to " +:+ url +:+ " failed";
                      error_status_code := response_status e_response |}))
       | _ => None
       end).

End Methods.
End MDM.

(** ** mam/mam.py *)
Module MAM.

Record t := {
  aw_environment : Object;
  auth : WorkspaceOneAuth.t;
  api_url : pyval;
  tenant_code : pyval
}.

Definition __init__ (aw_environment : Object) (workspaceOneAuth : WorkspaceOneAuth.t)
  : Outcome t :=
  let? api_url := getattr aw_environment "api_url" in
  let? tenant_code := getattr aw_environment "tenant_code" in
  Ok {| aw_environment := aw_environment; auth := workspaceOneAuth;
        api_url := api_url; tenant_code := tenant_code |}.

Section Methods.
Context `{Platform}.

Definition _get_headers (self : t) (url : str) : M (list (str * pyval)) :=
  let* authorization := WorkspaceOneAuth.get_cmsurl_header (auth self) url in
  ret (headers_dict authorization (tenant_code self)).

Definition _send_request (self : t) (method url : str)
    (json_data : option Json) (files : option (list (str * pyfile))) : M Json :=
  let* headers := _get_headers self url in
  try_except
    (let call := {| call_session := None; call_method := method; call_url := url;
                    call_headers := headers; call_json := json_data;
                    call_files := files; call_timeout := 90 |} in
     let* _ := emit (EvHttp call) in
     let* response := lift (http_request call) in
     let* _ := raise_for_status response in
     json_or_empty response)
    (fun e =>
       match e with
       | RequestException _ _ =>
           Some (raise (APIRequestError
                   {| message := exn_str e; error_status_code := None |}))
       | _ => None
       end).

End Methods.
End MAM.

(** ** system/system.py *)
Module System.

Record t := {
  aw_environment : Object;
  auth : WorkspaceOneAuth.t;
  api_url : pyval;
  tenant_code : pyval;
  environment : pyval;
  session : Session
}.

(** [Retry(total=3, backoff_factor=1, status_forcelist=[500, 502, 503, 504])] *)
Definition retries : Retry :=
  {| total := 3; read := Unset; backoff_factor := 1;
     status_forcelist := [500; 502; 503; 504] |}.

Definition __init__ (awEnviroment : Object) (workspaceOneAuth : WorkspaceOneAuth.t)
  : Outcome t :=
  let? api_url := getattr awEnviroment "api_url" in
  let? tenant_code := getattr awEnviroment "tenant_code" in
  let? environment := getattr awEnviroment "environment" in
  let session := new_session in
  let session := mount session "https://" {| max_retries := retries |} in
  Ok {| aw_environment := awEnviroment; auth := workspaceOneAuth;
        api_url := api_url; tenant_code := tenant_code;
        environment := environment; session := session |}.

(** The [def] statements of the class body, in source order, each named by
    the line it starts on. *)
Definition class_body : list (string * nat) := [
  ("__init__", 16); ("_get_headers", 31); ("_send_request", 40);
  ("search_custom_user_group", 57); ("create_custom_user_group", 61);
  ("retrieve_list_of_users_from_group", 70); ("search_for_enrollment_user", 74);
  ("register_device_to_enrollment_user", 78); ("create_new_enrollment_user", 104);
  ("delete_custom_user_group", 116); ("get_all_ogs_under_parent_og", 120);
  ("add_user_to_custom_group", 124); ("remove_user_from_custom_group", 128);
  ("get_enrollment_user_by_uuid", 132); ("get_organization_group_info", 136);
  ("create_new_organization_group", 140); ("delete_event_notification_rule", 153);
  ("search_event_notifications", 164); ("get_admin_identity", 205);
  ("search_admins", 223); ("get_admin_by_id", 264); ("delete_admin_by_id", 275);
  ("create_admin_user", 286); ("update_admin_user", 317);
  ("change_admin_password", 351); ("add_role_to_admin", 378);
  ("get_admin_about_page_config", 406); ("update_admin_about_page_config", 418);
  ("remove_role_from_admin", 432); ("get_advanced_ldap_sync_jobs", 460);
  ("create_advanced_ldap_sync_job", 498); ("get_advanced_ldap_sync_job_details", 518);
  ("approve_or_decline_ldap_sync_job", 556); ("get_ldap_sync_job_status", 586);
  ("get_android_work_settings", 598); ("get_apns_certificate_request", 610);
  ("save_apns_configuration", 622); ("update_apns_configuration", 651);
  ("get_app_content_storage_info", 672); ("create_basic_to_directory_sync_job", 684);
  ("get_directory_users_for_migration_job", 704);
  ("get_matching_basic_users_for_ldap_user", 741);
  ("migrate_basic_to_directory_users", 752); ("update_synced_basic_user", 766);
  ("delete_basic_to_directory_sync_job", 786);
  ("delete_user_from_migration_list", 797); ("get_mapped_users_for_sync_job", 812);
  ("get_cloud_connector_status", 835); ("create_custom_attribute", 846);
  ("search_custom_attributes", 878); ("get_custom_gateway_settings", 910);
  ("bulk_update_custom_gateway_settings", 922); ("get_custom_gateway_keys", 935);
  ("get_custom_gateway_key_details", 946); ("get_custom_reports_refresh_token", 957);
  ("delete_registered_devices_by_asset_number", 967);
  ("delete_registered_devices_by_serial_number", 983);
  ("delete_registered_devices_by_udid", 999); ("delete_registered_devices", 1016);
  ("search_enrollment_tokens", 1033); ("get_enrolled_devices", 1065);
  ("get_registered_devices", 1098); ("get_device_wipe_events", 1129);
  ("perform_device_wipe_action", 1165); ("create_device_wipe_report", 1190);
  ("get_device_wipe_lock_state", 1227); ("reset_device_wipe_lock", 1250);
  ("get_dropship_provisioning", 1271); ("enable_dropship_provisioning_v1", 1284);
  ("create_enrollment_custom_attributes", 1309);
  ("update_custom_attributes_by_serial", 1325);
  ("delete_custom_attributes_by_serial", 1344);
  ("create_custom_attributes_for_registered_device", 1364);
  ("delete_custom_attributes_for_registered_device", 1392);
  ("get_enrollment_customization_settings", 1411);
  ("create_event_notification_rule", 1434);
  ("create_event_notification_rule", 1468);
  ("get_event_notification_rule_by_id", 1502);
  ("update_event_notification_rule", 1514);
  ("get_event_notification_rule", 1526)
]%nat.

(** Executing a class body binds each [def] in the class namespace, a later
    binding of a name replacing the earlier one. *)
Definition bind_defs (body : list (string * nat)) : gmap string nat :=
  foldl (fun ns d => <[ fst d := snd d ]> ns) ∅ body.

Definition namespace : gmap string nat := bind_defs class_body.

Definition legacy_path : str := "/system/eventnotifications".
Definition v1_path : str := "/system/eventnotifications/V1/eventnotifications".

Section Methods.
Context `{Platform}.

Definition _get_headers (self : t) (url : str) : M (list (str * pyval)) :=
  let* authorization := WorkspaceOneAuth.get_cmsurl_header (auth self) url in
  ret (headers_dict authorization (tenant_code self)).

Definition _send_request (self : t) (method url : str) (json_data : option Json)
  : M Json :=
  let* headers := _get_headers self url in
  try_except
    (let call := {| call_session := Some (session self); call_method := method;
                    call_url := url; call_headers := headers;
                    call_json := json_data; call_files := None;
                    call_timeout := 90 |} in
     let* _ := emit (EvHttp call) in
     let* response := lift (http_request call) in
     let* _ := raise_for_status response in
     json_or_empty response)
    (fun e =>
       match e with
       | RequestException _ e_response =>
           Some (raise (APIRequestError
                   {| message := "API request to " +:+ url +:+ " failed";
                      error_status_code := response_status e_response |}))
       | _ => None
       end).

Definition arity_error : exn :=
  TypeError "create_event_notification_rule() takes 12 positional arguments".

(** The [def] at line 1434 (POST /system/eventnotifications). *)
Definition create_event_notification_rule_1434 (self : t) (args : list Json) : M Json :=
  match args with
  | [target_name; target_url; username; password; format_id; is_active;
     device_events; organization_group_id; organization_group_uuid;
     id_value; uuid] =>
      let url := format_value (api_url self) +:+ legacy_path in
      let payload := JDict [
        ("TargetName", target_name); ("TargetUrl", target_url);
        ("Username", username); ("Password", password);
        ("Format", format_id); ("IsActive", is_active);
        ("DeviceEvents", device_events);
        ("organizationGroupId", organization_group_id);
        ("organizationGroupUuid", organization_group_uuid);
        ("id", id_value); ("uuid", uuid)] in
      _send_request self "POST" url (Some payload)
  | _ => raise arity_error
  end.

(** The [def] at line 1468 (POST /system/eventnotifications/V1/eventnotifications). *)
Definition create_event_notification_rule_1468 (self : t) (args : list Json) : M Json :=
  match args with
  | [target_name; target_url; username; password; format_id; is_active;
     organization_group_id; organization_group_uuid; device_events;
     record_id; uuid] =>
      let url := format_value (api_url self) +:+ v1_path in
      let payload := JDict [
        ("TargetName", target_name); ("TargetUrl", target_url);
        ("Username", username); ("Password", password);
        ("Format", format_id); ("IsActive", is_active);
        ("DeviceEvents", device_events);
        ("organizationGroupId", organization_group_id);
        ("organizationGroupUuid", organization_group_uuid);
        ("id", record_id); ("uuid", uuid)] in
      _send_request self "POST" url (Some payload)
  | _ => raise arity_error
  end.

(** The function a [def] line of the class body denotes, for the two
    definitions modelled here. *)
Definition body_at (line : nat) : option (t -> list Json -> M Json) :=
  if (line =? 1434)%nat then Some create_event_notification_rule_1434
  else if (line =? 1468)%nat then Some create_event_notification_rule_1468
  else None.

(** [self.create_event_notification_rule(...)]: the attribute is looked up
    in the class namespace and the function bound there is called. *)
Definition create_event_notification_rule (self : t) (args : list Json) : M Json :=
  match namespace !! "create_event_notification_rule" with
  | Some line =>
      match body_at line with
      | Some f => f self args
      | None => raise (TypeError "not a modelled definition")
      end
  | None =>
      raise (AttributeError "object has no attribute 'create_event_notification_rule'")
  end.

End Methods.
End System.

(* ===================================================================== *)
(** * The resource methods *)
(* ===================================================================== *)

(** How an [int] is rendered inside an f-string: its decimal digits. *)
Definition format_int (n : Z) : str := pretty n.

(** A value annotated [Union[str, int]]. *)
Inductive str_or_int :=
| AStr (s : str)
| AnInt (n : Z).

Definition format_str_or_int (v : str_or_int) : str :=
  match v with AStr s => s | AnInt n => format_int n end.

(** A [List[str]] as JSON data. *)
Definition json_strs (l : list str) : Json := JList (map JStr l).

(** [Optional[str]] and [Optional[List[str]]] as JSON data, [None] being null. *)
Definition json_opt_str (o : option str) : Json :=
  match o with Some s => JStr s | None => JNull end.
Definition json_opt_strs (o : option (list str)) : Json :=
  match o with Some l => json_strs l | None => JNull end.

(** [v is not None] *)
Definition is_not_None (v : Json) : bool :=
  match v with JNull => false | _ => true end.

(** [{k: v for k, v in d.items() if v is not None}] *)
Definition drop_None (d : list (str * Json)) : list (str * Json) :=
  List.filter (fun kv => is_not_None (snd kv)) d.

(** [d[k] = v] on a dictionary kept in insertion order. *)
Fixpoint dict_set {V : Type} (k : str) (v : V) (d : list (str * V)) : list (str * V) :=
  match d with
  | [] => [(k, v)]
  | (k', v') :: d' =>
      if String.eqb k' k then (k', v) :: d' else (k', v') :: dict_set k v d'
  end.

(** [d.get(k)] *)
Fixpoint dict_get {V : Type} (k : str) (d : list (str * V)) : option V :=
  match d with
  | [] => None
  | (k', v') :: d' => if String.eqb k' k then Some v' else dict_get k d'
  end.

(** ** mdm/mdm.py, lines 60-157 *)
Module MDM_methods.
Section Methods.
Context `{Platform}.

(** [f"{self.aw_environment.api_url}"] *)
Definition api_url (self : MDM.t) : M str :=
  let* v := lift (getattr (MDM.aw_environment self) "api_url") in
  ret (format_value v).

Definition create_smart_group (self : MDM.t) (smart_group_name user_group : str)
    (managed_by_og_id : Z) : M Json :=
  let* base := api_url self in
  let url := base +:+ "/mdm/smartgroups" in
  let payload := JDict [
    ("Name", JStr smart_group_name);
    ("ManagedByOrganizationGroupId", JInt managed_by_og_id);
    ("UserGroups", JList [JDict [("Id", JStr user_group)]])] in
  MDM._send_request self "POST" url (Some payload).

Definition update_product_details (self : MDM.t) (product_id : Z) (smart_group : str)
  : M Json :=
  let* base := api_url self in
  let url := base +:+ "/mdm/products/" +:+ format_int product_id +:+ "/update" in
  let payload := JDict [("SmartGroups", JDict [("SmartGroupID", JStr smart_group)])] in
  MDM._send_request self "POST" url (Some payload).

Definition retrieve_device_information (self : MDM.t) (serial_number : str) : M Json :=
  let* base := api_url self in
  let url := base +:+ "/mdm/devices/serialnumber/" +:+ serial_number in
  MDM._send_request self "GET" url None.

Definition extensive_search_device_details (self : MDM.t)
    (device_identifier : str_or_int) (search_type : str) : M Json :=
  let* base := api_url self in
  let url := base +:+ "/mdm/devices/extensivesearch?" +:+ search_type +:+ "="
             +:+ format_str_or_int device_identifier in
  MDM._send_request self "GET" url None.

Definition initiate_reprocessing_of_product (self : MDM.t) (device_ids : list str)
    (product_id : Z) : M Json :=
  let* base := api_url self in
  let url := base +:+ "/mdm/products/reprocessProduct" in
  let payload := JDict [
    ("ForceFlag", JBool true);
    ("DeviceIds", JList (map (fun device_id => JDict [("ID", JStr device_id)]) device_ids));
    ("ProductID", JInt product_id)] in
  MDM._send_request self "POST" url (Some payload).

Definition get_device_health_check (self : MDM.t)
    (organization_group_id page_size page : Z) : M Json :=
  let* base := api_url self in
  let url := base +:+ "/mdm/products/devicehealthcheck?organizationgroupid="
             +:+ format_int organization_group_id +:+ "&page=" +:+ format_int page
             +:+ "&pagesize=" +:+ format_int page_size in
  MDM._send_request self "GET" url None.

Definition delete_device_by_id (self : MDM.t) (device_id : str) : M Json :=
  let* base := api_url self in
  let url := base +:+ "/mdm/devices/" +:+ device_id in
  MDM._send_request self "DELETE" url None.

Definition update_device_by_id (self : MDM.t) (device_id : str) (device_details : Json)
  : M Json :=
  let* base := api_url self in
  let url := base +:+ "/mdm/devices/" +:+ device_id in
  MDM._send_request self "PUT" url (Some device_details).

Definition change_organization_group (self : MDM.t) (serial_number : str) (org_id : Z)
  : M Json :=
  let* base := api_url self in
  let url := base
             +:+ "/mdm/devices/commands/changeorganizationgroup?searchby=Serialnumber&id="
             +:+ serial_number +:+ "&ogid=" +:+ format_int org_id in
  MDM._send_request self "POST" url None.

Definition add_devices_to_tag (self : MDM.t) (tag_id : Z) (devices : list str) : M Json :=
  let* base := api_url self in
  let url := base +:+ "/mdm/tags/" +:+ format_int tag_id +:+ "/adddevices" in
  let payload := JDict [("BulkValues", JDict [("Value", json_strs devices)])] in
  MDM._send_request self "POST" url (Some payload).

Definition remove_devices_from_tag (self : MDM.t) (tag_id : Z) (devices : list str)
  : M Json :=
  let* base := api_url self in
  let url := base +:+ "/mdm/tags/" +:+ format_int tag_id +:+ "/removedevices" in
  let payload := JDict [("BulkValues", JDict [("Value", json_strs devices)])] in
  MDM._send_request self "POST" url (Some payload).

Definition clear_device_passcode (self : MDM.t) (device_id : str) : M Json :=
  let* base := api_url self in
  let url := base +:+ "/mdm/devices/" +:+ device_id +:+ "/commands?command=ClearPasscode" in
  MDM._send_request self "POST" url None.

Definition command_device_wipe (self : MDM.t) (device_id : str) : M Json :=
  let* base := api_url self in
  let url := base +:+ "/mdm/devices/" +:+ device_id +:+ "/commands?command=DeviceWipe" in
  MDM._send_request self "POST" url None.

Definition get_device_network_info (self : MDM.t) (device_id : str) : M Json :=
  let* base := api_url self in
  let url := base +:+ "/mdm/devices/" +:+ device_id +:+ "/network" in
  MDM._send_request self "GET" url None.

Definition get_smart_group_by_id (self : MDM.t) (smart_group_id : Z) : M Json :=
  let* base := api_url self in
  let url := base +:+ "/mdm/smartgroups/" +:+ format_int smart_group_id in
  MDM._send_request self "GET" url None.

Definition update_smart_group (self : MDM.t) (smart_group_id : Z) (payload : Json)
  : M Json :=
  let* base := api_url self in
  let url := base +:+ "/mdm/smartgroups/" +:+ format_int smart_group_id in
  MDM._send_request self "PUT" url (Some payload).

Definition install_profile (self : MDM.t) (serial_number : str) (profile_id : Z)
  : M Json :=
  let* base := api_url self in
  let url := base +:+ "/mdm/profiles/" +:+ format_int profile_id +:+ "/install" in
  let payload := JDict [("SerialNumber", JStr serial_number)] in
  MDM._send_request self "POST" url (Some payload).

End Methods.
End MDM_methods.

(** ** mam/mam.py, lines 48-152 *)
Module MAM_methods.
Section Methods.
Context `{Platform}.

(** [open(path, "rb")]: the file opens or the call raises. *)
Variable open_rb : str -> Outcome unit.

(** The [with] block has closed the file by the time the request is made. *)
Definition upload_blob (self : MAM.t) (filename apk_file_path og_id : str) : M Json :=
  let url := format_value (MAM.api_url self) +:+ "/mam/blobs/uploadblob?filename="
             +:+ filename +:+ "&organizationgroupid=" +:+ og_id
             +:+ "&moduleType=Application" in
  let* _ := emit (EvOpen apk_file_path) in
  let* _ := lift (open_rb apk_file_path) in
  let files := [("file", {| file_path := apk_file_path; file_closed := true |})] in
  MAM._send_request self "POST" url None (Some files).

Definition install_blob (self : MAM.t) (blob_value app_name deploy : str)
    (auto_update_version : bool) (og_id : str) : M Json :=
  let url := format_value (MAM.api_url self) +:+ "/mam/apps/internal/begininstall" in
  let payload := JDict [
    ("DeviceType", JInt 5);
    ("BlobId", JStr blob_value);
    ("ApplicationName", JStr app_name);
    ("EnableProvisioning", JBool false);
    ("SupportedModels",
     JDict [("Model", JList [JDict [("ModelId", JInt 5); ("ModelName", JStr "Android")]])]);
    ("PushMode", JStr deploy);
    ("AutoUpdateVersion", JBool auto_update_version);
    ("LocationGroupID", JStr og_id)] in
  MAM._send_request self "POST" url (Some payload) None.

Definition assign_int_app_to_sg (self : MAM.t) (app_id : str) (smart_groups : list str)
    (effective_date : str) : M Json :=
  let url := format_value (MAM.api_url self) +:+ "/mam/apps/internal/" +:+ app_id
             +:+ "/assignments" in
  let payload := JDict [
    ("DeploymentParameters",
     JDict [("EffectiveDate", JStr effective_date); ("PushMode", JStr "Auto");
            ("RemoveOnUnEnroll", JBool true)]);
    ("SmartGroupIds", json_strs smart_groups)] in
  MAM._send_request self "POST" url (Some payload) None.

Definition delete_application_assignment_to_sg (self : MAM.t) (app_id : str)
    (smart_group_ids : list str) : M Json :=
  let url := format_value (MAM.api_url self) +:+ "/mam/apps/internal/" +:+ app_id
             +:+ "/assignments" in
  let payload := JDict [("SmartGroupIDs", json_strs smart_group_ids); ("id", JStr app_id)] in
  MAM._send_request self "DELETE" url (Some payload) None.

Definition get_internal_app_details (self : MAM.t) (app_id : str) : M Json :=
  let url := format_value (MAM.api_url self) +:+ "/mam/apps/internal/" +:+ app_id in
  MAM._send_request self "GET" url None None.

Definition retire_internal_application (self : MAM.t) (app_id : str) : M Json :=
  let url := format_value (MAM.api_url self) +:+ "/mam/apps/internal/" +:+ app_id
             +:+ "/retire" in
  MAM._send_request self "POST" url None None.

Definition deployment_parameters : Json :=
  JDict [("AdaptiveManagement", JBool true); ("ApplicationBackup", JBool false);
         ("AutoUpdateDevicesWithPreviousVersion", JBool true);
         ("PushMode", JStr "Auto"); ("RemoveOnUnEnroll", JBool true);
         ("AllowManagement", JBool true); ("Rank", JInt 0)].

Definition edit_assignments_for_internal_app (self : MAM.t) (app_id : str)
    (smart_groups : list str) : M Json :=
  let url := format_value (MAM.api_url self) +:+ "/mam/apps/internal/" +:+ app_id
             +:+ "/assignments" in
  let payload := JDict [
    ("DeploymentParameters", deployment_parameters);
    ("SmartGroupIds", json_strs smart_groups)] in
  MAM._send_request self "PUT" url (Some payload) None.

Definition update_sg_assignments_with_internal_app (self : MAM.t) (app_id : str)
    (smart_groups remove_sg : list str) : M Json :=
  let url := format_value (MAM.api_url self) +:+ "/mam/apps/internal/" +:+ app_id
             +:+ "/assignments" in
  let payload := JDict [
    ("DeploymentParameters", deployment_parameters);
    ("SmartGroupIds", json_strs smart_groups);
    ("SmartGroupIdsForDeletion", json_strs remove_sg)] in
  MAM._send_request self "PUT" url (Some payload) None.

Definition search_application_by_bundle_id (self : MAM.t) (bundle_id : str) : M Json :=
  let url := format_value (MAM.api_url self) +:+ "/mam/apps/search?bundleid="
             +:+ bundle_id in
  MAM._send_request self "GET" url None None.

Definition delete_application_by_app_id (self : MAM.t) (app_id : str) : M Json :=
  let url := format_value (MAM.api_url self) +:+ "/mam/apps/internal/" +:+ app_id in
  MAM._send_request self "DELETE" url None None.

Definition import_approved_android_app (self : MAM.t)
    (uuid application_id device_type : str) : M Json :=
  let url := format_value (MAM.api_url self) +:+ "/groups/" +:+ uuid
             +:+ "/androidwork/apps/import" in
  let payload := JDict [("applicationId", JStr application_id);
                        ("deviceType", JStr device_type)] in
  MAM._send_request self "POST" url (Some payload) None.

End Methods.
End MAM_methods.

(** ** system/system.py: the methods that set an [Accept] header *)
Module System_methods.
Section Methods.
Context `{Platform}.

Definition accept_v1 : pyval := PyStr "application/json;version=1".

(** The guarded block that the methods below write out around
    [self.session.get], [.post] and [.put]: the verb is the HTTP method of the
    call, [json_data] its [json=] argument when there is one. *)
Definition session_exchange (self : System.t) (verb url : str)
    (headers : list (str * pyval)) (json_data : option Json) : M Json :=
  try_except
    (let call := {| call_session := Some (System.session self); call_method := verb;
                    call_url := url; call_headers := headers;
                    call_json := json_data; call_files := None;
                    call_timeout := 90 |} in
     let* _ := emit (EvHttp call) in
     let* response := lift (http_request call) in
     let* _ := raise_for_status response in
     json_or_empty response)
    (fun e =>
       match e with
       | RequestException _ e_response =>
           Some (raise (APIRequestError
                   {| message := "API request to " +:+ url +:+ " failed";
                      error_status_code := response_status e_response |}))
       | _ => None
       end).

(** Lines 1227-1248. *)
Definition get_device_wipe_lock_state (self : System.t) (organization_group_uuid : str)
  : M Json :=
  let url := format_value (System.api_url self) +:+ "/system/groups/"
             +:+ organization_group_uuid +:+ "/device-wipe-lock" in
  let* headers := System._get_headers self url in
  let headers := dict_set "Accept" accept_v1 headers in
  session_exchange self "GET" url headers None.

(** Lines 1250-1269. *)
Definition reset_device_wipe_lock (self : System.t) (organization_group_uuid : str)
  : M Json :=
  let url := format_value (System.api_url self) +:+ "/system/groups/"
             +:+ organization_group_uuid +:+ "/device-wipe-lock" in
  let* headers := System._get_headers self url in
  let headers := dict_set "Accept" accept_v1 headers in
  session_exchange self "PUT" url headers None.

(** Lines 1411-1432. *)
Definition get_enrollment_customization_settings (self : System.t)
    (organization_group_uuid : str) : M Json :=
  let url := format_value (System.api_url self) +:+ "/system/groups/"
             +:+ organization_group_uuid +:+ "/settings/enrollment/customization" in
  let* headers := System._get_headers self url in
  let headers := dict_set "Accept" accept_v1 headers in
  session_exchange self "GET" url headers None.

(** [[{"uuid": uuid} for uuid in uuids]] *)
Definition uuid_objects (uuids : list str) : Json :=
  JList (map (fun uuid => JDict [("uuid", JStr uuid)]) uuids).

(** Lines 1364-1390. *)
Definition create_custom_attributes_for_registered_device (self : System.t)
    (asset_number : str) (custom_attribute_uuids : list str) (device_uuid : str)
  : M Json :=
  let url := format_value (System.api_url self)
             +:+ "/system/users/registereddevices/assetnumber/" +:+ asset_number
             +:+ "/updatecustomattributes" in
  let payload := JDict [("CustomAttributes", uuid_objects custom_attribute_uuids);
                        ("uuid", JStr device_uuid)] in
  let* headers := System._get_headers self url in
  let headers := dict_set "Accept" accept_v1 headers in
  session_exchange self "POST" url headers (Some payload).

(** Lines 1190-1225.  The local [headers] is not passed on. *)
Definition create_device_wipe_report (self : System.t) (organization_group_uuid : str)
    (search_text start_date end_date wipe_type wipe_status wipe_source : option str)
    (ownership : option (list str))
    (sort_column sort_direction export_format : option str) : M Json :=
  let url := format_value (System.api_url self) +:+ "/system/groups/"
             +:+ organization_group_uuid +:+ "/device-wipes/reports" in
  let* headers := System._get_headers self url in
  let headers := dict_set "Accept" accept_v1 headers in
  let payload := [
    ("search_text", json_opt_str search_text);
    ("start_date", json_opt_str start_date);
    ("end_date", json_opt_str end_date);
    ("wipe_type", json_opt_str wipe_type);
    ("wipe_status", json_opt_str wipe_status);
    ("wipe_source", json_opt_str wipe_source);
    ("ownership", json_opt_strs ownership);
    ("sort_column", json_opt_str sort_column);
    ("sort_direction", json_opt_str sort_direction);
    ("export_format", json_opt_str export_format)] in
  let filtered_payload := drop_None payload in
  System._send_request self "POST" url (Some (JDict filtered_payload)).

(** Lines 1271-1282. *)
Definition get_dropship_provisioning (self : System.t) (organization_group_uuid : str)
  : M Json :=
  let url := format_value (System.api_url self) +:+ "/system/groups/"
             +:+ organization_group_uuid +:+ "/dropship-provisioning" in
  let* headers := System._get_headers self url in
  let headers := dict_set "Accept" accept_v1 headers in
  System._send_request self "GET" url None.

(** Lines 1284-1307. *)
Definition enable_dropship_provisioning_v1 (self : System.t)
    (uuid username password organization_group_uuid : str)
    (sub_organization_groups : list Json) (enable_dropship_provisioning : bool)
  : M Json :=
  let url := format_value (System.api_url self) +:+ "/system/groups/" +:+ uuid
             +:+ "/dropship-provisioning" in
  let* headers := System._get_headers self url in
  let headers := dict_set "Accept" accept_v1 headers in
  let data := JDict [
    ("username", JStr username);
    ("password", JStr password);
    ("organization_group_uuid", JStr organization_group_uuid);
    ("sub_organization_groups", JList sub_organization_groups);
    ("enable_dropship_provisioning", JBool enable_dropship_provisioning)] in
  System._send_request self "PATCH" url (Some data).

(** Lines 1309-1323. *)
Definition create_enrollment_custom_attributes (self : System.t) (serial_number : str)
    (custom_attributes : list Json) (uuid : str) : M Json :=
  let url := format_value (System.api_url self)
             +:+ "/system/users/registereddevices/serialnumber/" +:+ serial_number
             +:+ "/createcustomattributes" in
  let* headers := System._get_headers self url in
  let headers := dict_set "Accept" accept_v1 headers in
  let payload := JDict [("CustomAttributes", JList custom_attributes);
                        ("uuid", JStr uuid)] in
  System._send_request self "POST" url (Some payload).

(** Lines 1325-1342. *)
Definition update_custom_attributes_by_serial (self : System.t) (serial_number : str)
    (custom_attributes : list Json) (uuid : str) : M Json :=
  let url := format_value (System.api_url self)
             +:+ "/system/users/registereddevices/serialnumber/" +:+ serial_number
             +:+ "/updatecustomattributes" in
  let* headers := System._get_headers self url in
  let headers := dict_set "Accept" accept_v1 headers in
  let payload := JDict [("CustomAttributes", JList custom_attributes);
                        ("uuid", JStr uuid)] in
  System._send_request self "POST" url (Some payload).

(** Lines 1344-1362. *)
Definition delete_custom_attributes_by_serial (self : System.t) (serial_number : str)
    (custom_attribute_uuids : list str) (request_uuid : str) : M Json :=
  let url := format_value (System.api_url self)
             +:+ "/system/users/registereddevices/serialnumber/" +:+ serial_number
             +:+ "/deletecustomattributes" in
  let* headers := System._get_headers self url in
  let headers := dict_set "Accept" accept_v1 headers in
  let payload := JDict [("CustomAttributes", uuid_objects custom_attribute_uuids);
                        ("uuid", JStr request_uuid)] in
  System._send_request self "POST" url (Some payload).

(** Lines 1392-1409. *)
Definition delete_custom_attributes_for_registered_device (self : System.t)
    (asset_number : str) (custom_attributes : list Json) (uuid : str) : M Json :=
  let url := format_value (System.api_url self)
             +:+ "/system/users/registereddevices/assetnumber/" +:+ asset_number
             +:+ "/deletecustomattributes" in
  let* headers := System._get_headers self url in
  let headers := dict_set "Accept" accept_v1 headers in
  let payload := JDict [("CustomAttributes", JList custom_attributes);
                        ("uuid", JStr uuid)] in
  System._send_request self "POST" url (Some payload).

End Methods.
End System_methods.

(* ===================================================================== *)
(** * examples/device_look_up.py and examples/device_health_report.py *)
(* ===================================================================== *)

(** [not v] for optional strings and integers: [None], the empty string and
    zero are falsy. *)
Definition opt_str_falsy (o : option str) : bool :=
  match o with Some s => str_falsy s | None => true end.
Definition opt_int_falsy (o : option Z) : bool :=
  match o with Some n => n =? 0 | None => true end.

(** [j.get(key, default)]: only a mapping has the method. *)
Definition json_get (j : Json) (key : str) (default : Json) : Outcome Json :=
  match j with
  | JDict d => Ok (match dict_get key d with Some v => v | None => default end)
  | _ => Raise (AttributeError "object has no attribute 'get'")
  end.

(** The characters of a [str]: a byte that is not a UTF-8 continuation byte
    starts a new one. *)
Definition is_continuation_byte (c : ascii) : bool :=
  ((128 <=? N_of_ascii c) && (N_of_ascii c <? 192))%N.

Fixpoint characters (s : str) : list str :=
  match s with
  | EmptyString => []
  | String c s' =>
      let r := characters s' in
      match s' with
      | String d _ =>
          if is_continuation_byte d
          then match r with
               | x :: r' => String c x :: r'
               | [] => [String c EmptyString]
               end
          else String c EmptyString :: r
      | EmptyString => [String c EmptyString]
      end
  end.

(** What iterating over a JSON value yields: the elements of a list, the
    keys of a mapping, the characters of a string; nothing else iterates. *)
Definition json_iter (j : Json) : Outcome (list Json) :=
  match j with
  | JList l => Ok l
  | JDict d => Ok (map (fun kv => JStr (fst kv)) d)
  | JStr s => Ok (map JStr (characters s))
  | _ => Raise (TypeError "object is not iterable")
  end.

(** The process environment after [load_dotenv(override=True)]. *)
Abbreviation Environ := (gmap string str).

Module DeviceExtensiveSearch.

Record t := { aw_environment : Object; auth : WorkspaceOneAuth.t; mdm : MDM.t }.

(** Lines 10-44; the parameter [environment] is not used.  Past each check
    the two values are non-empty strings. *)
Definition __init__ (environ : Environ) (environment : str) : Outcome t :=
  let api_url := environ !! "CN00_API_URL" in
  let tenant_code := environ !! "CN00_TENANT_CODE" in
  let parent_og_id := environ !! "CN00_PARENT_OG_ID" in
  if opt_str_falsy api_url || opt_str_falsy tenant_code
  then Raise (ValueError "❌ Missing required API_URL or TENANT_CODE in .env")
  else
    let? aw_environment :=
      AWEnvironment.__init__ (default "" api_url) (default "" tenant_code) parent_og_id in
    let cert_path := environ !! "CN00_CERT_PATH" in
    let cert_pw := environ !! "CN00_CERT_PW" in
    if opt_str_falsy cert_path || opt_str_falsy cert_pw
    then Raise (ValueError "❌ Missing required CERT_PATH or CERT_PW in .env")
    else
      let? auth := WorkspaceOneAuth.__init__ (default "" cert_path) (default "" cert_pw) in
      let? mdm := MDM.__init__ aw_environment auth in
      Ok {| aw_environment := aw_environment; auth := auth; mdm := mdm |}.

Definition no_parameters : Json :=
  JDict [("error",
          JStr "No valid parameters provided. Please provide a serial number or device ID.")].

Section Methods.
Context `{Platform}.

(** Lines 46-71.  After the first test one of the two arguments is truthy,
    so the last branch, where [response] would be unbound, is never taken. *)
Definition get_device_extensive_search (self : t)
    (device_serial_number : option str) (device_id : option Z) : M Json :=
  try_except
    (if opt_str_falsy device_serial_number && opt_int_falsy device_id
     then ret no_parameters
     else if negb (opt_str_falsy device_serial_number)
     then MDM_methods.extensive_search_device_details (mdm self)
            (AStr (default "" device_serial_number)) "serialNumber"
     else if negb (opt_int_falsy device_id)
     then MDM_methods.extensive_search_device_details (mdm self)
            (AnInt (default 0 device_id)) "deviceId"
     else raise (LibraryError "local variable 'response' referenced before assignment"))
    (fun e => Some (ret (JDict [("error", JStr (exn_str e))]))).

End Methods.
End DeviceExtensiveSearch.

Module DeviceHealthReportTracker.

Record t := {
  make_next_call : bool;
  error_message : list str;
  page_counter : Z;
  total_devices : Z;
  max_amount_of_pages : Z;
  success : bool;
  organization_group_id : Z;
  page_size : Z
}.

(** [self.success = not bool(self.error_message)] *)
Definition set_success (self : t) : t :=
  {| make_next_call := make_next_call self; error_message := error_message self;
     page_counter := page_counter self; total_devices := total_devices self;
     max_amount_of_pages := max_amount_of_pages self;
     success := match error_message self with [] => true | _ => false end;
     organization_group_id := organization_group_id self; page_size := page_size self |}.

Definition __init__ (organization_group_id page_size : Z) : t :=
  set_success
    {| make_next_call := true; error_message := []; page_counter := 0;
       total_devices := 0; max_amount_of_pages := 0; success := false;
       organization_group_id := organization_group_id; page_size := page_size |}.

Definition with_max (self : t) (pages : Z) : t :=
  {| make_next_call := make_next_call self; error_message := error_message self;
     page_counter := page_counter self; total_devices := total_devices self;
     max_amount_of_pages := pages; success := success self;
     organization_group_id := organization_group_id self; page_size := page_size self |}.

Section Ceil.
(** [math.ceil(total_devices / page_size)]: a floating-point division of
    whatever the response held under ["Total"], rounded up to an [int]. *)
Variable ceil_div : Json -> Z -> Outcome Z.

Definition set_max_amount_of_pages (self : t) (total_devices : Json) (page_size : Z)
  : Outcome t :=
  let? pages := ceil_div total_devices page_size in
  Ok (with_max self pages).
End Ceil.

Definition increment_page (self : t) : t :=
  if page_counter self <? max_amount_of_pages self
  then {| make_next_call := true; error_message := error_message self;
          page_counter := page_counter self + 1; total_devices := total_devices self;
          max_amount_of_pages := max_amount_of_pages self; success := success self;
          organization_group_id := organization_group_id self;
          page_size := page_size self |}
  else {| make_next_call := false; error_message := error_message self;
          page_counter := page_counter self; total_devices := total_devices self;
          max_amount_of_pages := max_amount_of_pages self; success := success self;
          organization_group_id := organization_group_id self;
          page_size := page_size self |}.

Definition get_organization_group_id (self : t) : Z := organization_group_id self.
Definition get_page_size (self : t) : Z := page_size self.
Definition get_make_next_call (self : t) : bool := make_next_call self.
Definition get_page_counter (self : t) : Z := page_counter self.

End DeviceHealthReportTracker.

Module DeviceHealthReport.

Record t := {
  aw_environment : Object;
  auth : WorkspaceOneAuth.t;
  mdm : MDM.t;
  page_size : Z
}.

(** Lines 64-96. *)
Definition __init__ (environ : Environ) : Outcome t :=
  let api_url := environ !! "CN00_API_URL" in
  let tenant_code := environ !! "CN00_TENANT_CODE" in
  let parent_og_id := environ !! "CN00_PARENT_OG_ID" in
  if opt_str_falsy api_url || opt_str_falsy tenant_code
  then Raise (ValueError "❌ Missing required API_URL or TENANT_CODE in .env")
  else
    let? aw_environment :=
      AWEnvironment.__init__ (default "" api_url) (default "" tenant_code) parent_og_id in
    let cert_path := environ !! "CN00_CERT_PATH" in
    let cert_pw := environ !! "CN00_CERT_PW" in
    if opt_str_falsy cert_path || opt_str_falsy cert_pw
    then Raise (ValueError "❌ Missing required CERT_PATH or CERT_PW in .env")
    else
      let? auth := WorkspaceOneAuth.__init__ (default "" cert_path) (default "" cert_pw) in
      let? mdm := MDM.__init__ aw_environment auth in
      Ok {| aw_environment := aw_environment; auth := auth; mdm := mdm;
            page_size := 5000 |}.

(** An element of the list that [run_airwatch_device_health_check] returns:
    a piece of response data, or the exception that ended the run. *)
Inductive item :=
| Data (j : Json)
| Failure (e : exn).

Section Methods.
Context `{Platform}.
Variable ceil_div : Json -> Z -> Outcome Z.

(** One turn of the [while] loop, lines 121-137: the page is fetched, its
    ["Devices"] are appended and the tracker moves on, or the exception is
    kept. *)
Definition fetch_page (self : t) (org_id : Z) (tracker : DeviceHealthReportTracker.t)
    (all_device_data : list item)
  : M (list item * DeviceHealthReportTracker.t + exn) :=
  try_except
    (let* api_response :=
       MDM_methods.get_device_health_check (mdm self) org_id
         (DeviceHealthReportTracker.get_page_size tracker)
         (DeviceHealthReportTracker.get_page_counter tracker) in
     let* devices := lift (json_get api_response "Devices" (JList [])) in
     let* more := lift (json_iter devices) in
     ret (inl (all_device_data ++ map Data more,
               DeviceHealthReportTracker.increment_page tracker)))
    (fun e => Some (ret (inr e))).

(** The [while] loop; [None] when the fuel runs out. *)
Fixpoint fetch_pages (fuel : nat) (self : t) (org_id : Z)
    (tracker : DeviceHealthReportTracker.t) (all_device_data : list item)
  : M (option (list item)) :=
  match fuel with
  | O => ret None
  | S fuel' =>
      if DeviceHealthReportTracker.get_make_next_call tracker
      then
        let* turn := fetch_page self org_id tracker all_device_data in
        match turn with
        | inl (all_device_data', tracker') =>
            fetch_pages fuel' self org_id tracker' all_device_data'
        | inr e => ret (Some [Failure e])
        end
      else ret (Some all_device_data)
  end.

(** Lines 98-139. *)
Definition run_airwatch_device_health_check (fuel : nat) (self : t)
    (organization_group_id : Z) : M (option (list item)) :=
  let tracker := DeviceHealthReportTracker.__init__ organization_group_id (page_size self) in
  let org_id := DeviceHealthReportTracker.get_organization_group_id tracker in
  let all_device_data : list item := [] in
  let* counted :=
    try_except
      (let* request := MDM_methods.get_device_health_check (mdm self) org_id 1 0 in
       let* total_devices := lift (json_get request "Total" (JInt 0)) in
       let* tracker' :=
         lift (DeviceHealthReportTracker.set_max_amount_of_pages ceil_div tracker
                 total_devices (DeviceHealthReportTracker.get_page_size tracker)) in
       ret (Some tracker'))
      (fun e => Some (ret None)) in
  match counted with
  | None => ret (Some [])
  | Some tracker => fetch_pages fuel self org_id tracker all_device_data
  end.

End Methods.
End DeviceHealthReport.

(* ===================================================================== *)
(** * Vocabulary for the statements *)
(* ===================================================================== *)

Section Vocabulary.
Context `{Platform}.

(** Where the PKCS#12 bytes come from: memory for instances made by
    [from_memory], the file at [cert_path] otherwise. *)
Definition p12_source (self : WorkspaceOneAuth.t) : Outcome bytes :=
  if default false (WorkspaceOneAuth.use_memory_cert self)
  then match WorkspaceOneAuth.cert_bytes self with
       | Some b => Ok b
       | None => Raise (AttributeError "object has no attribute 'cert_bytes'")
       end
  else read_file (WorkspaceOneAuth.cert_path self).

(** The events of the load step: the file is opened unless the bytes are
    held in memory, then the bundle is decoded. *)
Definition load_events (self : WorkspaceOneAuth.t) : list Event :=
  (if default false (WorkspaceOneAuth.use_memory_cert self) then []
   else [EvOpen (WorkspaceOneAuth.cert_path self)]) ++
  match p12_source self with
  | Ok d => [EvLoadP12 d (encode_utf8 (WorkspaceOneAuth.cert_pw self))]
  | Raise _ => []
  end.

(** The builder that [_sign_data] hands to the signing call. *)
Definition signing_builder (private_key : PrivateKey) (certificate : Certificate)
    (data : str) : PKCS7SignatureBuilder PrivateKey Certificate :=
  add_signer (set_data new_builder (encode_utf8 data)) certificate private_key SHA512.

(** What one exchange with the transport yields: [on_error m r] is the
    exception that the dispatcher raises in place of a [RequestException]
    with text [m] and response [r]. *)
Definition transport_outcome (call : HttpCall)
    (on_error : str -> option Response -> exn) : Outcome Json :=
  let translate (e : exn) : exn :=
    match e with RequestException m r => on_error m r | _ => e end in
  match http_request call with
  | Raise e => Raise (translate e)
  | Ok response =>
      if (400 <=? status_code response) && (status_code response <? 600)
      then Raise (on_error (http_error_msg response) (Some response))
      else if str_falsy (text response) then Ok empty_dict
      else match response_json response with
           | Ok j => Ok j
           | Raise e => Raise (translate e)
           end
  end.

(** The error each dispatcher builds from a [RequestException]. *)
Definition failed_with_status (url m : str) (r : option Response) : exn :=
  APIRequestError {| message := "API request to " +:+ url +:+ " failed";
                     error_status_code := response_status r |}.
Definition failed_with_text (m : str) (r : option Response) : exn :=
  APIRequestError {| message := m; error_status_code := None |}.

(** The call each dispatcher makes, given the headers it built. *)
Definition MDM_call (method url : str) (headers : list (str * pyval))
    (data : option Json) : HttpCall :=
  {| call_session := None; call_method := method; call_url := url;
     call_headers := headers; call_json := data; call_files := None;
     call_timeout := 90 |}.
Definition MAM_call (method url : str) (headers : list (str * pyval))
    (json_data : option Json) (files : option (list (str * pyfile))) : HttpCall :=
  {| call_session := None; call_method := method; call_url := url;
     call_headers := headers; call_json := json_data; call_files := files;
     call_timeout := 90 |}.
Definition System_call (self : System.t) (method url : str)
    (headers : list (str * pyval)) (json_data : option Json) : HttpCall :=
  {| call_session := Some (System.session self); call_method := method;
     call_url := url; call_headers := headers; call_json := json_data;
     call_files := None; call_timeout := 90 |}.

(** A status that [raise_for_status] lets through. *)
Definition success_status (status : Z) : Prop := ~ (400 <= status < 600).

End Vocabulary.

(* ===================================================================== *)
(** * Vocabulary for the resource methods and the examples *)
(* ===================================================================== *)

Section MoreVocabulary.
Context `{Platform}.

(** The files opened and the PKCS#12 decodings asked for in a trace. *)
Definition opened_files (h : list Event) : list str :=
  omap (fun e => match e with EvOpen path => Some path | _ => None end) h.
Definition p12_loads (h : list Event) : list (bytes * bytes) :=
  omap (fun e => match e with EvLoadP12 d pw => Some (d, pw) | _ => None end) h.

(** The events of one run of the authenticator. *)
Definition auth_events (a : WorkspaceOneAuth.t) (url : str) : list Event :=
  snd (WorkspaceOneAuth.get_cmsurl_header a url []).

Definition is_RequestException (e : exn) : bool :=
  match e with RequestException _ _ => true | _ => false end.

(** The keys of the dictionary that [_get_headers] builds. *)
Definition standard_keys : list str := ["Authorization"; "aw-tenant-code"; "Content-Type"].

(** A call of one of the [System] methods that set [Accept] and then go
    through [_send_request]. *)
Inductive delegating_call :=
| CreateDeviceWipeReport (organization_group_uuid : str)
    (search_text start_date end_date wipe_type wipe_status wipe_source : option str)
    (ownership : option (list str))
    (sort_column sort_direction export_format : option str)
| GetDropshipProvisioning (organization_group_uuid : str)
| EnableDropshipProvisioningV1 (uuid username password organization_group_uuid : str)
    (sub_organization_groups : list Json) (enable_dropship_provisioning : bool)
| CreateEnrollmentCustomAttributes (serial_number : str)
    (custom_attributes : list Json) (uuid : str)
| UpdateCustomAttributesBySerial (serial_number : str)
    (custom_attributes : list Json) (uuid : str)
| DeleteCustomAttributesBySerial (serial_number : str)
    (custom_attribute_uuids : list str) (request_uuid : str)
| DeleteCustomAttributesForRegisteredDevice (asset_number : str)
    (custom_attributes : list Json) (uuid : str).

Definition run_delegating (self : System.t) (c : delegating_call) : M Json :=
  match c with
  | CreateDeviceWipeReport u a1 a2 a3 a4 a5 a6 a7 a8 a9 a10 =>
      System_methods.create_device_wipe_report self u a1 a2 a3 a4 a5 a6 a7 a8 a9 a10
  | GetDropshipProvisioning u => System_methods.get_dropship_provisioning self u
  | EnableDropshipProvisioningV1 u n pw og subs en =>
      System_methods.enable_dropship_provisioning_v1 self u n pw og subs en
  | CreateEnrollmentCustomAttributes sn attrs u =>
      System_methods.create_enrollment_custom_attributes self sn attrs u
  | UpdateCustomAttributesBySerial sn attrs u =>
      System_methods.update_custom_attributes_by_serial self sn attrs u
  | DeleteCustomAttributesBySerial sn uuids u =>
      System_methods.delete_custom_attributes_by_serial self sn uuids u
  | DeleteCustomAttributesForRegisteredDevice an attrs u =>
      System_methods.delete_custom_attributes_for_registered_device self an attrs u
  end.

(** A call of one of the [System] methods that set [Accept] and talk to the
    session themselves. *)
Inductive inline_call :=
| GetDeviceWipeLockState (organization_group_uuid : str)
| ResetDeviceWipeLock (organization_group_uuid : str)
| GetEnrollmentCustomizationSettings (organization_group_uuid : str)
| CreateCustomAttributesForRegisteredDevice (asset_number : str)
    (custom_attribute_uuids : list str) (device_uuid : str).

Definition run_inline (self : System.t) (c : inline_call) : M Json :=
  match c with
  | GetDeviceWipeLockState u => System_methods.get_device_wipe_lock_state self u
  | ResetDeviceWipeLock u => System_methods.reset_device_wipe_lock self u
  | GetEnrollmentCustomizationSettings u =>
      System_methods.get_enrollment_customization_settings self u
  | CreateCustomAttributesForRegisteredDevice an uuids u =>
      System_methods.create_custom_attributes_for_registered_device self an uuids u
  end.

(** A call of one of the resource methods of [MDM]. *)
Inductive MDM_op :=
| CreateSmartGroup (smart_group_name user_group : str) (managed_by_og_id : Z)
| UpdateProductDetails (product_id : Z) (smart_group : str)
| RetrieveDeviceInformation (serial_number : str)
| ExtensiveSearchDeviceDetails (device_identifier : str_or_int) (search_type : str)
| InitiateReprocessingOfProduct (device_ids : list str) (product_id : Z)
| GetDeviceHealthCheck (organization_group_id page_size page : Z)
| DeleteDeviceById (device_id : str)
| UpdateDeviceById (device_id : str) (device_details : Json)
| ChangeOrganizationGroup (serial_number : str) (org_id : Z)
| AddDevicesToTag (tag_id : Z) (devices : list str)
| RemoveDevicesFromTag (tag_id : Z) (devices : list str)
| ClearDevicePasscode (device_id : str)
| CommandDeviceWipe (device_id : str)
| GetDeviceNetworkInfo (device_id : str)
| GetSmartGroupById (smart_group_id : Z)
| UpdateSmartGroup (smart_group_id : Z) (payload : Json)
| InstallProfile (serial_number : str) (profile_id : Z).

Definition run_MDM_op (self : MDM.t) (op : MDM_op) : M Json :=
  match op with
  | CreateSmartGroup n u og => MDM_methods.create_smart_group self n u og
  | UpdateProductDetails pid sg => MDM_methods.update_product_details self pid sg
  | RetrieveDeviceInformation sn => MDM_methods.retrieve_device_information self sn
  | ExtensiveSearchDeviceDetails d t =>
      MDM_methods.extensive_search_device_details self d t
  | InitiateReprocessingOfProduct ids pid =>
      MDM_methods.initiate_reprocessing_of_product self ids pid
  | GetDeviceHealthCheck og ps pg => MDM_methods.get_device_health_check self og ps pg
  | DeleteDeviceById d => MDM_methods.delete_device_by_id self d
  | UpdateDeviceById d details => MDM_methods.update_device_by_id self d details
  | ChangeOrganizationGroup sn og => MDM_methods.change_organization_group self sn og
  | AddDevicesToTag t ds => MDM_methods.add_devices_to_tag self t ds
  | RemoveDevicesFromTag t ds => MDM_methods.remove_devices_from_tag self t ds
  | ClearDevicePasscode d => MDM_methods.clear_device_passcode self d
  | CommandDeviceWipe d => MDM_methods.command_device_wipe self d
  | GetDeviceNetworkInfo d => MDM_methods.get_device_network_info self d
  | GetSmartGroupById g => MDM_methods.get_smart_group_by_id self g
  | UpdateSmartGroup g payload => MDM_methods.update_smart_group self g payload
  | InstallProfile sn pid => MDM_methods.install_profile self sn pid
  end.

(** The URL of one page of the device health check. *)
Definition page_url (base : str) (organization_group_id page_size page : Z) : str :=
  base +:+ "/mdm/products/devicehealthcheck?organizationgroupid="
  +:+ format_int organization_group_id +:+ "&page=" +:+ format_int page
  +:+ "&pagesize=" +:+ format_int page_size.

(** The pages [first], [first + 1], ... : [count] of them. *)
Definition pages_from (first : Z) (count : nat) : list Z :=
  map (fun i => first + Z.of_nat i) (seq 0 count).

(** The turns the paging loop can take from a tracker state. *)
Definition turns_left (tracker : DeviceHealthReportTracker.t) : nat :=
  if DeviceHealthReportTracker.make_next_call tracker
  then S (Z.to_nat (DeviceHealthReportTracker.max_amount_of_pages tracker
                    - DeviceHealthReportTracker.page_counter tracker))
  else O.

Definition is_Failure (i : DeviceHealthReport.item) : bool :=
  match i with DeviceHealthReport.Failure _ => true | DeviceHealthReport.Data _ => false end.

(** The requests for a signature in a trace: the builder, the encoding and
    the options handed to the signing call. *)
Definition sign_calls (h : list Event)
  : list (PKCS7SignatureBuilder PrivateKey Certificate * Encoding * list PKCS7Options) :=
  omap (fun e => match e with EvSign b enc opts => Some (b, enc, opts) | _ => None end) h.

(** [urlparse] gives for [u] the path that the model of CPython's gives,
    and raises where the model raises, whatever the exception says. *)
Definition parses_path_as_modelled (chk1 chk2 : str -> option str) (u : str) : Prop :=
  match UrlParse.urlparse chk1 chk2 u with
  | Ok r => exists r', urlparse u = Ok r' /\ UrlParse.path r' = UrlParse.path r
  | Raise _ => exists e, urlparse u = Raise e
  end.

(** The devices of one page of the health check: what
    [get_device_health_check] returns for the page, its ["Devices"] entry
    (or the empty list) iterated. *)
Definition page_devices (self : DeviceHealthReport.t)
    (organization_group_id page_size page : Z) : Outcome (list Json) :=
  let? api_response :=
    fst (MDM_methods.get_device_health_check (DeviceHealthReport.mdm self)
           organization_group_id page_size page []) in
  let? devices := json_get api_response "Devices" (JList []) in
  json_iter devices.

(** *** The retry policy of [System], read in closed form *)

(** The methods for which urllib3 retries a response or a failed read. *)
Definition idempotent (method : str) : bool :=
  existsb (String.eqb (Urllib3.upper method))
          ["HEAD"; "GET"; "PUT"; "DELETE"; "OPTIONS"; "TRACE"].

(** Whether another attempt follows an answer, while retries are left: a
    listed status, or the status 413, 429 or 503 with a [Retry-After]
    header, on an idempotent method; a connection that could not be made; a
    read that failed on an idempotent method. *)
Definition retried_by_System (method : str) (answer : Urllib3.WireAnswer) : bool :=
  match answer with
  | Urllib3.Answered status retry_after _ =>
      idempotent method &&
      (Urllib3.status_in status [500; 502; 503; 504] ||
       (match retry_after with Some _ => true | None => false end
        && Urllib3.status_in status [413; 429; 503]))
  | Urllib3.ConnectFailed => true
  | Urllib3.ReadFailed => idempotent method
  end.

(** The seconds slept after answer number [k] (from 0) before the next
    attempt: what [Retry-After] asks for, or else nothing, then 2, then 4. *)
Definition slept_by_System (k : nat) (answer : Urllib3.WireAnswer) : Z :=
  let backoff := nth k [0; 2; 4] 0 in
  match answer with
  | Urllib3.Answered _ (Some seconds) _ => if 0 <? seconds then seconds else backoff
  | _ => backoff
  end.

(** How the request ends on the answer that is not followed by another
    attempt; [last_attempt] says that the three retries are used up. *)
Definition ended_by_System (method : str) (last_attempt : bool)
    (answer : Urllib3.WireAnswer) : Z * str + Urllib3.Failure :=
  match answer with
  | Urllib3.Answered status _ text =>
      if last_attempt && idempotent method
         && Urllib3.status_in status [500; 502; 503; 504]
      then inr (Urllib3.TooManyResponses status)
      else inl (status, text)
  | Urllib3.ConnectFailed => inr Urllib3.TooManyConnectErrors
  | Urllib3.ReadFailed =>
      if idempotent method then inr Urllib3.TooManyReadErrors
      else inr Urllib3.ReadErrorReraised
  end.

(** The platform sends what goes through a session as the adapters of that
    session do, the network doing [wire c n] with attempt [n] of call [c],
    and [describe c] giving the text of the exception a failure of [c] is
    raised with. *)
Definition sends_through_adapters (describe : HttpCall -> Urllib3.Failure -> str)
    (wire : HttpCall -> nat -> Urllib3.WireAnswer) : Prop :=
  forall c s, call_session c = Some s ->
    exists sleeps,
      Urllib3.Session_request (describe c) s (call_method c) (call_url c) (wire c)
      = Some (http_request c, sleeps).

End MoreVocabulary.

(* ===================================================================== *)
(** * A concrete platform, to run the code on examples *)
(* ===================================================================== *)

Module Sample.

Inductive key := the_key.
Inductive cert := the_cert.

Definition bytes_eqb (a b : bytes) : bool :=
  String.eqb (string_of_list_byte a) (string_of_list_byte b).

(** One PKCS#12 file, [cert.p12], protected by the password [secret]. *)
Definition p12_bundle : bytes := encode_utf8 "PKCS12:key+cert".

Definition sample_read_file (path : str) : Outcome bytes :=
  if String.eqb path "cert.p12" then Ok p12_bundle
  else Raise (OSError "[Errno 2] No such file or directory").

Definition sample_load (data password : bytes) : Outcome (option key * option cert) :=
  if bytes_eqb data p12_bundle && bytes_eqb password (encode_utf8 "secret")
  then Ok (Some the_key, Some the_cert)
  else Raise (ValueError "Invalid password or PKCS12 data.").

(** The signature container is stood for by a tag followed by the data. *)
Definition sample_sign (b : PKCS7SignatureBuilder key cert)
    (enc : Encoding) (opts : list PKCS7Options) : Outcome bytes :=
  match builder_data b with
  | Some d => Ok (encode_utf8 "der:" ++ d)
  | None => Raise (ValueError "You must add data to sign")
  end.

Definition base : str := "https://host/API".

(** The server: [/a/b] answers 200 with an empty JSON object, [/empty]
    answers 200 with no body, [/missing] answers 404, [/busy] answers 503,
    at every attempt; no connection can be made for any other URL. *)
Definition sample_wire (c : HttpCall) (attempt : nat) : Urllib3.WireAnswer :=
  let u := call_url c in
  if String.eqb u "https://host/a/b?x=1" || String.eqb u "https://host/a/b?x=2"
  then Urllib3.Answered 200 None "{}"
  else if String.eqb u "https://host/empty" then Urllib3.Answered 200 None ""
  else if String.eqb u "https://host/missing" then Urllib3.Answered 404 None "Not Found"
  else if String.eqb u "https://host/busy" then Urllib3.Answered 503 None ""
  else if String.eqb u (base +:+ System.v1_path) then Urllib3.Answered 200 None "{}"
  else Urllib3.ConnectFailed.

Definition sample_describe (failure : Urllib3.Failure) : str :=
  match failure with
  | Urllib3.TooManyResponses _ => "Max retries exceeded (too many error responses)"
  | Urllib3.TooManyConnectErrors => "Connection refused"
  | Urllib3.TooManyReadErrors => "Max retries exceeded (read error)"
  | Urllib3.ReadErrorReraised => "Connection aborted"
  | Urllib3.NoAdapter => "No connection adapters were found"
  end.

(** A call goes through its session, or through a fresh one when it has
    none ([requests.request]). *)
Definition sample_http (c : HttpCall) : Outcome Response :=
  let session := match call_session c with Some s => s | None => new_session end in
  match Urllib3.Session_request sample_describe session (call_method c) (call_url c)
          (sample_wire c) with
  | Some (result, _) => result
  | None => Raise (LibraryError "the retry loop did not end")
  end.

Definition sample_json (r : Response) : Outcome Json :=
  if String.eqb (text r) "{}" then Ok empty_dict
  else Raise (RequestException "Expecting value: line 1 column 1 (char 0)" None).

(** The two checks of [urlparse] never raise here: no URL of the examples
    has a bracketed host or a non-ASCII netloc. *)
#[export] Instance platform : Platform := {|
  PrivateKey := key;
  Certificate := cert;
  read_file := sample_read_file;
  load_key_and_certificates := sample_load;
  pkcs7_sign := sample_sign;
  urlparse := UrlParse.urlparse (fun _ => None) (fun _ => None);
  http_request := sample_http;
  http_error_msg := fun r => "HTTP error for url";
  response_json := sample_json
|}.

Definition good_auth : WorkspaceOneAuth.t :=
  {| WorkspaceOneAuth.cert_path := "cert.p12"; WorkspaceOneAuth.cert_pw := "secret";
     WorkspaceOneAuth.cert_bytes := None; WorkspaceOneAuth.use_memory_cert := None |}.

Definition wrong_password_auth : WorkspaceOneAuth.t :=
  {| WorkspaceOneAuth.cert_path := "cert.p12"; WorkspaceOneAuth.cert_pw := "guess";
     WorkspaceOneAuth.cert_bytes := None; WorkspaceOneAuth.use_memory_cert := None |}.

Definition missing_file_auth : WorkspaceOneAuth.t :=
  {| WorkspaceOneAuth.cert_path := "nowhere.p12"; WorkspaceOneAuth.cert_pw := "secret";
     WorkspaceOneAuth.cert_bytes := None; WorkspaceOneAuth.use_memory_cert := None |}.

(** The object [AWEnvironment("https://host/API", "tenant-1")] builds. *)
Definition env : Object :=
  <[ "parent_og" := PyNone ]>
    (<[ "tenant_code" := PyStr "tenant-1" ]>
       (<[ "api_url" := PyStr base ]>
          {[ "logger" := PyLogger AWEnvironment.module_name ]})).

(** The same object after [env.environment = "prod"]. *)
Definition env_with_environment : Object := <[ "environment" := PyStr "prod" ]> env.

Definition mdm (a : WorkspaceOneAuth.t) : MDM.t :=
  {| MDM.aw_environment := env; MDM.auth := a |}.

Definition mam (a : WorkspaceOneAuth.t) : MAM.t :=
  {| MAM.aw_environment := env; MAM.auth := a;
     MAM.api_url := PyStr base; MAM.tenant_code := PyStr "tenant-1" |}.

Definition system (a : WorkspaceOneAuth.t) : System.t :=
  {| System.aw_environment := env_with_environment; System.auth := a;
     System.api_url := PyStr base; System.tenant_code := PyStr "tenant-1";
     System.environment := PyStr "prod";
     System.session := mount new_session "https://" {| max_retries := System.retries |} |}.

(** Two URLs that differ in the query string only, and what [urlparse]
    makes of them. *)
Definition url_x1 : str := "https://host/a/b?x=1".
Definition url_x2 : str := "https://host/a/b?x=2".

Definition unsigned_headers : list (str * pyval) :=
  [("Authorization", PyNone); ("aw-tenant-code", PyStr "tenant-1");
   ("Content-Type", PyStr "application/json")].

Definition parsed_x1 : UrlParse.ParseResult :=
  {| UrlParse.scheme := "https"; UrlParse.netloc := "host"; UrlParse.path := "/a/b";
     UrlParse.params := ""; UrlParse.query := "x=1"; UrlParse.fragment := "" |}.
Definition parsed_x2 : UrlParse.ParseResult :=
  {| UrlParse.scheme := "https"; UrlParse.netloc := "host"; UrlParse.path := "/a/b";
     UrlParse.params := ""; UrlParse.query := "x=2"; UrlParse.fragment := "" |}.

(** Eleven positional arguments for [create_event_notification_rule]. *)
Definition rule_args : list Json :=
  [JStr "siem"; JStr "https://siem.example/hook"; JStr "user"; JStr "pw";
   JInt 1; JBool true; JInt 570; JStr "og-uuid"; JDict []; JInt 0; JStr "rule-uuid"].

End Sample.

(* ===================================================================== *)
(** * A second server, for the paged report *)
(* ===================================================================== *)

Module SampleReport.

(** An authenticator that holds the bundle of [Sample] in memory. *)
Definition memory_auth : WorkspaceOneAuth.t :=
  {| WorkspaceOneAuth.cert_path := ""; WorkspaceOneAuth.cert_pw := "secret";
     WorkspaceOneAuth.cert_bytes := Some Sample.p12_bundle;
     WorkspaceOneAuth.use_memory_cert := Some true |}.

(** A URL that [urlparse] refuses: the bracket is never closed. *)
Definition bad_url : str := "https://[host/a".

Definition device : Json := JDict [("DeviceId", JInt 7); ("Healthy", JBool true)].

(** The health check of organization group 570 holds one device: the
    counting request and page 0 answer with it, page 1 is empty; any other
    URL cannot be reached. *)
Definition report_http (c : HttpCall) : Outcome Response :=
  let u := call_url c in
  if String.eqb u (page_url Sample.base 570 1 0)
  then Ok {| status_code := 200; text := "count" |}
  else if String.eqb u (page_url Sample.base 570 5000 0)
  then Ok {| status_code := 200; text := "page 0" |}
  else if String.eqb u (page_url Sample.base 570 5000 1)
  then Ok {| status_code := 200; text := "page 1" |}
  else Raise (RequestException "Connection refused" None).

Definition report_json (r : Response) : Outcome Json :=
  if String.eqb (text r) "count" || String.eqb (text r) "page 0"
  then Ok (JDict [("Devices", JList [device]); ("Total", JInt 1)])
  else if String.eqb (text r) "page 1"
  then Ok (JDict [("Devices", JList []); ("Total", JInt 1)])
  else Raise (RequestException "Expecting value: line 1 column 1 (char 0)" None).

Definition platform : Platform := {|
  PrivateKey := Sample.key;
  Certificate := Sample.cert;
  read_file := Sample.sample_read_file;
  load_key_and_certificates := Sample.sample_load;
  pkcs7_sign := Sample.sample_sign;
  urlparse := UrlParse.urlparse (fun _ => None) (fun _ => None);
  http_request := report_http;
  http_error_msg := fun r => "HTTP error for url";
  response_json := report_json
|}.

(** The division of the tracker on integers, the divisor being positive. *)
Definition ceil_div (total : Json) (page_size : Z) : Outcome Z :=
  match total with
  | JInt n =>
      if 0 <? page_size then Ok (- ((- n) / page_size))
      else Raise (LibraryError "division by a page size that is not positive")
  | _ => Raise (TypeError "unsupported operand type(s) for /")
  end.

Definition report : DeviceHealthReport.t :=
  {| DeviceHealthReport.aw_environment := Sample.env;
     DeviceHealthReport.auth := Sample.good_auth;
     DeviceHealthReport.mdm := Sample.mdm Sample.good_auth;
     DeviceHealthReport.page_size := 5000 |}.

(** The tracker once the count has set one as the last page. *)
Definition tracker : DeviceHealthReportTracker.t :=
  DeviceHealthReportTracker.with_max (DeviceHealthReportTracker.__init__ 570 5000) 1.

(** An environment with the four variables of the examples. *)
Definition environ : Environ :=
  <[ "CN00_CERT_PW" := "secret" ]>
    (<[ "CN00_CERT_PATH" := "cert.p12" ]>
       (<[ "CN00_TENANT_CODE" := "tenant-1" ]>
          {[ "CN00_API_URL" := Sample.base ]})).

End SampleReport.

(* ===================================================================== *)
(** * Properties *)
(* ===================================================================== *)

(** ** Library models on test vectors *)

Example b64_rfc4648_f : b64encode (encode_utf8 "f") = "Zg==".
Proof. reflexivity. Qed.
Example b64_rfc4648_fo : b64encode (encode_utf8 "fo") = "Zm8=".
Proof. reflexivity. Qed.
Example b64_rfc4648_foobar : b64encode (encode_utf8 "foobar") = "Zm9vYmFy".
Proof. reflexivity. Qed.

Example urlparse_ex1 :
  UrlParse.urlparse (fun _ => None) (fun _ => None) "https://Host:8443/a/b;p?x=1&y=2#frag"
  = Ok {| UrlParse.scheme := "https"; UrlParse.netloc := "Host:8443";
          UrlParse.path := "/a/b"; UrlParse.params := "p";
          UrlParse.query := "x=1&y=2"; UrlParse.fragment := "frag" |}.
Proof. reflexivity. Qed.

(** ** The model of urlparse: the path does not depend on the query *)

Module UrlParseFacts.
Import UrlParse.

Lemma sapp_nil (b : string) : "" +:+ b = b.
Proof. reflexivity. Qed.
Lemma sapp_cons d (a b : string) : String d a +:+ b = String d (a +:+ b).
Proof. reflexivity. Qed.

Ltac sapp := rewrite ?sapp_nil, ?sapp_cons in *; cbn [find take drop lstrip remove String.length] in *.

Lemma find_app c a b :
  find c (a +:+ b) =
  match find c a with
  | Some i => Some i
  | None => option_map (fun i => (String.length a + i)%nat) (find c b)
  end.
Proof.
  induction a as [|d a IH]; sapp.
  - destruct (find c b); reflexivity.
  - destruct (Ascii.eqb c d); [reflexivity|]. rewrite IH.
    destruct (find c a); cbn; [reflexivity|]. destruct (find c b); reflexivity.
Qed.

Lemma find_lt c a i : find c a = Some i -> (i < String.length a)%nat.
Proof.
  revert i. induction a as [|d a IH]; simpl; intros i; [discriminate|].
  destruct (Ascii.eqb c d); [intros [= <-]; lia|].
  destruct (find c a); simpl; [|discriminate]. intros [= <-].
  specialize (IH _ eq_refl). lia.
Qed.

Lemma take_app_le n a b : (n <= String.length a)%nat -> take n (a +:+ b) = take n a.
Proof.
  revert a. induction n as [|n IH]; intros a Hn; [reflexivity|].
  destruct a as [|d a]; [simpl in Hn; lia|]. sapp. f_equal. apply IH. lia.
Qed.

Lemma drop_app_le n a b : (n <= String.length a)%nat -> drop n (a +:+ b) = drop n a +:+ b.
Proof.
  revert a. induction n as [|n IH]; intros a Hn; [reflexivity|].
  destruct a as [|d a]; [simpl in Hn; lia|]. sapp. apply IH. lia.
Qed.

Lemma drop_length a b : drop (String.length a) (a +:+ b) = b.
Proof. induction a as [|d a IH]; sapp; [destruct b; reflexivity | exact IH]. Qed.

Lemma take_length a b : take (String.length a) (a +:+ b) = a.
Proof. induction a as [|d a IH]; sapp; [destruct b; reflexivity | f_equal; exact IH]. Qed.

Lemma length_sapp a b : String.length (a +:+ b) = (String.length a + String.length b)%nat.
Proof. induction a as [|d a IH]; sapp; [reflexivity | rewrite IH; reflexivity]. Qed.

Lemma contains_false c s : contains c s = false <-> find c s = None.
Proof. unfold contains. destruct (find c s); split; congruence. Qed.

Lemma contains_true c s : contains c s = true <-> exists i, find c s = Some i.
Proof.
  unfold contains. destruct (find c s); split; eauto; try discriminate.
  intros [? ?]; congruence.
Qed.

Lemma find_drop_none c n s : find c s = None -> find c (drop n s) = None.
Proof.
  revert s. induction n as [|n IH]; intros s; [destruct s; auto|].
  destruct s as [|d s]; sapp; [auto|].
  destruct (Ascii.eqb c d); [discriminate|].
  destruct (find c s) eqn:E; [discriminate|]. intros _. apply IH. exact E.
Qed.

Lemma find_remove_none c p s : find c s = None -> find c (remove p s) = None.
Proof.
  induction s as [|d s IH]; sapp; [auto|].
  destruct (Ascii.eqb c d) eqn:E; [discriminate|].
  destruct (find c s); [discriminate|]. intros _.
  destruct (p d); sapp; [auto|]. rewrite E, IH by reflexivity. reflexivity.
Qed.

Lemma find_lstrip_none c p s : find c s = None -> find c (lstrip p s) = None.
Proof.
  induction s as [|d s IH]; sapp; [auto|].
  destruct (Ascii.eqb c d) eqn:E; [discriminate|].
  destruct (find c s) eqn:F; [discriminate|]. intros _.
  destruct (p d); sapp; [auto|]. rewrite E, F. reflexivity.
Qed.

Lemma lstrip_app p a c b : p c = false -> lstrip p (a +:+ String c b) = lstrip p a +:+ String c b.
Proof.
  intros Hc. induction a as [|d a IH]; sapp.
  - rewrite Hc. reflexivity.
  - destruct (p d); [exact IH|]. reflexivity.
Qed.

Lemma remove_app p a b : remove p (a +:+ b) = remove p a +:+ remove p b.
Proof.
  induction a as [|d a IH]; sapp; [reflexivity|].
  destruct (p d); sapp; rewrite IH; reflexivity.
Qed.

Lemma length_drop n s : String.length (drop n s) = (String.length s - n)%nat.
Proof.
  revert s. induction n as [|n IH]; intros s; [destruct s; simpl; lia|].
  destruct s as [|d s]; sapp; [reflexivity|]. apply IH.
Qed.

Lemma str_forall_take_past p a c b n :
  p c = false -> (String.length a < n)%nat ->
  str_forall p (take n (a +:+ String c b)) = false.
Proof.
  intros Hc. revert n. induction a as [|d a IH]; intros n Hn; sapp.
  - destruct n as [|n]; [lia|]. sapp. cbn. rewrite Hc. reflexivity.
  - destruct n as [|n]; [lia|]. sapp. cbn. rewrite IH by lia. apply andb_false_r.
Qed.

(** The scheme prefix does not see the query. *)
Lemma split_scheme_query p q :
  find "?" p = None -> find "#" p = None ->
  split_scheme (p +:+ String "?" q)
  = (fst (split_scheme p), snd (split_scheme p) +:+ String "?" q) /\
  find "?" (snd (split_scheme p)) = None /\ find "#" (snd (split_scheme p)) = None.
Proof.
  intros Hq Hh. unfold split_scheme. rewrite find_app.
  destruct (find ":" p) as [i|] eqn:Hi.
  - pose proof (find_lt _ _ _ Hi) as Hlt.
    destruct p as [|c0 t]; [discriminate|]. rewrite sapp_cons.
    destruct i as [|i]; [auto|].
    rewrite <- sapp_cons.
    rewrite take_app_le, drop_app_le by lia.
    destruct (is_ascii_alpha c0 && _); cbn [fst snd]; auto using find_drop_none.
  - replace (match p with "" => ("", p) | String _ _ => ("", p) end) with ("", p)
      by (destruct p; reflexivity).
    cbn [fst snd]. split; [|auto].
    cbn [find]. change (Ascii.eqb ":" "?") with false. cbv iota.
    destruct (find ":" q) as [j|]; cbn [option_map].
    + destruct p as [|c0 t].
      * rewrite sapp_nil. cbn. reflexivity.
      * rewrite sapp_cons. cbn [String.length Nat.add]. rewrite <- sapp_cons.
        rewrite (str_forall_take_past is_scheme_char (String c0 t) "?" q); [|reflexivity|cbn [String.length]; lia].
        rewrite andb_false_r. reflexivity.
    + destruct (p +:+ String "?" q); reflexivity.
Qed.

(** Nor does the network location. *)
Lemma splitnetloc_query r q :
  find "?" r = None -> find "#" r = None -> (2 <= String.length r)%nat ->
  splitnetloc (r +:+ String "?" q) 2
  = (fst (splitnetloc r 2), snd (splitnetloc r 2) +:+ String "?" q) /\
  find "?" (snd (splitnetloc r 2)) = None /\ find "#" (snd (splitnetloc r 2)) = None.
Proof.
  intros Hq Hh Hlen. unfold splitnetloc, find_from. cbn [fold_left].
  rewrite !drop_app_le by exact Hlen. rewrite !find_app.
  rewrite (find_drop_none "?" 2 r Hq), (find_drop_none "#" 2 r Hh).
  cbn [find option_map].
  change (Ascii.eqb "/" "?") with false. change (Ascii.eqb "?" "?") with true.
  change (Ascii.eqb "#" "?") with false. cbv iota. cbn [option_map].
  rewrite length_sapp, length_drop. cbn [String.length].
  set (slash := find "/" (drop 2 r)).
  assert (Hslash : forall i, slash = Some i -> (2 + i < String.length r)%nat).
  { intros i Hi. apply find_lt in Hi. rewrite length_drop in Hi. lia. }
  set (d1 := match option_map (fun i => (2 + i)%nat) slash with
             | Some w => Nat.min (String.length r) w
             | None => String.length r
             end).
  assert (Hd1 : (2 <= d1 <= String.length r)%nat).
  { subst d1. destruct slash as [i|]; cbn [option_map]; [specialize (Hslash i eq_refl)|]; lia. }
  match goal with
  | |- (take (?dq - 2) _, drop ?dq _) = _ /\ _ => assert (Hdq : dq = d1)
  end.
  { subst d1. destruct slash as [i|]; cbn [option_map].
    - specialize (Hslash i eq_refl).
      destruct (find "#" q); cbn [option_map]; lia.
    - destruct (find "/" q); destruct (find "#" q); cbn [option_map]; lia. }
  rewrite Hdq. cbn [fst snd].
  rewrite take_app_le by (rewrite length_drop; lia).
  rewrite drop_app_le by lia.
  auto using find_drop_none.
Qed.

Lemma drop_past_sep a c b j :
  drop (String.length a + S j) (a +:+ String c b) = drop j b.
Proof. induction a as [|d a IH]; sapp; [reflexivity | exact IH]. Qed.

Lemma take_past_sep a c b j :
  take (String.length a + S j) (a +:+ String c b) = a +:+ String c (take j b).
Proof.
  induction a as [|d a IH]; sapp; [reflexivity|].
  cbn [Nat.add take]. f_equal. exact IH.
Qed.

(** The fragment and the query are cut off behind the path. *)
Lemma cut_fragment_and_query rest q :
  find "?" rest = None -> find "#" rest = None ->
  exists query fragment,
    (let '(u, f) := if contains "#" (rest +:+ String "?" q)
                    then split_once "#" (rest +:+ String "?" q)
                    else (rest +:+ String "?" q, "") in
     let '(u', qy) := if contains "?" u then split_once "?" u else (u, "") in
     (u', qy, f)) = (rest, query, fragment) /\
    (let '(u, f) := if contains "#" rest then split_once "#" rest else (rest, "") in
     let '(u', qy) := if contains "?" u then split_once "?" u else (u, "") in
     (u', qy, f)) = (rest, "", "").
Proof.
  intros Hq Hh.
  assert (Hcut : forall q', (if contains "?" (rest +:+ String "?" q')
                             then split_once "?" (rest +:+ String "?" q')
                             else (rest +:+ String "?" q', "")) = (rest, q')).
  { intros q'. unfold contains, split_once. rewrite find_app, Hq. cbn [find option_map].
    change (Ascii.eqb "?" "?") with true. cbv iota. cbn [option_map].
    rewrite Nat.add_0_r, take_length.
    replace (S (String.length rest)) with (String.length rest + 1)%nat by lia.
    rewrite drop_past_sep. reflexivity. }
  assert (Hplain : contains "#" rest = false /\ contains "?" rest = false)
    by (split; apply contains_false; assumption).
  destruct Hplain as [-> ->].
  unfold contains at 1. unfold split_once at 1. rewrite find_app, Hh.
  cbn [find option_map]. change (Ascii.eqb "#" "?") with false. cbv iota.
  destruct (find "#" q) as [j|] eqn:Hj; cbn [option_map].
  - exists (take j q), (drop (S j) q). split; [|reflexivity].
    rewrite take_past_sep, Hcut.
    replace (S (String.length rest + S j)) with (String.length rest + S (S j))%nat by lia.
    rewrite drop_past_sep. reflexivity.
  - exists q, "". split; [|reflexivity]. rewrite Hcut. reflexivity.
Qed.

(** In the model of [urlparse], a query string appended to a URL that has
    neither [?] nor [#] changes nothing but the query and fragment fields:
    the path (or the [ValueError]) is that of the URL without it. *)
Lemma urlparse_path_ignores_query chk1 chk2 p q :
  find "?" p = None -> find "#" p = None ->
  obind (urlparse chk1 chk2 (p +:+ String "?" q)) (fun r => Ok (path r))
  = obind (urlparse chk1 chk2 p) (fun r => Ok (path r)).
Proof.
  intros Hq Hh. unfold urlparse, urlsplit.
  rewrite lstrip_app by reflexivity. rewrite remove_app.
  cbn [remove]. change (is_unsafe_url_byte "?") with false. cbv iota.
  set (p' := remove is_unsafe_url_byte (lstrip is_c0_control_or_space p)).
  set (q' := remove is_unsafe_url_byte q).
  assert (Hq' : find "?" p' = None) by (apply find_remove_none, find_lstrip_none, Hq).
  assert (Hh' : find "#" p' = None) by (apply find_remove_none, find_lstrip_none, Hh).
  destruct (split_scheme_query p' q' Hq' Hh') as (E & Hq2 & Hh2). rewrite E.
  destruct (split_scheme p') as [sch r]. cbn [fst snd] in *.
  cbv beta iota.
  set (X1 := if String.eqb (take 2 (r +:+ String "?" q')) "//" then _ else _).
  set (X2 := if String.eqb (take 2 r) "//" then _ else _).
  assert (Hnl : exists nl rest,
    X1 = (nl, rest +:+ String "?" q') /\ X2 = (nl, rest) /\
    find "?" rest = None /\ find "#" rest = None).
  { subst X1 X2. destruct r as [|a [|b t]].
    - exists "", "". repeat split; reflexivity.
    - exists "", (String a ""). rewrite sapp_cons, sapp_nil. cbn [take String.eqb].
      change (String "?" "" =? "/")%string with false.
      destruct (Ascii.eqb a "/"); auto.
    - rewrite take_app_le by (cbn; lia).
      destruct (String.eqb _ "//").
      + assert (Hlen : (2 <= String.length (String a (String b t)))%nat) by (cbn; lia).
        destruct (splitnetloc_query (String a (String b t)) q' Hq2 Hh2 Hlen) as (E2 & ? & ?).
        rewrite E2. destruct (splitnetloc (String a (String b t)) 2) as [nl rest].
        exists nl, rest. cbn [fst snd] in *. auto.
      + exists "", (String a (String b t)). auto. }
  clearbody X1 X2.
  destruct Hnl as (nl & rest & -> & -> & Hq3 & Hh3).
  cbv beta iota zeta.
  destruct (_ || _); [reflexivity|].
  destruct (if _ && _ then chk1 _ else None); [reflexivity|].
  destruct (cut_fragment_and_query rest q' Hq3 Hh3) as (qy & fr & E1 & E2).
  destruct (if contains "#" (rest +:+ String "?" q') then _ else _) as [u f].
  destruct (if contains "?" u then _ else _) as [u' qy'].
  injection E1 as -> -> ->.
  destruct (if contains "#" rest then _ else _) as [v g].
  destruct (if contains "?" v then _ else _) as [v' qz].
  injection E2 as -> -> ->.
  destruct (checknetloc chk2 nl); [reflexivity|].
  destruct (if _ && contains ";" rest then _ else _). reflexivity.
Qed.

End UrlParseFacts.

(** ** base64 text *)

Lemma sextet_valid (n : N) : (n < 64)%N -> Base64.is_b64_char (Base64.sextet n) = true.
Proof.
  intros Hn.
  assert (Htable : forallb (fun k => Base64.is_b64_char (Base64.sextet (N.of_nat k)))
                           (seq 0 64) = true) by (vm_compute; reflexivity).
  rewrite forallb_forall in Htable.
  rewrite <- (N2Nat.id n). apply Htable. apply in_seq. lia.
Qed.

Lemma digit_valid (g k : N) : Base64.is_b64_char (Base64.digit g k) = true.
Proof.
  unfold Base64.digit. apply sextet_valid.
  change 63%N with (N.ones 6). rewrite N.land_ones.
  apply N.mod_lt. discriminate.
Qed.

(** The output of [b64encode] is made of base64 characters only, and its
    length is a multiple of four. *)
Lemma b64encode_valid (b : bytes) :
  str_forall Base64.is_b64_char (b64encode b) = true /\
  (String.length (b64encode b) mod 4 = 0)%nat.
Proof.
  unfold b64encode.
  enough (Hgen : forall n (bs : bytes), (length bs <= n)%nat ->
             str_forall Base64.is_b64_char (Base64.encode bs) = true /\
             (String.length (Base64.encode bs) mod 4 = 0)%nat)
    by (apply (Hgen (length b)); lia).
  induction n as [|n IH]; intros bs Hlen.
  - destruct bs; [split; reflexivity | simpl in Hlen; lia].
  - destruct bs as [|x [|y [|z rest]]].
    + split; reflexivity.
    + cbn [Base64.encode str_forall String.length]. rewrite !digit_valid. split; reflexivity.
    + cbn [Base64.encode str_forall String.length]. rewrite !digit_valid. split; reflexivity.
    + cbn [Base64.encode str_forall String.length]. rewrite !digit_valid.
      destruct (IH rest) as [Hc Hl]; [simpl in Hlen; lia|].
      rewrite Hc. split; [reflexivity|].
      change (S (S (S (S (String.length (Base64.encode rest))))))
        with (4 + String.length (Base64.encode rest))%nat.
      rewrite <- Nat.Div0.add_mod_idemp_r, Hl. reflexivity.
Qed.

(** ** Environment configuration *)

Lemma str_falsy_empty (s : str) : str_falsy s = true <-> s = "".
Proof. destruct s; simpl; split; congruence. Qed.

Lemma str_falsy_nonempty (s : str) : s <> "" -> str_falsy s = false.
Proof. destruct s; simpl; congruence. Qed.

(** The attributes of a freshly constructed environment object are exactly
    [logger], [api_url], [tenant_code] and [parent_og]. *)
Lemma AWEnvironment_attributes api_url tenant_code parent_og (self : Object) :
  AWEnvironment.__init__ api_url tenant_code parent_og = Ok self ->
  dom self = ({[ "logger"; "api_url"; "tenant_code"; "parent_og" ]} : gset string).
Proof.
  unfold AWEnvironment.__init__.
  destruct (str_falsy api_url || str_falsy tenant_code); [discriminate|].
  intros [= <-]. rewrite !dom_insert_L, dom_singleton_L.
  apply set_eq. intros x. rewrite !elem_of_union, !elem_of_singleton. tauto.
Qed.

(** C8. Constructing [AWEnvironment] raises [ValueError] whenever [api_url]
    or [tenant_code] is empty; when both are non-empty the construction
    succeeds and the object holds [api_url], [tenant_code] and [parent_og]
    as they were given. *)
Theorem AWEnvironment_init_spec (api_url tenant_code : str) (parent_og : option str) :
  (api_url = "" \/ tenant_code = "" ->
   exists msg, AWEnvironment.__init__ api_url tenant_code parent_og
               = Raise (ValueError msg)) /\
  (api_url <> "" -> tenant_code <> "" ->
   exists self : Object,
     AWEnvironment.__init__ api_url tenant_code parent_og = Ok self /\
     self !! "api_url" = Some (PyStr api_url) /\
     self !! "tenant_code" = Some (PyStr tenant_code) /\
     self !! "parent_og" = Some (of_optional parent_og)).
Proof.
  unfold AWEnvironment.__init__. split.
  - intros [-> | ->]; simpl; rewrite ?orb_true_r; eauto.
  - intros Ha Ht. rewrite (str_falsy_nonempty _ Ha), (str_falsy_nonempty _ Ht). simpl.
    eexists. split; [reflexivity|]. repeat split; by simplify_map_eq.
Qed.

Lemma AWEnvironment_init_spec_witness :
  (exists msg, AWEnvironment.__init__ "" "tenant-1" None = Raise (ValueError msg)) /\
  (exists self : Object,
     AWEnvironment.__init__ "https://host/API" "tenant-1" (Some "og-7") = Ok self /\
     self !! "api_url" = Some (PyStr "https://host/API") /\
     self !! "tenant_code" = Some (PyStr "tenant-1") /\
     self !! "parent_og" = Some (PyStr "og-7")).
Proof.
  split.
  - apply (AWEnvironment_init_spec "" "tenant-1" None). left. reflexivity.
  - apply (AWEnvironment_init_spec "https://host/API" "tenant-1" (Some "og-7"));
      discriminate.
Defined.

(** C10. Whatever environment object the [AWEnvironment] constructor
    produced, [System(awEnviroment, workspaceOneAuth)] raises
    [AttributeError]: the constructor of [System] reads the attribute
    [environment], which [AWEnvironment] never sets. *)
Theorem System_init_raises_on_AWEnvironment
    (api_url tenant_code : str) (parent_og : option str)
    (awEnviroment : Object) (workspaceOneAuth : WorkspaceOneAuth.t) :
  AWEnvironment.__init__ api_url tenant_code parent_og = Ok awEnviroment ->
  awEnviroment !! "environment" = None /\
  exists msg, System.__init__ awEnviroment workspaceOneAuth = Raise (AttributeError msg).
Proof.
  intros Hinit.
  assert (Hnone : awEnviroment !! "environment" = None).
  { apply not_elem_of_dom. rewrite (AWEnvironment_attributes _ _ _ _ Hinit).
    rewrite !elem_of_union, !elem_of_singleton. intros [[[?|?]|?]|?]; discriminate. }
  split; [exact Hnone|].
  unfold System.__init__, getattr. rewrite Hnone.
  destruct (awEnviroment !! "api_url"); simpl; [|eauto].
  destruct (awEnviroment !! "tenant_code"); simpl; eauto.
Qed.

Lemma System_init_raises_on_AWEnvironment_witness :
  Sample.env !! "environment" = None /\
  exists msg, System.__init__ Sample.env Sample.good_auth = Raise (AttributeError msg).
Proof.
  apply (System_init_raises_on_AWEnvironment "https://host/API" "tenant-1" None).
  reflexivity.
Defined.

(** ** Running the effectful code *)

Ltac run :=
  unfold bind, try_except, lift, emit, ret, raise in *; simpl in *.

Ltac case_step :=
  match goal with
  | |- context [match ?x with _ => _ end] => destruct x eqn:?; simpl in *
  | |- context [if ?b then _ else _] => destruct b eqn:?; simpl in *
  end.

Lemma http_calls_app `{Platform} (h1 h2 : list Event) :
  http_calls (h1 ++ h2) = http_calls h1 ++ http_calls h2.
Proof. apply omap_app. Qed.

Lemma signed_data_app `{Platform} (h1 h2 : list Event) :
  signed_data (h1 ++ h2) = signed_data h1 ++ signed_data h2.
Proof. apply omap_app. Qed.

(** ** The authenticator *)

Section Authenticator.
Context `{Platform}.

Lemma load_events_quiet self :
  http_calls (load_events self) = [] /\ signed_data (load_events self) = [].
Proof.
  unfold load_events, p12_source.
  destruct (default false _); destruct (WorkspaceOneAuth.cert_bytes self);
    try destruct (read_file _); split; reflexivity.
Qed.

(** The load step either yields what the PKCS#12 decoder returned or raises
    [CMSURLError]; it never raises anything else. *)
Lemma load_p12_cert_run self h :
  WorkspaceOneAuth._load_p12_cert self
    (WorkspaceOneAuth.cert_path self) (WorkspaceOneAuth.cert_pw self) h
  = (match p12_source self with
     | Ok d =>
         match load_key_and_certificates d (encode_utf8 (WorkspaceOneAuth.cert_pw self)) with
         | Ok kc => Ok kc
         | Raise e =>
             Raise (CMSURLError ("Failed to load PKCS#12 certificate: " +:+ exn_str e))
         end
     | Raise e => Raise (CMSURLError ("Failed to load PKCS#12 certificate: " +:+ exn_str e))
     end, h ++ load_events self).
Proof.
  unfold WorkspaceOneAuth._load_p12_cert, load_events, p12_source. run.
  destruct (default false _); simpl.
  - destruct (WorkspaceOneAuth.cert_bytes self); simpl.
    + destruct (load_key_and_certificates _ _); reflexivity.
    + rewrite app_nil_r. reflexivity.
  - destruct (read_file _); simpl.
    + rewrite <- app_assoc. simpl. destruct (load_key_and_certificates _ _); reflexivity.
    + reflexivity.
Qed.

Lemma sign_data_run self private_key certificate data h :
  WorkspaceOneAuth._sign_data self private_key certificate data h
  = (Ok (match pkcs7_sign (signing_builder private_key certificate data)
                          DER [DetachedSignature] with
         | Ok der => Some der
         | Raise _ => None
         end),
     h ++ [EvSign (signing_builder private_key certificate data) DER [DetachedSignature]]).
Proof.
  unfold WorkspaceOneAuth._sign_data, signing_builder. run.
  destruct (pkcs7_sign _ _ _); reflexivity.
Qed.

(** The authenticator never talks to the transport. *)
Lemma get_cmsurl_header_no_http self url h :
  exists evs, snd (WorkspaceOneAuth.get_cmsurl_header self url h) = h ++ evs /\
              http_calls evs = [].
Proof.
  unfold WorkspaceOneAuth.get_cmsurl_header, bind at 1, try_except at 1, bind at 1.
  rewrite load_p12_cert_run.
  destruct (load_events_quiet self) as [Hq _].
  destruct (p12_source self) as [d|e]; simpl.
  - destruct (load_key_and_certificates _ _) as [[[k|] [c|]]|e]; simpl;
      try (eexists; split; [reflexivity|exact Hq]).
    unfold bind, lift. destruct (urlparse url); simpl.
    + rewrite sign_data_run. destruct (pkcs7_sign _ _ _); simpl;
        rewrite <- app_assoc; eexists; (split; [reflexivity|]);
        rewrite http_calls_app, Hq; reflexivity.
    + eexists; split; [reflexivity|exact Hq].
  - eexists; split; [reflexivity|exact Hq].
Qed.

(** The authenticator up to the signing step, in terms of the platform. *)
Lemma get_cmsurl_header_run self url h :
  WorkspaceOneAuth.get_cmsurl_header self url h =
  match p12_source self with
  | Raise _ => (Ok None, h ++ load_events self)
  | Ok d =>
      match load_key_and_certificates d (encode_utf8 (WorkspaceOneAuth.cert_pw self)) with
      | Raise _ => (Ok None, h ++ load_events self)
      | Ok (Some private_key, Some certificate) =>
          match urlparse url with
          | Raise e => (Raise e, h ++ load_events self)
          | Ok parsed_url =>
              let b := signing_builder private_key certificate (UrlParse.path parsed_url) in
              (Ok (match pkcs7_sign b DER [DetachedSignature] with
                   | Ok der => Some ("CMSURL`1 " +:+ b64encode der)
                   | Raise _ => None
                   end),
               h ++ load_events self ++ [EvSign b DER [DetachedSignature]])
          end
      | Ok _ => (Ok None, h ++ load_events self)
      end
  end.
Proof.
  unfold WorkspaceOneAuth.get_cmsurl_header, bind at 1, try_except at 1, bind at 1.
  rewrite load_p12_cert_run.
  destruct (p12_source self) as [d|e]; simpl; [|reflexivity].
  destruct (load_key_and_certificates _ _) as [[[k|] [c|]]|e]; simpl; try reflexivity.
  unfold bind, lift. destruct (urlparse url); simpl; [|reflexivity].
  rewrite sign_data_run, <- app_assoc.
  destruct (pkcs7_sign _ _ _); reflexivity.
Qed.

(** With [urlparse] behaving as the model does, appending any query string
    to a URL free of [?] and [#] leaves every step of the authenticator, and
    its result, unchanged. *)
Lemma query_string_is_not_signed chk1 chk2 self p q1 q2 h :
  (forall u, urlparse u = UrlParse.urlparse chk1 chk2 u) ->
  UrlParse.contains "?" p = false -> UrlParse.contains "#" p = false ->
  WorkspaceOneAuth.get_cmsurl_header self (p +:+ String "?" q1) h
  = WorkspaceOneAuth.get_cmsurl_header self (p +:+ String "?" q2) h.
Proof.
  intros Hmodel Hq%UrlParseFacts.contains_false Hh%UrlParseFacts.contains_false.
  rewrite !get_cmsurl_header_run, !Hmodel.
  pose proof (UrlParseFacts.urlparse_path_ignores_query chk1 chk2 p q1 Hq Hh) as H1.
  pose proof (UrlParseFacts.urlparse_path_ignores_query chk1 chk2 p q2 Hq Hh) as H2.
  rewrite <- H2 in H1. clear H2.
  destruct (p12_source self); [|reflexivity].
  destruct (load_key_and_certificates _ _) as [[[k|] [c|]]|e]; try reflexivity.
  destruct (UrlParse.urlparse chk1 chk2 (p +:+ String "?" q1)) as [r1|e1];
    destruct (UrlParse.urlparse chk1 chk2 (p +:+ String "?" q2)) as [r2|e2];
    simpl in H1; try discriminate.
  - injection H1 as ->. reflexivity.
  - injection H1 as ->. reflexivity.
Qed.

(** Whatever header the authenticator returns is the literal prefix followed
    by base64 text. *)
Lemma header_shape self url h header :
  fst (WorkspaceOneAuth.get_cmsurl_header self url h) = Ok (Some header) ->
  exists der,
    header = "CMSURL`1 " +:+ b64encode der /\
    str_forall Base64.is_b64_char (b64encode der) = true /\
    (String.length (b64encode der) mod 4 = 0)%nat.
Proof.
  rewrite get_cmsurl_header_run.
  destruct (p12_source self) as [d|e]; simpl; [|discriminate].
  destruct (load_key_and_certificates _ _) as [[[k|] [c|]]|e]; simpl; try discriminate.
  destruct (urlparse url); simpl; [|discriminate].
  destruct (pkcs7_sign _ _ _) as [der|e]; [|discriminate].
  intros [= <-]. exists der. split; [reflexivity|]. apply b64encode_valid.
Qed.

(** C2. When the certificate loads and the signing call succeeds, the header
    is the literal [CMSURL`1 ] followed by the base64 text of the DER
    container that the signing call returned for: data = the UTF-8 bytes of
    the URL's path, one signer made of the loaded certificate, the loaded
    private key and SHA-512, DER encoding, detached signature. *)
Theorem get_cmsurl_header_signed_value
    self url h d private_key certificate parsed_url der :
  p12_source self = Ok d ->
  load_key_and_certificates d (encode_utf8 (WorkspaceOneAuth.cert_pw self))
    = Ok (Some private_key, Some certificate) ->
  urlparse url = Ok parsed_url ->
  pkcs7_sign
    {| builder_data := Some (encode_utf8 (UrlParse.path parsed_url));
       builder_signers := [(certificate, private_key, SHA512)] |}
    DER [DetachedSignature] = Ok der ->
  fst (WorkspaceOneAuth.get_cmsurl_header self url h)
    = Ok (Some ("CMSURL`1 " +:+ b64encode der)).
Proof.
  intros Hsrc Hload Hparse Hsign.
  rewrite get_cmsurl_header_run, Hsrc, Hload, Hparse. simpl.
  unfold signing_builder, add_signer, set_data, new_builder. simpl.
  rewrite Hsign. reflexivity.
Qed.

(** C3. Two URLs with the same path component are signed alike: the
    authenticator behaves identically on both (same calls to the platform,
    same result), and the only data ever handed to the signing call is the
    UTF-8 encoding of that path; scheme, host and query string play no
    part. *)
Theorem signing_input_is_the_path self url1 url2 parsed1 parsed2 h :
  urlparse url1 = Ok parsed1 ->
  urlparse url2 = Ok parsed2 ->
  UrlParse.path parsed1 = UrlParse.path parsed2 ->
  WorkspaceOneAuth.get_cmsurl_header self url1 h
    = WorkspaceOneAuth.get_cmsurl_header self url2 h /\
  exists evs,
    snd (WorkspaceOneAuth.get_cmsurl_header self url1 h) = h ++ evs /\
    forall data, data ∈ signed_data evs ->
                 data = Some (encode_utf8 (UrlParse.path parsed1)).
Proof.
  intros H1 H2 Hpath. rewrite !get_cmsurl_header_run, H1, H2, Hpath. split; [reflexivity|].
  destruct (load_events_quiet self) as [_ Hq].
  destruct (p12_source self) as [d|e]; simpl.
  - destruct (load_key_and_certificates _ _) as [[[k|] [c|]]|e]; simpl;
      try (eexists; split; [reflexivity|]; rewrite Hq; intros ? ?%elem_of_nil; contradiction).
    eexists; split; [reflexivity|].
    rewrite signed_data_app, Hq. simpl. intros data ->%list_elem_of_singleton.
    reflexivity.
  - eexists; split; [reflexivity|]. rewrite Hq. intros ? ?%elem_of_nil. contradiction.
Qed.

(** C4. When the PKCS#12 bundle cannot be loaded, because the file cannot be
    read or because decoding it with the password fails, the load step
    raises [CMSURLError], and [get_cmsurl_header] returns [None] having made
    no signing call. *)
Theorem load_failure_yields_no_header self url h :
  ((exists e, p12_source self = Raise e) \/
   (exists d e, p12_source self = Ok d /\
                load_key_and_certificates d (encode_utf8 (WorkspaceOneAuth.cert_pw self))
                  = Raise e)) ->
  (exists msg,
     fst (WorkspaceOneAuth._load_p12_cert self (WorkspaceOneAuth.cert_path self)
            (WorkspaceOneAuth.cert_pw self) h) = Raise (CMSURLError msg)) /\
  exists evs,
    WorkspaceOneAuth.get_cmsurl_header self url h = (Ok None, h ++ evs) /\
    signed_data evs = [].
Proof.
  intros Hfail. rewrite load_p12_cert_run, get_cmsurl_header_run.
  destruct (load_events_quiet self) as [_ Hq].
  destruct Hfail as [[e He] | (d & e & Hd & He)].
  - rewrite He. simpl. split; eauto.
  - rewrite Hd, He. simpl. split; eauto.
Qed.

End Authenticator.

(** ** The dispatchers *)

Section Dispatchers.
Context `{Platform}.

(** The guarded block shared by the three [_send_request] methods. *)
Lemma exchange_run (call : HttpCall) (on_error : str -> option Response -> exn)
    (handler : exn -> option (M Json)) h :
  (forall e, handler e = match e with
                         | RequestException m r => Some (raise (on_error m r))
                         | _ => None
                         end) ->
  try_except
    (let* _ := emit (EvHttp call) in
     let* response := lift (http_request call) in
     let* _ := raise_for_status response in
     json_or_empty response)
    handler h
  = (transport_outcome call on_error, h ++ [EvHttp call]).
Proof.
  intros Hh. unfold transport_outcome, raise_for_status, json_or_empty. run.
  destruct (http_request call) as [r|e]; simpl.
  - destruct ((400 <=? status_code r) && (status_code r <? 600)); simpl.
    { rewrite Hh. reflexivity. }
    destruct (str_falsy (text r)); simpl; [reflexivity|].
    destruct (response_json r) as [j|e]; [reflexivity|].
    rewrite Hh. destruct e; reflexivity.
  - rewrite Hh. destruct e; reflexivity.
Qed.

Lemma MDM_send_request_run self method url data h :
  MDM._send_request self method url data h =
  match MDM._get_headers self url h with
  | (Ok headers, h1) =>
      let call := MDM_call method url headers data in
      (transport_outcome call (failed_with_status url), h1 ++ [EvHttp call])
  | (Raise e, h1) => (Raise e, h1)
  end.
Proof.
  unfold MDM._send_request, bind at 1.
  destruct (MDM._get_headers self url h) as [[headers|e] h1]; [|reflexivity].
  apply (exchange_run (MDM_call method url headers data) (failed_with_status url)).
  intros []; reflexivity.
Qed.

Lemma MAM_send_request_run self method url json_data files h :
  MAM._send_request self method url json_data files h =
  match MAM._get_headers self url h with
  | (Ok headers, h1) =>
      let call := MAM_call method url headers json_data files in
      (transport_outcome call failed_with_text, h1 ++ [EvHttp call])
  | (Raise e, h1) => (Raise e, h1)
  end.
Proof.
  unfold MAM._send_request, bind at 1.
  destruct (MAM._get_headers self url h) as [[headers|e] h1]; [|reflexivity].
  apply (exchange_run (MAM_call method url headers json_data files) failed_with_text).
  intros []; reflexivity.
Qed.

Lemma System_send_request_run self method url json_data h :
  System._send_request self method url json_data h =
  match System._get_headers self url h with
  | (Ok headers, h1) =>
      let call := System_call self method url headers json_data in
      (transport_outcome call (failed_with_status url), h1 ++ [EvHttp call])
  | (Raise e, h1) => (Raise e, h1)
  end.
Proof.
  unfold System._send_request, bind at 1.
  destruct (System._get_headers self url h) as [[headers|e] h1]; [|reflexivity].
  apply (exchange_run (System_call self method url headers json_data)
                      (failed_with_status url)).
  intros []; reflexivity.
Qed.

Lemma MDM_get_headers_run self url h :
  MDM._get_headers self url h =
  match WorkspaceOneAuth.get_cmsurl_header (MDM.auth self) url h with
  | (Ok authorization, h1) =>
      (match MDM.aw_environment self !! "tenant_code" with
       | Some tenant_code => Ok (headers_dict authorization tenant_code)
       | None => Raise (AttributeError "object has no attribute 'tenant_code'")
       end, h1)
  | (Raise e, h1) => (Raise e, h1)
  end.
Proof.
  unfold MDM._get_headers, bind, lift, ret, getattr.
  destruct (WorkspaceOneAuth.get_cmsurl_header _ url h) as [[a|e] h1]; [|reflexivity].
  destruct (MDM.aw_environment self !! "tenant_code"); reflexivity.
Qed.

Lemma MAM_get_headers_run self url h :
  MAM._get_headers self url h =
  match WorkspaceOneAuth.get_cmsurl_header (MAM.auth self) url h with
  | (Ok authorization, h1) => (Ok (headers_dict authorization (MAM.tenant_code self)), h1)
  | (Raise e, h1) => (Raise e, h1)
  end.
Proof.
  unfold MAM._get_headers, bind, ret.
  destruct (WorkspaceOneAuth.get_cmsurl_header _ url h) as [[a|e] h1]; reflexivity.
Qed.

Lemma System_get_headers_run self url h :
  System._get_headers self url h =
  match WorkspaceOneAuth.get_cmsurl_header (System.auth self) url h with
  | (Ok authorization, h1) =>
      (Ok (headers_dict authorization (System.tenant_code self)), h1)
  | (Raise e, h1) => (Raise e, h1)
  end.
Proof.
  unfold System._get_headers, bind, ret.
  destruct (WorkspaceOneAuth.get_cmsurl_header _ url h) as [[a|e] h1]; reflexivity.
Qed.

(** Splitting a run of the authenticator into its result and its events. *)
Lemma get_cmsurl_header_split (a : WorkspaceOneAuth.t) url h :
  exists r evs, WorkspaceOneAuth.get_cmsurl_header a url h = (r, h ++ evs) /\
                http_calls evs = [].
Proof.
  destruct (get_cmsurl_header_no_http a url h) as (evs & Hs & Hq).
  destruct (WorkspaceOneAuth.get_cmsurl_header a url h) as [r h1]. simpl in Hs. subst h1.
  eauto.
Qed.

(** C1 (as the code has it). A missing header does not stop the request: when
    [get_cmsurl_header] returns [None] for the URL, each [_send_request]
    still makes exactly one call to the transport, with [None] as the value
    of the [Authorization] header. *)
Theorem send_request_with_missing_header (method url : str) h :
  (forall (self : MDM.t) data tenant_code,
     fst (WorkspaceOneAuth.get_cmsurl_header (MDM.auth self) url h) = Ok None ->
     MDM.aw_environment self !! "tenant_code" = Some tenant_code ->
     http_calls (snd (MDM._send_request self method url data h)) =
     http_calls h ++
     [MDM_call method url
        [("Authorization", PyNone); ("aw-tenant-code", tenant_code);
         ("Content-Type", PyStr "application/json")] data]) /\
  (forall (self : MAM.t) json_data files,
     fst (WorkspaceOneAuth.get_cmsurl_header (MAM.auth self) url h) = Ok None ->
     http_calls (snd (MAM._send_request self method url json_data files h)) =
     http_calls h ++
     [MAM_call method url
        [("Authorization", PyNone); ("aw-tenant-code", MAM.tenant_code self);
         ("Content-Type", PyStr "application/json")] json_data files]) /\
  (forall (self : System.t) json_data,
     fst (WorkspaceOneAuth.get_cmsurl_header (System.auth self) url h) = Ok None ->
     http_calls (snd (System._send_request self method url json_data h)) =
     http_calls h ++
     [System_call self method url
        [("Authorization", PyNone); ("aw-tenant-code", System.tenant_code self);
         ("Content-Type", PyStr "application/json")] json_data]).
Proof.
  repeat split.
  - intros self data tenant_code Hnone Htenant.
    rewrite MDM_send_request_run, MDM_get_headers_run, Htenant.
    destruct (get_cmsurl_header_split (MDM.auth self) url h) as (r & evs & Hrun & Hq).
    rewrite Hrun in *. simpl in Hnone. subst r. simpl.
    rewrite !http_calls_app, Hq, app_nil_r. reflexivity.
  - intros self json_data files Hnone.
    rewrite MAM_send_request_run, MAM_get_headers_run.
    destruct (get_cmsurl_header_split (MAM.auth self) url h) as (r & evs & Hrun & Hq).
    rewrite Hrun in *. simpl in Hnone. subst r. simpl.
    rewrite !http_calls_app, Hq, app_nil_r. reflexivity.
  - intros self json_data Hnone.
    rewrite System_send_request_run, System_get_headers_run.
    destruct (get_cmsurl_header_split (System.auth self) url h) as (r & evs & Hrun & Hq).
    rewrite Hrun in *. simpl in Hnone. subst r. simpl.
    rewrite !http_calls_app, Hq, app_nil_r. reflexivity.
Qed.

(** What [MDM._send_request] and [System._send_request] return for one
    exchange: the parsed body or the empty mapping on a success status, and
    an [APIRequestError] carrying the status code of the response, when
    there is one, otherwise. *)
Lemma exchange_with_status (call : HttpCall) (url : str) :
  (forall response,
     http_request call = Ok response -> success_status (status_code response) ->
     (text response = "" ->
      transport_outcome call (failed_with_status url) = Ok empty_dict) /\
     (forall j, text response <> "" -> response_json response = Ok j ->
      transport_outcome call (failed_with_status url) = Ok j)) /\
  (forall response,
     http_request call = Ok response -> 400 <= status_code response < 600 ->
     transport_outcome call (failed_with_status url) =
     Raise (APIRequestError
              {| message := "API request to " +:+ url +:+ " failed";
                 error_status_code := Some (status_code response) |})) /\
  (forall m e_response,
     http_request call = Raise (RequestException m e_response) ->
     transport_outcome call (failed_with_status url) =
     Raise (APIRequestError
              {| message := "API request to " +:+ url +:+ " failed";
                 error_status_code := option_map status_code e_response |})).
Proof.
  unfold transport_outcome, success_status. repeat split.
  - intros Htext. match goal with Hr : http_request _ = _ |- _ => rewrite Hr end.
    replace ((400 <=? status_code response) && (status_code response <? 600)) with false
      by (symmetry; apply andb_false_iff; lia).
    rewrite Htext. reflexivity.
  - intros j Htext Hj. match goal with Hr : http_request _ = _ |- _ => rewrite Hr end.
    replace ((400 <=? status_code response) && (status_code response <? 600)) with false
      by (symmetry; apply andb_false_iff; lia).
    rewrite (str_falsy_nonempty _ Htext), Hj. reflexivity.
  - intros response Hr Hs. rewrite Hr.
    replace ((400 <=? status_code response) && (status_code response <? 600)) with true
      by (symmetry; apply andb_true_iff; lia).
    reflexivity.
  - intros m r Hr. rewrite Hr. reflexivity.
Qed.

(** C5 (where the code departs from it). On a failing status
    [MAM._send_request] raises an [APIRequestError] made from the text of the
    HTTP error alone: the status code of the response is not passed on. *)
Theorem MAM_send_request_drops_status_code
    (self : MAM.t) method url json_data files h authorization response :
  fst (WorkspaceOneAuth.get_cmsurl_header (MAM.auth self) url h) = Ok authorization ->
  http_request
    (MAM_call method url (headers_dict authorization (MAM.tenant_code self))
       json_data files) = Ok response ->
  400 <= status_code response < 600 ->
  fst (MAM._send_request self method url json_data files h) =
  Raise (APIRequestError {| message := http_error_msg response;
                            error_status_code := None |}).
Proof.
  intros Hauth Hr Hs.
  rewrite MAM_send_request_run, MAM_get_headers_run.
  destruct (WorkspaceOneAuth.get_cmsurl_header _ url h) as [r h1]. simpl in Hauth.
  subst r. simpl. unfold transport_outcome. rewrite Hr.
  replace ((400 <=? status_code response) && (status_code response <? 600)) with true
    by (symmetry; apply andb_true_iff; lia).
  reflexivity.
Qed.

(** Every [_send_request] extends the trace, and any transport call it adds
    carries the timeout 90. *)
Lemma send_request_timeouts (method url : str) h :
  (forall (self : MDM.t) data,
     exists evs, snd (MDM._send_request self method url data h) = h ++ evs /\
                 Forall (fun c => call_timeout c = 90) (http_calls evs)) /\
  (forall (self : MAM.t) json_data files,
     exists evs, snd (MAM._send_request self method url json_data files h) = h ++ evs /\
                 Forall (fun c => call_timeout c = 90) (http_calls evs)) /\
  (forall (self : System.t) json_data,
     exists evs, snd (System._send_request self method url json_data h) = h ++ evs /\
                 Forall (fun c => call_timeout c = 90) (http_calls evs)).
Proof.
  repeat split.
  - intros self data. rewrite MDM_send_request_run, MDM_get_headers_run.
    destruct (get_cmsurl_header_split (MDM.auth self) url h) as (r & evs & -> & Hq).
    destruct r as [a|e]; simpl.
    + destruct (MDM.aw_environment self !! "tenant_code"); simpl.
      * rewrite <- app_assoc. eexists; split; [reflexivity|].
        rewrite http_calls_app, Hq. simpl. repeat constructor.
      * eexists; split; [reflexivity|]. rewrite Hq. constructor.
    + eexists; split; [reflexivity|]. rewrite Hq. constructor.
  - intros self json_data files. rewrite MAM_send_request_run, MAM_get_headers_run.
    destruct (get_cmsurl_header_split (MAM.auth self) url h) as (r & evs & -> & Hq).
    destruct r as [a|e]; simpl.
    + rewrite <- app_assoc. eexists; split; [reflexivity|].
      rewrite http_calls_app, Hq. simpl. repeat constructor.
    + eexists; split; [reflexivity|]. rewrite Hq. constructor.
  - intros self json_data. rewrite System_send_request_run, System_get_headers_run.
    destruct (get_cmsurl_header_split (System.auth self) url h) as (r & evs & -> & Hq).
    destruct r as [a|e]; simpl.
    + rewrite <- app_assoc. eexists; split; [reflexivity|].
      rewrite http_calls_app, Hq. simpl. repeat constructor.
    + eexists; split; [reflexivity|]. rewrite Hq. constructor.
Qed.

Lemma https_prefix (rest : str) :
  String.prefix (UrlParse.lower "https://") (UrlParse.lower ("https://" +:+ rest)) = true.
Proof.
  change (UrlParse.lower "https://") with "https://".
  change (UrlParse.lower ("https://" +:+ rest)) with ("https://" +:+ UrlParse.lower rest).
  simpl. destruct (UrlParse.lower rest); reflexivity.
Qed.

Lemma retry_session_adapter (rest : str) :
  option_map max_retries
    (get_adapter (mount new_session "https://" {| max_retries := System.retries |})
                 ("https://" +:+ rest))
  = Some System.retries.
Proof.
  unfold get_adapter.
  change (adapters (mount new_session "https://" {| max_retries := System.retries |}))
    with [("https://", {| max_retries := System.retries |}); ("http://", default_adapter)].
  cbn [List.find fst]. rewrite https_prefix. reflexivity.
Qed.

Lemma http_adapter (rest : str) :
  get_adapter (mount new_session "https://" {| max_retries := System.retries |})
              ("http://" +:+ rest)
  = Some default_adapter.
Proof.
  unfold get_adapter.
  change (adapters (mount new_session "https://" {| max_retries := System.retries |}))
    with [("https://", {| max_retries := System.retries |}); ("http://", default_adapter)].
  cbn [List.find fst].
  change (UrlParse.lower "https://") with "https://".
  change (UrlParse.lower "http://") with "http://".
  change (UrlParse.lower ("http://" +:+ rest)) with ("http://" +:+ UrlParse.lower rest).
  simpl. destruct (UrlParse.lower rest); reflexivity.
Qed.

Lemma System_init_session awEnviroment workspaceOneAuth self :
  System.__init__ awEnviroment workspaceOneAuth = Ok self ->
  System.session self = mount new_session "https://" {| max_retries := System.retries |}.
Proof.
  unfold System.__init__, obind.
  destruct (getattr awEnviroment "api_url"); [|discriminate].
  destruct (getattr awEnviroment "tenant_code"); [|discriminate].
  destruct (getattr awEnviroment "environment"); [|discriminate].
  intros [= <-]. reflexivity.
Qed.

(** *** The retry loop under the policy of [System] *)

Lemma upper_char_twice (c : ascii) :
  Urllib3.upper_char (Urllib3.upper_char c) = Urllib3.upper_char c.
Proof. destruct c as [[] [] [] [] [] [] [] []]; reflexivity. Qed.

Lemma upper_twice (s : str) : Urllib3.upper (Urllib3.upper s) = Urllib3.upper s.
Proof.
  induction s as [|c s IH]; [reflexivity|].
  cbn [Urllib3.upper]. rewrite upper_char_twice, IH. reflexivity.
Qed.

Lemma idempotent_upper (method : str) :
  idempotent (Urllib3.upper method) = idempotent method.
Proof. unfold idempotent. rewrite upper_twice. reflexivity. Qed.

(** One attempt while retries are left: the answer is retried, after the
    sleep, or ends the request. *)
Lemma urlopen_step (t : Z) (k fuel : nat) method wire :
  0 < t -> (k < 3)%nat ->
  Urllib3.urlopen_from (S fuel)
    {| Urllib3.policy := {| total := t; read := Unset; backoff_factor := 1;
                            status_forcelist := [500; 502; 503; 504] |};
       Urllib3.history := k |} method wire k
  = if retried_by_System method (wire k)
    then match Urllib3.urlopen_from fuel
                 {| Urllib3.policy := {| total := t - 1; read := Unset; backoff_factor := 1;
                                         status_forcelist := [500; 502; 503; 504] |};
                    Urllib3.history := S k |} method wire (S k) with
         | Some (result, sleeps) => Some (result, slept_by_System k (wire k) :: sleeps)
         | None => None
         end
    else Some (ended_by_System method false (wire k), []).
Proof.
  intros Ht Hk. cbn [Urllib3.urlopen_from].
  assert (Hnz : (t =? 0) = false) by (apply Z.eqb_neq; lia).
  assert (Hex : Urllib3.is_exhausted
                  {| total := t - 1; read := Unset; backoff_factor := 1;
                     status_forcelist := [500; 502; 503; 504] |} = false).
  { unfold Urllib3.is_exhausted. cbn [total read]. rewrite app_nil_r.
    destruct (t - 1 =? 0); [reflexivity|]. cbn [existsb]. rewrite orb_false_r.
    apply Z.ltb_ge. lia. }
  assert (Hsleep : forall ra text status,
            Urllib3.sleep
              {| Urllib3.policy := {| total := t - 1; read := Unset; backoff_factor := 1;
                                      status_forcelist := [500; 502; 503; 504] |};
                 Urllib3.history := S k |} ra
            = slept_by_System k (Urllib3.Answered status ra text)).
  { intros ra text status. unfold Urllib3.sleep, slept_by_System.
    assert (Hb : Urllib3.get_backoff_time
                   {| Urllib3.policy := {| total := t - 1; read := Unset; backoff_factor := 1;
                                           status_forcelist := [500; 502; 503; 504] |};
                      Urllib3.history := S k |} = nth k [0; 2; 4] 0).
    { destruct k as [|[|[|k]]]; [reflexivity..|lia]. }
    rewrite Hb. reflexivity. }
  unfold Urllib3.is_retry, Urllib3.increment, retried_by_System, ended_by_System.
  fold (idempotent method).
  change (Urllib3._is_method_retryable method) with (idempotent method).
  cbn [Urllib3.policy Urllib3.history total read backoff_factor status_forcelist].
  rewrite Hnz.
  destruct (wire k) as [status ra text| |].
  - destruct (idempotent method); cbn [negb andb orb]; [|reflexivity].
    destruct (Urllib3.status_in status [500; 502; 503; 504]) eqn:Hf; cbn [andb orb].
    + rewrite Hex, (Hsleep ra text status). reflexivity.
    + change Urllib3.RETRY_AFTER_STATUS_CODES with [413; 429; 503].
      destruct ra as [seconds|]; cbn [andb orb]; [|reflexivity].
      destruct (Urllib3.status_in status [413; 429; 503]); [|reflexivity].
      rewrite Hex, (Hsleep (Some seconds) text status). reflexivity.
  - rewrite Hex, (Hsleep None "" 0). reflexivity.
  - destruct (idempotent method); [|reflexivity].
    cbn [Urllib3.decrement]. rewrite Hex, (Hsleep None "" 0). reflexivity.
Qed.

(** The attempt made when the retries are used up. *)
Lemma urlopen_last_step (k fuel : nat) method wire :
  Urllib3.urlopen_from (S fuel)
    {| Urllib3.policy := {| total := 0; read := Unset; backoff_factor := 1;
                            status_forcelist := [500; 502; 503; 504] |};
       Urllib3.history := k |} method wire k
  = Some (ended_by_System method true (wire k), []).
Proof.
  cbn [Urllib3.urlopen_from].
  unfold Urllib3.is_retry, Urllib3.increment, ended_by_System.
  change (Urllib3._is_method_retryable method) with (idempotent method).
  cbn [Urllib3.policy Urllib3.history total read backoff_factor status_forcelist].
  destruct (wire k) as [status ra text| |].
  - destruct (idempotent method); cbn [negb andb]; [|reflexivity].
    destruct (Urllib3.status_in status [500; 502; 503; 504]); reflexivity.
  - reflexivity.
  - destruct (idempotent method); reflexivity.
Qed.

(** The whole loop, in closed form. *)
Lemma urlopen_System (method : str) (wire : nat -> Urllib3.WireAnswer) :
  exists retried : nat,
    (retried <= 3)%nat /\
    (forall k, (k < retried)%nat -> retried_by_System method (wire k) = true) /\
    ((retried < 3)%nat -> retried_by_System method (wire retried) = false) /\
    Urllib3.urlopen System.retries method wire
    = Some (ended_by_System method (retried =? 3)%nat (wire retried),
            map (fun k => slept_by_System k (wire k)) (seq 0 retried)).
Proof.
  unfold Urllib3.urlopen, Urllib3.start, System.retries. cbn [total].
  change (S (Z.to_nat 3)) with 4%nat.
  rewrite (urlopen_step 3 0) by lia.
  destruct (retried_by_System method (wire 0%nat)) eqn:H0.
  2: { exists 0%nat. split; [lia|]. split; [intros k Hk; lia|].
       split; [intros _; exact H0|]. reflexivity. }
  change (3 - 1) with 2. rewrite (urlopen_step 2 1) by lia.
  destruct (retried_by_System method (wire 1%nat)) eqn:H1.
  2: { exists 1%nat. split; [lia|].
       split; [intros k Hk; assert (k = 0%nat) as -> by lia; exact H0|].
       split; [intros _; exact H1|]. reflexivity. }
  change (2 - 1) with 1. rewrite (urlopen_step 1 2) by lia.
  destruct (retried_by_System method (wire 2%nat)) eqn:H2.
  2: { exists 2%nat. split; [lia|].
       split; [intros k Hk; destruct k as [|[|k]]; [exact H0|exact H1|lia]|].
       split; [intros _; exact H2|]. reflexivity. }
  change (1 - 1) with 0. rewrite (urlopen_last_step 3).
  exists 3%nat. split; [lia|].
  split; [intros k Hk; destruct k as [|[|[|k]]]; [exact H0|exact H1|exact H2|lia]|].
  split; [lia|]. reflexivity.
Qed.

Lemma not_exhausted (r : Retry) : Urllib3.is_exhausted r = false -> 0 <= total r.
Proof.
  unfold Urllib3.is_exhausted. destruct (total r =? 0) eqn:Hz.
  - apply Z.eqb_eq in Hz. lia.
  - cbn [app existsb]. intros [Hneg _]%orb_false_iff. apply Z.ltb_ge in Hneg. exact Hneg.
Qed.

Lemma increment_counts_down retries method answer retries' :
  Urllib3.increment retries method answer = inl retries' ->
  0 <= total (Urllib3.policy retries') /\
  total (Urllib3.policy retries') = total (Urllib3.policy retries) - 1.
Proof.
  unfold Urllib3.increment.
  destruct answer as [status ra text| |];
    [| |destruct (read (Urllib3.policy retries)); try discriminate;
        (destruct (Urllib3._is_method_retryable method); [|discriminate])];
    (destruct (Urllib3.is_exhausted _) eqn:Hex; [discriminate|];
     intros [= <-]; apply not_exhausted in Hex; cbn [Urllib3.policy total] in *;
     split; [exact Hex|reflexivity]).
Qed.

(** The loop ends, whatever the policy and the network. *)
Lemma urlopen_from_returns method wire fuel :
  forall retries attempt,
    (Z.to_nat (total (Urllib3.policy retries)) < fuel)%nat ->
    exists result, Urllib3.urlopen_from fuel retries method wire attempt = Some result.
Proof.
  induction fuel as [|fuel IH]; intros retries attempt Hfuel; [lia|].
  cbn [Urllib3.urlopen_from].
  assert (Hnext : forall answer retries',
            Urllib3.increment retries method answer = inl retries' ->
            (Z.to_nat (total (Urllib3.policy retries')) < fuel)%nat).
  { intros answer retries' Hinc.
    destruct (increment_counts_down _ _ _ _ Hinc) as [Hpos Heq]. lia. }
  destruct (wire attempt) as [status ra text| |] eqn:Hw.
  - destruct (Urllib3.is_retry _ _ _ _); [|eauto].
    destruct (Urllib3.increment retries method _) as [retries'|failure] eqn:Hinc; [|eauto].
    destruct (IH retries' (S attempt) (Hnext _ _ Hinc)) as [[result sleeps] ->]. eauto.
  - destruct (Urllib3.increment retries method _) as [retries'|failure] eqn:Hinc; [|eauto].
    destruct (IH retries' (S attempt) (Hnext _ _ Hinc)) as [[result sleeps] ->]. eauto.
  - destruct (Urllib3.increment retries method _) as [retries'|failure] eqn:Hinc; [|eauto].
    destruct (IH retries' (S attempt) (Hnext _ _ Hinc)) as [[result sleeps] ->]. eauto.
Qed.

Lemma Session_request_returns describe s method url wire :
  exists result, Urllib3.Session_request describe s method url wire = Some result.
Proof.
  unfold Urllib3.Session_request.
  destruct (get_adapter s url) as [adapter|]; [|eauto].
  destruct (urlopen_from_returns (Urllib3.upper method) wire
              (S (Z.to_nat (total (max_retries adapter))))
              (Urllib3.start (max_retries adapter)) 0%nat) as [[[[status text]|failure] sleeps] Hrun];
    [cbn; lia| |]; unfold Urllib3.urlopen; rewrite Hrun; eauto.
Qed.

(** Four answers 503 in a row to an idempotent method used up the retries:
    the session raises an exception that carries no response. *)
Lemma four_503_through_the_session describe (self : System.t) method rest wire :
  System.session self = mount new_session "https://" {| max_retries := System.retries |} ->
  idempotent method = true ->
  (forall n, (n < 4)%nat -> exists retry_after text,
               wire n = Urllib3.Answered 503 retry_after text) ->
  exists sleeps,
    Urllib3.Session_request describe (System.session self) method ("https://" +:+ rest) wire
    = Some (Raise (RequestException (describe (Urllib3.TooManyResponses 503)) None), sleeps).
Proof.
  intros Hsession Hmethod Hwire. unfold Urllib3.Session_request. rewrite Hsession.
  pose proof (retry_session_adapter rest) as Hadapter.
  destruct (get_adapter _ ("https://" +:+ rest)) as [adapter|]; [|discriminate].
  cbn [option_map] in Hadapter. injection Hadapter as ->.
  destruct (urlopen_System (Urllib3.upper method) wire) as (retried & Hle & Hall & Hstop & ->).
  assert (Hretry : forall n, (n < 4)%nat ->
                     retried_by_System (Urllib3.upper method) (wire n) = true).
  { intros n Hn. destruct (Hwire n Hn) as (ra & text & ->).
    unfold retried_by_System. rewrite idempotent_upper, Hmethod. reflexivity. }
  assert (retried = 3%nat) as ->.
  { destruct (Nat.eq_dec retried 3%nat) as [|Hne]; [assumption|].
    assert (Hlt : (retried < 3)%nat) by lia.
    rewrite (Hretry retried) in Hstop by lia. specialize (Hstop Hlt). discriminate. }
  destruct (Hwire 3%nat) as (ra & text & ->); [lia|].
  unfold ended_by_System. rewrite idempotent_upper, Hmethod. cbn. eauto.
Qed.

(** C6 (as the code has it). A [System] that was constructed sends what
    goes to an [https://] URL through an adapter with
    [Retry(total=3, backoff_factor=1, status_forcelist=[500, 502, 503, 504])]
    and what goes to an [http://] URL through the default adapter, which
    makes one attempt.  Under the policy of the [https://] adapter urllib3
    makes up to three retries, so at most four attempts.
    Another attempt follows a response with a listed status, or with status
    413, 429 or 503 and a [Retry-After] header, when the method is one of
    HEAD, GET, PUT, DELETE, OPTIONS and TRACE; it follows a connection that
    could not be made, and a failed read on those methods.  Of the 4xx
    statuses only 413 and 429 are retried, and only with [Retry-After];
    responses to POST and PATCH are never retried.  Before the retries the
    adapter sleeps what [Retry-After] asks for, or else nothing, then 2,
    then 4 seconds.  When the retries are used up on a listed status the
    session raises an exception without a response, so the
    [APIRequestError] of [_send_request] carries no status code.  Each of
    the three [_send_request] methods passes [timeout = 90] to every
    transport call it makes. *)
Theorem retry_policy_and_timeout :
  (forall awEnviroment workspaceOneAuth self,
     System.__init__ awEnviroment workspaceOneAuth = Ok self ->
     forall rest,
       get_adapter (System.session self) ("https://" +:+ rest)
       = Some {| max_retries := {| total := 3; read := Unset; backoff_factor := 1;
                                   status_forcelist := [500; 502; 503; 504] |} |} /\
       get_adapter (System.session self) ("http://" +:+ rest) = Some default_adapter) /\
  (forall method wire,
     Urllib3.urlopen (max_retries default_adapter) method wire
     = Some (match wire 0%nat with
             | Urllib3.Answered status _ text => inl (status, text)
             | Urllib3.ConnectFailed => inr Urllib3.TooManyConnectErrors
             | Urllib3.ReadFailed => inr Urllib3.ReadErrorReraised
             end, [])) /\
  (forall method wire,
     exists retried : nat,
       (retried <= 3)%nat /\
       (forall k, (k < retried)%nat -> retried_by_System method (wire k) = true) /\
       ((retried < 3)%nat -> retried_by_System method (wire retried) = false) /\
       Urllib3.urlopen System.retries method wire
       = Some (ended_by_System method (retried =? 3)%nat (wire retried),
               map (fun k => slept_by_System k (wire k)) (seq 0 retried))) /\
  (forall method status retry_after text,
     400 <= status < 500 ->
     retried_by_System method (Urllib3.Answered status retry_after text) = true ->
     (status = 413 \/ status = 429) /\ retry_after <> None /\ idempotent method = true) /\
  (forall status retry_after text,
     retried_by_System "POST" (Urllib3.Answered status retry_after text) = false /\
     retried_by_System "PATCH" (Urllib3.Answered status retry_after text) = false) /\
  (forall describe wire,
     sends_through_adapters describe wire ->
     forall awEnviroment workspaceOneAuth self method rest json_data h authorization,
       System.__init__ awEnviroment workspaceOneAuth = Ok self ->
       fst (WorkspaceOneAuth.get_cmsurl_header (System.auth self) ("https://" +:+ rest) h)
         = Ok authorization ->
       idempotent method = true ->
       (forall n, (n < 4)%nat -> exists retry_after text,
          wire (System_call self method ("https://" +:+ rest)
                  (headers_dict authorization (System.tenant_code self)) json_data) n
          = Urllib3.Answered 503 retry_after text) ->
       fst (System._send_request self method ("https://" +:+ rest) json_data h)
       = Raise (APIRequestError
                  {| message := "API request to " +:+ ("https://" +:+ rest) +:+ " failed";
                     error_status_code := None |})) /\
  (forall method url h,
     (forall (self : MDM.t) data,
        exists evs, snd (MDM._send_request self method url data h) = h ++ evs /\
                    Forall (fun c => call_timeout c = 90) (http_calls evs)) /\
     (forall (self : MAM.t) json_data files,
        exists evs, snd (MAM._send_request self method url json_data files h) = h ++ evs /\
                    Forall (fun c => call_timeout c = 90) (http_calls evs)) /\
     (forall (self : System.t) json_data,
        exists evs, snd (System._send_request self method url json_data h) = h ++ evs /\
                    Forall (fun c => call_timeout c = 90) (http_calls evs))).
Proof.
  split; [|split; [|split; [|split; [|split; [|split]]]]].
  - intros env a self Hinit rest. rewrite (System_init_session _ _ _ Hinit). split.
    + pose proof (retry_session_adapter rest) as Hadapter.
      destruct (get_adapter _ ("https://" +:+ rest)) as [[policy]|]; [|discriminate].
      cbn [option_map max_retries] in Hadapter. injection Hadapter as ->. reflexivity.
    + apply http_adapter.
  - intros method wire. unfold Urllib3.urlopen, default_adapter.
    cbn [max_retries total Z.to_nat Urllib3.urlopen_from Urllib3.start].
    unfold Urllib3.is_retry, Urllib3.increment.
    cbn [Urllib3.policy total read status_forcelist].
    destruct (wire 0%nat) as [status ra text| |]; [|reflexivity..].
    destruct (Urllib3._is_method_retryable method); reflexivity.
  - exact urlopen_System.
  - intros method status ra text Hrange. unfold retried_by_System.
    destruct (idempotent method); [|discriminate]. cbn [andb].
    assert (Hlisted : Urllib3.status_in status [500; 502; 503; 504] = false).
    { unfold Urllib3.status_in. cbn [existsb].
      repeat (rewrite (proj2 (Z.eqb_neq _ _)) by lia). reflexivity. }
    rewrite Hlisted. cbn [orb].
    destruct ra as [seconds|]; [|discriminate]. cbn [andb].
    unfold Urllib3.status_in. cbn [existsb]. rewrite orb_false_r.
    rewrite (proj2 (Z.eqb_neq status 503)) by lia. rewrite orb_false_r.
    intros [H413%Z.eqb_eq|H429%Z.eqb_eq]%orb_true_iff;
      (split; [auto|split; [discriminate|reflexivity]]).
  - intros status ra text. split; reflexivity.
  - intros describe wire Hsends env a self method rest json_data h authorization
           Hinit Hauth Hmethod Hwire.
    rewrite System_send_request_run, System_get_headers_run.
    destruct (WorkspaceOneAuth.get_cmsurl_header _ _ h) as [r h1].
    cbn [fst] in Hauth. subst r. cbn [fst].
    set (call := System_call self method ("https://" +:+ rest)
                   (headers_dict authorization (System.tenant_code self)) json_data) in *.
    destruct (Hsends call (System.session self) eq_refl) as [sleeps Hsent].
    destruct (four_503_through_the_session (describe call) self method rest (wire call)
                (System_init_session _ _ _ Hinit) Hmethod Hwire) as [sleeps' Hrun].
    change (call_method call) with method in Hsent.
    change (call_url call) with ("https://" +:+ rest) in Hsent.
    rewrite Hrun in Hsent. injection Hsent as Hhttp _.
    unfold transport_outcome. rewrite <- Hhttp. reflexivity.
  - exact send_request_timeouts.
Qed.

(** *** The class namespace of [System] *)

Lemma bind_defs_lookup (body : list (string * nat)) (name : string) (line : nat) :
  System.bind_defs body !! name = Some line -> (name, line) ∈ body.
Proof.
  unfold System.bind_defs.
  enough (Hgen : forall (ns : gmap string nat),
             foldl (fun ns d => <[ fst d := snd d ]> ns) ns body !! name = Some line ->
             ns !! name = Some line \/ (name, line) ∈ body).
  { intros Hl. destruct (Hgen _ Hl) as [Hemp|Hin]; [|exact Hin].
    rewrite lookup_empty in Hemp. discriminate. }
  induction body as [|[n l] body IH]; intros ns; simpl.
  - auto.
  - intros Hl. destruct (IH _ Hl) as [Hns|Hin].
    + destruct (decide (n = name)) as [->|Hne].
      * rewrite lookup_insert_eq in Hns. injection Hns as ->. right. left.
      * rewrite lookup_insert_ne in Hns by exact Hne. left. exact Hns.
    + right. right. exact Hin.
Qed.

Lemma only_one_name_at_1434 (name : string) :
  (name, 1434%nat) ∈ System.class_body -> name = "create_event_notification_rule".
Proof.
  assert (Hall : forallb (fun d => negb (snd d =? 1434)%nat
                                   || String.eqb (fst d) "create_event_notification_rule")
                         System.class_body = true) by reflexivity.
  rewrite forallb_forall in Hall. intros Hin%list_elem_of_In.
  specialize (Hall _ Hin). simpl in Hall. apply String.eqb_eq in Hall. exact Hall.
Qed.

Lemma namespace_create_event_notification_rule :
  System.namespace !! "create_event_notification_rule" = Some 1468%nat.
Proof. vm_compute. reflexivity. Qed.

(** The transport calls that [System._send_request] adds go to the method
    and URL it was given. *)
Lemma System_send_request_calls (self : System.t) method url json_data h :
  exists evs,
    snd (System._send_request self method url json_data h) = h ++ evs /\
    Forall (fun c => call_method c = method /\ call_url c = url) (http_calls evs) /\
    forall authorization,
      fst (WorkspaceOneAuth.get_cmsurl_header (System.auth self) url h) = Ok authorization ->
      http_calls evs =
      [System_call self method url
         (headers_dict authorization (System.tenant_code self)) json_data].
Proof.
  rewrite System_send_request_run, System_get_headers_run.
  destruct (get_cmsurl_header_split (System.auth self) url h) as (r & evs & -> & Hq).
  destruct r as [a|e]; simpl.
  - rewrite <- app_assoc. eexists; split; [reflexivity|].
    rewrite http_calls_app, Hq. simpl. split; [repeat constructor|].
    intros ? [= <-]. reflexivity.
  - eexists; split; [reflexivity|]. rewrite Hq. split; [constructor|]. discriminate.
Qed.

(** C9. The class body of [System] defines [create_event_notification_rule]
    twice, at line 1434 (legacy path) and at line 1468 (V1 path).  The name
    is bound to the second definition, no name is bound to the first one,
    and so every call of [create_event_notification_rule] runs the second
    definition: whatever it sends is a POST to the V1 path, and with eleven
    arguments and a header step that returns, it sends exactly one. *)
Theorem create_event_notification_rule_is_V1 :
  filter (fun d => fst d = "create_event_notification_rule") System.class_body
    = [("create_event_notification_rule", 1434%nat);
       ("create_event_notification_rule", 1468%nat)] /\
  System.namespace !! "create_event_notification_rule" = Some 1468%nat /\
  (forall name, System.namespace !! name <> Some 1434%nat) /\
  (forall (self : System.t) (args : list Json) h,
     let url := format_value (System.api_url self)
                +:+ "/system/eventnotifications/V1/eventnotifications" in
     System.create_event_notification_rule self args h
       = System.create_event_notification_rule_1468 self args h /\
     exists evs,
       snd (System.create_event_notification_rule self args h) = h ++ evs /\
       Forall (fun c => call_method c = "POST" /\ call_url c = url) (http_calls evs) /\
       forall authorization,
         length args = 11%nat ->
         fst (WorkspaceOneAuth.get_cmsurl_header (System.auth self) url h)
           = Ok authorization ->
         exists payload,
           http_calls evs =
           [System_call self "POST" url
              (headers_dict authorization (System.tenant_code self)) (Some payload)]).
Proof.
  split; [vm_compute; reflexivity|].
  split; [exact namespace_create_event_notification_rule|].
  split.
  - intros name Hl.
    pose proof (only_one_name_at_1434 _ (bind_defs_lookup _ _ _ Hl)) as ->.
    rewrite namespace_create_event_notification_rule in Hl. discriminate.
  - intros self args h url.
    assert (Heq : System.create_event_notification_rule self args h
                  = System.create_event_notification_rule_1468 self args h).
    { unfold System.create_event_notification_rule.
      rewrite namespace_create_event_notification_rule. reflexivity. }
    split; [exact Heq|]. rewrite Heq.
    unfold System.create_event_notification_rule_1468.
    do 11 (destruct args as [|? args];
           [exists []; rewrite app_nil_r; split; [reflexivity|];
            split; [constructor|]; intros ?; discriminate|]).
    destruct args as [|? args].
    + match goal with
      | |- context [System._send_request self ?m ?u ?d h] =>
          destruct (System_send_request_calls self m u d h) as (evs & Hs & Hall & Hone)
      end.
      exists evs. split; [exact Hs|]. split; [exact Hall|].
      intros authorization _ Ha. eexists. apply Hone. exact Ha.
    + exists []; rewrite app_nil_r; split; [reflexivity|].
      split; [constructor|]. intros ?; discriminate.
Qed.

End Dispatchers.

(** ** Configuration errors *)

(** C7 (as the code has it). An empty base URL or tenant code fails at the
    construction of [AWEnvironment].  Constructing the authenticator, from a
    path or from memory, never fails and checks nothing; certificate
    credentials that cannot be read or decoded show at call time, when
    [get_cmsurl_header] returns [None]. *)
Theorem configuration_errors `{Platform} :
  (forall api_url tenant_code parent_og,
     api_url = "" \/ tenant_code = "" ->
     exists msg, AWEnvironment.__init__ api_url tenant_code parent_og
                 = Raise (ValueError msg)) /\
  (forall cert_path cert_pw,
     exists a, WorkspaceOneAuth.__init__ cert_path cert_pw = Ok a /\
               WorkspaceOneAuth.cert_path a = cert_path /\
               WorkspaceOneAuth.cert_pw a = cert_pw) /\
  (forall cert_bytes cert_pw,
     exists a, WorkspaceOneAuth.from_memory cert_bytes cert_pw = Ok a /\
               WorkspaceOneAuth.cert_bytes a = Some cert_bytes /\
               WorkspaceOneAuth.cert_pw a = cert_pw) /\
  (forall cert_path cert_pw a url h,
     WorkspaceOneAuth.__init__ cert_path cert_pw = Ok a ->
     ((exists e, read_file cert_path = Raise e) \/
      (exists d e, read_file cert_path = Ok d /\
                   load_key_and_certificates d (encode_utf8 cert_pw) = Raise e)) ->
     fst (WorkspaceOneAuth.get_cmsurl_header a url h) = Ok None).
Proof.
  split; [|split; [|split]].
  - intros api_url tenant_code parent_og. unfold AWEnvironment.__init__.
    intros [-> | ->]; simpl; rewrite ?orb_true_r; eauto.
  - intros cert_path cert_pw. eexists. split; [reflexivity|]. split; reflexivity.
  - intros cert_bytes cert_pw. eexists. split; [reflexivity|]. split; reflexivity.
  - intros cert_path cert_pw a url h Hinit Hbad. injection Hinit as <-.
    rewrite get_cmsurl_header_run. unfold p12_source. simpl.
    destruct Hbad as [[e He] | (d & e & Hd & He)].
    + rewrite He. reflexivity.
    + rewrite Hd, He. reflexivity.
Qed.

(* ===================================================================== *)
(** * Further properties of the authenticator *)
(* ===================================================================== *)

Section AuthenticatorMore.
Context `{Platform}.

Lemma opened_files_app (h1 h2 : list Event) :
  opened_files (h1 ++ h2) = opened_files h1 ++ opened_files h2.
Proof. apply omap_app. Qed.

Lemma p12_loads_app (h1 h2 : list Event) :
  p12_loads (h1 ++ h2) = p12_loads h1 ++ p12_loads h2.
Proof. apply omap_app. Qed.

(** The events of a run do not depend on what happened before. *)
Lemma get_cmsurl_header_events a url h :
  WorkspaceOneAuth.get_cmsurl_header a url h
  = (fst (WorkspaceOneAuth.get_cmsurl_header a url []), h ++ auth_events a url).
Proof.
  unfold auth_events. rewrite !get_cmsurl_header_run.
  destruct (p12_source a); [|reflexivity].
  destruct (load_key_and_certificates _ _) as [[[k|] [c|]]|e]; try reflexivity.
  destruct (urlparse url); reflexivity.
Qed.

(** What one run opens and decodes. *)
Lemma auth_events_loads a url :
  opened_files (auth_events a url)
  = (if default false (WorkspaceOneAuth.use_memory_cert a) then []
     else [WorkspaceOneAuth.cert_path a]) /\
  p12_loads (auth_events a url)
  = match p12_source a with
    | Ok d => [(d, encode_utf8 (WorkspaceOneAuth.cert_pw a))]
    | Raise _ => []
    end.
Proof.
  unfold auth_events. rewrite get_cmsurl_header_run.
  assert (Hload : opened_files (load_events a)
                  = (if default false (WorkspaceOneAuth.use_memory_cert a) then []
                     else [WorkspaceOneAuth.cert_path a]) /\
                  p12_loads (load_events a)
                  = match p12_source a with
                    | Ok d => [(d, encode_utf8 (WorkspaceOneAuth.cert_pw a))]
                    | Raise _ => []
                    end).
  { unfold load_events. rewrite opened_files_app, p12_loads_app.
    destruct (default false _); destruct (p12_source a); split; reflexivity. }
  destruct Hload as [Ho Hl].
  destruct (p12_source a) as [d|e]; [|split; assumption].
  destruct (load_key_and_certificates _ _) as [[[k|] [c|]]|e]; try (split; assumption).
  destruct (urlparse url); [|split; assumption].
  cbn [snd app]. rewrite opened_files_app, p12_loads_app, Ho, Hl.
  split; apply app_nil_r.
Qed.

(** X1. An authenticator made by [from_memory] never opens a file: whatever
    happened before, a call of [get_cmsurl_header] opens nothing and hands the
    decoder exactly the bytes and the password it was made from. *)
Theorem from_memory_needs_no_file cert_bytes cert_pw a url h :
  WorkspaceOneAuth.from_memory cert_bytes cert_pw = Ok a ->
  exists evs,
    snd (WorkspaceOneAuth.get_cmsurl_header a url h) = h ++ evs /\
    opened_files evs = [] /\
    p12_loads evs = [(cert_bytes, encode_utf8 cert_pw)].
Proof.
  intros Hmade. cbv in Hmade. injection Hmade as <-.
  rewrite get_cmsurl_header_events. eexists. split; [reflexivity|].
  apply (auth_events_loads
           {| WorkspaceOneAuth.cert_path := ""; WorkspaceOneAuth.cert_pw := cert_pw;
              WorkspaceOneAuth.cert_bytes := Some cert_bytes;
              WorkspaceOneAuth.use_memory_cert := Some true |} url).
Qed.

(** X2. Nothing is cached: whatever happened before, each call of
    [get_cmsurl_header] on an authenticator made from a path opens that file
    once and, when it can be read, decodes its content once with the
    password. *)
Theorem certificate_reloaded_on_every_call cert_path cert_pw a url h :
  WorkspaceOneAuth.__init__ cert_path cert_pw = Ok a ->
  exists evs,
    snd (WorkspaceOneAuth.get_cmsurl_header a url h) = h ++ evs /\
    opened_files evs = [cert_path] /\
    p12_loads evs = match read_file cert_path with
                    | Ok d => [(d, encode_utf8 cert_pw)]
                    | Raise _ => []
                    end.
Proof.
  intros Hmade. cbv in Hmade. injection Hmade as <-.
  rewrite get_cmsurl_header_events. eexists. split; [reflexivity|].
  apply (auth_events_loads
           {| WorkspaceOneAuth.cert_path := cert_path; WorkspaceOneAuth.cert_pw := cert_pw;
              WorkspaceOneAuth.cert_bytes := None;
              WorkspaceOneAuth.use_memory_cert := None |} url).
Qed.

(** X3. A header comes back exactly when every step succeeds: the bundle is
    read, the decoder returns both a key and a certificate, the URL parses
    and the signing call returns; the header is then the prefix followed by
    the base64 text of what the signing call returned. *)
Theorem header_iff_every_step_succeeds a url h header :
  fst (WorkspaceOneAuth.get_cmsurl_header a url h) = Ok (Some header) <->
  exists d private_key certificate parsed_url der,
    p12_source a = Ok d /\
    load_key_and_certificates d (encode_utf8 (WorkspaceOneAuth.cert_pw a))
      = Ok (Some private_key, Some certificate) /\
    urlparse url = Ok parsed_url /\
    pkcs7_sign (signing_builder private_key certificate (UrlParse.path parsed_url))
      DER [DetachedSignature] = Ok der /\
    header = "CMSURL`1 " +:+ b64encode der.
Proof.
  rewrite get_cmsurl_header_run. split.
  - destruct (p12_source a) as [d|e]; [|discriminate].
    destruct (load_key_and_certificates _ _) as [[[k|] [c|]]|e] eqn:Hl; try discriminate.
    destruct (urlparse url) as [p|e] eqn:Hp; [|discriminate].
    cbn [fst]. destruct (pkcs7_sign _ _ _) as [der|e] eqn:Hs; [|discriminate].
    intros [= <-]. exists d, k, c, p, der. auto.
  - intros (d & k & c & p & der & -> & -> & -> & Hs & ->). cbn [fst]. rewrite Hs.
    reflexivity.
Qed.

(** X4. The only exception that leaves [get_cmsurl_header] is one raised by
    [urlparse], and only once the bundle was decoded into a key and a
    certificate: a failing load or a failing signature never raises. *)
Theorem get_cmsurl_header_raises_only_from_urlparse a url h e :
  fst (WorkspaceOneAuth.get_cmsurl_header a url h) = Raise e ->
  urlparse url = Raise e /\
  exists d private_key certificate,
    p12_source a = Ok d /\
    load_key_and_certificates d (encode_utf8 (WorkspaceOneAuth.cert_pw a))
      = Ok (Some private_key, Some certificate).
Proof.
  rewrite get_cmsurl_header_run.
  destruct (p12_source a) as [d|e0]; [|discriminate].
  destruct (load_key_and_certificates _ _) as [[[k|] [c|]]|e0] eqn:Hl; try discriminate.
  destruct (urlparse url) as [p|e0]; [discriminate|].
  intros [= <-]. split; [reflexivity|]. exists d, k, c. split; [reflexivity|exact Hl].
Qed.

End AuthenticatorMore.

(* ===================================================================== *)
(** * Further properties of the dispatchers *)
(* ===================================================================== *)

Section DispatchersMore.
Context `{Platform}.

(** The exceptions a dispatcher builds are not [RequestException]s, and the
    exchange lets no [RequestException] through. *)
Lemma transport_outcome_wraps (call : HttpCall) (on_error : str -> option Response -> exn) e :
  (forall m r, is_RequestException (on_error m r) = false) ->
  transport_outcome call on_error = Raise e -> is_RequestException e = false.
Proof.
  intros Hwrap. unfold transport_outcome.
  destruct (http_request call) as [r|e0].
  - destruct (_ && _); [intros [= <-]; apply Hwrap|].
    destruct (str_falsy _); [discriminate|].
    destruct (response_json r) as [j|e0]; [discriminate|].
    intros [= <-]. destruct e0; try reflexivity. apply Hwrap.
  - intros [= <-]. destruct e0; try reflexivity. apply Hwrap.
Qed.

(** X5. What [MDM._send_request] and [System._send_request] answer once the
    header step has returned: the empty mapping for a success status with an
    empty body, the parsed body for a success status with a body, and an
    [APIRequestError] with the status code of the response for a status from
    400 to 599; when the transport raises a [RequestException], an
    [APIRequestError] with the status code of the response it carries, if
    any. *)
Theorem send_request_reports_status (method url : str) h authorization :
  let contract (call : HttpCall) (result : Outcome Json) :=
    (forall response,
       http_request call = Ok response -> ~ (400 <= status_code response < 600) ->
       (text response = "" -> result = Ok empty_dict) /\
       (forall j, text response <> "" -> response_json response = Ok j ->
                  result = Ok j)) /\
    (forall response,
       http_request call = Ok response -> 400 <= status_code response < 600 ->
       result = Raise (APIRequestError
                         {| message := "API request to " +:+ url +:+ " failed";
                            error_status_code := Some (status_code response) |})) /\
    (forall m e_response,
       http_request call = Raise (RequestException m e_response) ->
       result = Raise (APIRequestError
                         {| message := "API request to " +:+ url +:+ " failed";
                            error_status_code := option_map status_code e_response |})) in
  (forall (self : MDM.t) data tenant_code,
     fst (WorkspaceOneAuth.get_cmsurl_header (MDM.auth self) url h) = Ok authorization ->
     MDM.aw_environment self !! "tenant_code" = Some tenant_code ->
     contract (MDM_call method url (headers_dict authorization tenant_code) data)
              (fst (MDM._send_request self method url data h))) /\
  (forall (self : System.t) json_data,
     fst (WorkspaceOneAuth.get_cmsurl_header (System.auth self) url h) = Ok authorization ->
     contract (System_call self method url
                 (headers_dict authorization (System.tenant_code self)) json_data)
              (fst (System._send_request self method url json_data h))).
Proof.
  intros contract. split.
  - intros self data tenant_code Hauth Htenant.
    rewrite MDM_send_request_run, MDM_get_headers_run, Htenant.
    destruct (WorkspaceOneAuth.get_cmsurl_header _ url h) as [r h1].
    simpl in Hauth. subst r. cbn [fst].
    apply (exchange_with_status _ url).
  - intros self json_data Hauth.
    rewrite System_send_request_run, System_get_headers_run.
    destruct (WorkspaceOneAuth.get_cmsurl_header _ url h) as [r h1].
    simpl in Hauth. subst r. cbn [fst].
    apply (exchange_with_status _ url).
Qed.

(** X6. No [RequestException] leaves a dispatcher: when [urlparse] raises
    none, whatever [_send_request] raises is not a [RequestException]; the
    ones of the transport and of [response.json()] have been turned into
    [APIRequestError]. *)
Theorem send_request_lets_no_RequestException_out (method url : str) h e :
  (forall e', urlparse url = Raise e' -> is_RequestException e' = false) ->
  (forall (self : MDM.t) data,
     fst (MDM._send_request self method url data h) = Raise e ->
     is_RequestException e = false) /\
  (forall (self : MAM.t) json_data files,
     fst (MAM._send_request self method url json_data files h) = Raise e ->
     is_RequestException e = false) /\
  (forall (self : System.t) json_data,
     fst (System._send_request self method url json_data h) = Raise e ->
     is_RequestException e = false).
Proof.
  intros Hparse.
  assert (Hauth : forall a r h1,
            WorkspaceOneAuth.get_cmsurl_header a url h = (Raise r, h1) ->
            is_RequestException r = false).
  { intros a r h1 Hrun. apply Hparse.
    pose proof (get_cmsurl_header_run a url h) as Hr. rewrite Hrun in Hr.
    destruct (p12_source a); [|discriminate].
    destruct (load_key_and_certificates _ _) as [[[k|] [c|]]|e0]; try discriminate.
    destruct (urlparse url); [discriminate|]. congruence. }
  repeat split.
  - intros self data. rewrite MDM_send_request_run, MDM_get_headers_run.
    destruct (WorkspaceOneAuth.get_cmsurl_header _ url h) as [[a|r] h1] eqn:Hrun.
    + destruct (MDM.aw_environment self !! "tenant_code"); cbn [fst].
      * apply transport_outcome_wraps. reflexivity.
      * intros [= <-]. reflexivity.
    + cbn [fst]. intros [= <-]. eapply Hauth, Hrun.
  - intros self json_data files. rewrite MAM_send_request_run, MAM_get_headers_run.
    destruct (WorkspaceOneAuth.get_cmsurl_header _ url h) as [[a|r] h1] eqn:Hrun.
    + cbn [fst]. apply transport_outcome_wraps. reflexivity.
    + cbn [fst]. intros [= <-]. eapply Hauth, Hrun.
  - intros self json_data. rewrite System_send_request_run, System_get_headers_run.
    destruct (WorkspaceOneAuth.get_cmsurl_header _ url h) as [[a|r] h1] eqn:Hrun.
    + cbn [fst]. apply transport_outcome_wraps. reflexivity.
    + cbn [fst]. intros [= <-]. eapply Hauth, Hrun.
Qed.

(** X7. When the header step itself raises, which only an unparsable URL
    causes, [_send_request] passes that exception on as it is, not as an
    [APIRequestError], and the transport is not called. *)
Theorem send_request_stops_when_the_header_step_raises (method url : str) h e :
  (forall (self : MDM.t) data,
     fst (WorkspaceOneAuth.get_cmsurl_header (MDM.auth self) url h) = Raise e ->
     fst (MDM._send_request self method url data h) = Raise e /\
     http_calls (snd (MDM._send_request self method url data h)) = http_calls h) /\
  (forall (self : MAM.t) json_data files,
     fst (WorkspaceOneAuth.get_cmsurl_header (MAM.auth self) url h) = Raise e ->
     fst (MAM._send_request self method url json_data files h) = Raise e /\
     http_calls (snd (MAM._send_request self method url json_data files h))
       = http_calls h) /\
  (forall (self : System.t) json_data,
     fst (WorkspaceOneAuth.get_cmsurl_header (System.auth self) url h) = Raise e ->
     fst (System._send_request self method url json_data h) = Raise e /\
     http_calls (snd (System._send_request self method url json_data h))
       = http_calls h).
Proof.
  split; [|split].
  - intros self data Hraise. rewrite MDM_send_request_run, MDM_get_headers_run.
    destruct (get_cmsurl_header_split (MDM.auth self) url h) as (r & evs & Hrun & Hq).
    rewrite Hrun in *. cbn [fst] in Hraise. subst r. cbn [fst snd].
    rewrite http_calls_app, Hq, app_nil_r. split; reflexivity.
  - intros self json_data files Hraise. rewrite MAM_send_request_run, MAM_get_headers_run.
    destruct (get_cmsurl_header_split (MAM.auth self) url h) as (r & evs & Hrun & Hq).
    rewrite Hrun in *. cbn [fst] in Hraise. subst r. cbn [fst snd].
    rewrite http_calls_app, Hq, app_nil_r. split; reflexivity.
  - intros self json_data Hraise. rewrite System_send_request_run, System_get_headers_run.
    destruct (get_cmsurl_header_split (System.auth self) url h) as (r & evs & Hrun & Hq).
    rewrite Hrun in *. cbn [fst] in Hraise. subst r. cbn [fst snd].
    rewrite http_calls_app, Hq, app_nil_r. split; reflexivity.
Qed.

End DispatchersMore.

(* ===================================================================== *)
(** * The [Accept] header and the payloads of [System] *)
(* ===================================================================== *)

Section SystemMore.
Context `{Platform}.

(** Every transport call of [System._send_request] is the call built from the
    arguments and from the headers of [_get_headers]. *)
Lemma System_send_request_trace (self : System.t) method url json_data h :
  exists evs,
    snd (System._send_request self method url json_data h) = h ++ evs /\
    Forall (fun c => exists authorization,
                c = System_call self method url
                      (headers_dict authorization (System.tenant_code self)) json_data)
           (http_calls evs).
Proof.
  rewrite System_send_request_run, System_get_headers_run.
  destruct (get_cmsurl_header_split (System.auth self) url h) as (r & evs & -> & Hq).
  destruct r as [a|e]; cbn [fst snd].
  - rewrite <- app_assoc. eexists; split; [reflexivity|].
    rewrite http_calls_app, Hq. repeat constructor. eauto.
  - eexists; split; [reflexivity|]. rewrite Hq. constructor.
Qed.

(** Each of the seven methods computes headers, sets [Accept] on them, and
    then calls [_send_request], which computes its own. *)
Lemma run_delegating_shape (self : System.t) (c : delegating_call) :
  exists url method payload,
    run_delegating self c
    = bind (System._get_headers self url)
           (fun _ => System._send_request self method url payload).
Proof. destruct c; do 3 eexists; reflexivity. Qed.

Lemma delegating_trace (self : System.t) url method payload h :
  exists evs,
    snd (bind (System._get_headers self url)
              (fun _ => System._send_request self method url payload) h) = h ++ evs /\
    Forall (fun c => exists authorization,
                c = System_call self method url
                      (headers_dict authorization (System.tenant_code self)) payload)
           (http_calls evs).
Proof.
  unfold bind at 1. rewrite System_get_headers_run.
  destruct (get_cmsurl_header_split (System.auth self) url h) as (r & evs0 & -> & Hq0).
  destruct r as [a|e].
  - destruct (System_send_request_trace self method url payload (h ++ evs0))
      as (evs & -> & Hall).
    rewrite <- app_assoc. eexists; split; [reflexivity|].
    rewrite http_calls_app, Hq0. exact Hall.
  - cbn [snd]. eexists; split; [reflexivity|]. rewrite Hq0. constructor.
Qed.

Lemma run_delegating_run (self : System.t) (c : delegating_call) :
  exists url method payload, forall h,
    run_delegating self c h
    = match fst (WorkspaceOneAuth.get_cmsurl_header (System.auth self) url []) with
      | Ok _ => System._send_request self method url payload
                  (h ++ auth_events (System.auth self) url)
      | Raise e => (Raise e, h ++ auth_events (System.auth self) url)
      end.
Proof.
  destruct (run_delegating_shape self c) as (url & method & payload & ->).
  exists url, method, payload. intros h. unfold bind at 1.
  rewrite System_get_headers_run, get_cmsurl_header_events.
  destruct (fst (WorkspaceOneAuth.get_cmsurl_header _ url [])); reflexivity.
Qed.

(** X8. The [Accept] header that [create_device_wipe_report],
    [get_dropship_provisioning], [enable_dropship_provisioning_v1] and the
    four custom-attribute methods set never reaches the transport: the call
    they make carries the three standard headers and no [Accept]. *)
Theorem accept_header_is_dropped (self : System.t) (c : delegating_call) h :
  exists evs,
    snd (run_delegating self c h) = h ++ evs /\
    Forall (fun call => map fst (call_headers call) = standard_keys /\
                        dict_get "Accept" (call_headers call) = None)
           (http_calls evs).
Proof.
  destruct (run_delegating_shape self c) as (url & method & payload & ->).
  destruct (delegating_trace self url method payload h) as (evs & Hs & Hall).
  exists evs. split; [exact Hs|].
  eapply Forall_impl; [exact Hall|]. intros call [authorization ->]. split; reflexivity.
Qed.

(** X9. Those methods run the authenticator twice for one request: before
    the transport is called the certificate has been loaded and the path
    signed two times over.  When the header step raises, the run stops after
    the first. *)
Theorem accept_header_costs_a_second_signature (self : System.t) (c : delegating_call) :
  exists url, forall h,
    let once := auth_events (System.auth self) url in
    match fst (WorkspaceOneAuth.get_cmsurl_header (System.auth self) url h) with
    | Ok _ => exists call, snd (run_delegating self c h) = h ++ once ++ once ++ [EvHttp call]
    | Raise _ => snd (run_delegating self c h) = h ++ once
    end.
Proof.
  destruct (run_delegating_run self c) as (url & method & payload & Hrun).
  exists url. intros h once. rewrite Hrun, get_cmsurl_header_events. cbn [fst].
  destruct (fst (WorkspaceOneAuth.get_cmsurl_header _ url [])) eqn:Hfst; [|reflexivity].
  rewrite System_send_request_run, System_get_headers_run, get_cmsurl_header_events.
  rewrite Hfst. cbn [snd]. eexists. rewrite <- !app_assoc. reflexivity.
Qed.

(** The four methods that talk to the session themselves. *)
Lemma session_exchange_run (self : System.t) verb url headers json_data h :
  System_methods.session_exchange self verb url headers json_data h
  = (transport_outcome (System_call self verb url headers json_data)
       (failed_with_status url),
     h ++ [EvHttp (System_call self verb url headers json_data)]).
Proof.
  apply (exchange_run (System_call self verb url headers json_data)
                      (failed_with_status url)).
  intros []; reflexivity.
Qed.

Lemma run_inline_shape (self : System.t) (c : inline_call) :
  exists url verb payload,
    run_inline self c
    = bind (System._get_headers self url)
           (fun headers =>
              System_methods.session_exchange self verb url
                (dict_set "Accept" System_methods.accept_v1 headers) payload).
Proof. destruct c; do 3 eexists; reflexivity. Qed.

(** X10. [get_device_wipe_lock_state], [reset_device_wipe_lock],
    [get_enrollment_customization_settings] and
    [create_custom_attributes_for_registered_device] do send their [Accept]
    header: the call they make carries the three standard headers followed by
    [Accept: application/json;version=1], after a single run of the
    authenticator. *)
Theorem inline_methods_send_accept (self : System.t) (c : inline_call) h :
  exists url evs,
    snd (run_inline self c h) = h ++ auth_events (System.auth self) url ++ evs /\
    (evs = [] \/
     exists call, evs = [EvHttp call] /\
       map fst (call_headers call) = standard_keys ++ ["Accept"] /\
       dict_get "Accept" (call_headers call) = Some (PyStr "application/json;version=1") /\
       call_url call = url /\ call_timeout call = 90).
Proof.
  destruct (run_inline_shape self c) as (url & verb & payload & ->).
  exists url. unfold bind at 1.
  rewrite System_get_headers_run, get_cmsurl_header_events.
  destruct (fst (WorkspaceOneAuth.get_cmsurl_header _ url [])).
  - rewrite session_exchange_run. cbn [snd]. rewrite <- app_assoc.
    eexists; split; [reflexivity|]. right. eexists; split; [reflexivity|].
    repeat split; reflexivity.
  - exists []. rewrite app_nil_r. split; [reflexivity|]. left. reflexivity.
Qed.

Lemma drop_None_spec (d : list (str * Json)) :
  Forall (fun kv => snd kv <> JNull) (drop_None d) /\
  (forall k v, v <> JNull -> In (k, v) d -> In (k, v) (drop_None d)) /\
  sublist (drop_None d) d.
Proof.
  unfold drop_None. split; [|split].
  - apply Forall_forall. intros [k v] Hin%list_elem_of_In.
    apply filter_In in Hin as [_ Hv]. cbn [snd] in *. intros ->. discriminate Hv.
  - intros k v Hv Hin. apply filter_In. split; [exact Hin|].
    cbn [snd]. destruct v; [contradiction|reflexivity..].
  - induction d as [|[k v] d IH]; simpl; [constructor|].
    destruct (is_not_None v); [apply sublist_skip | apply sublist_cons]; exact IH.
Qed.

(** X11. The body of [create_device_wipe_report] holds no null: of the ten
    optional filters exactly those that were given appear, in the order of
    the parameters, and with no filter given the body is the empty object. *)
Theorem wipe_report_body_has_no_null (self : System.t) (organization_group_uuid : str)
    (search_text start_date end_date wipe_type wipe_status wipe_source : option str)
    (ownership : option (list str))
    (sort_column sort_direction export_format : option str) h :
  let fields := [
    ("search_text", json_opt_str search_text); ("start_date", json_opt_str start_date);
    ("end_date", json_opt_str end_date); ("wipe_type", json_opt_str wipe_type);
    ("wipe_status", json_opt_str wipe_status); ("wipe_source", json_opt_str wipe_source);
    ("ownership", json_opt_strs ownership); ("sort_column", json_opt_str sort_column);
    ("sort_direction", json_opt_str sort_direction);
    ("export_format", json_opt_str export_format)] in
  exists evs body,
    snd (System_methods.create_device_wipe_report self organization_group_uuid
           search_text start_date end_date wipe_type wipe_status wipe_source
           ownership sort_column sort_direction export_format h) = h ++ evs /\
    Forall (fun call => call_method call = "POST" /\ call_json call = Some (JDict body))
           (http_calls evs) /\
    Forall (fun kv => snd kv <> JNull) body /\
    (forall k v, v <> JNull -> In (k, v) fields -> In (k, v) body) /\
    sublist body fields /\
    (Forall (fun kv => snd kv = JNull) fields -> body = []).
Proof.
  intros fields. unfold System_methods.create_device_wipe_report.
  match goal with |- context [System._send_request self ?m ?u ?d] =>
    destruct (delegating_trace self u m d h) as (evs & Hs & Hall) end.
  exists evs, (drop_None fields).
  destruct (drop_None_spec fields) as (Hnn & Hin & Hsub).
  split; [exact Hs|].
  split.
  { eapply Forall_impl; [exact Hall|]. intros call [authorization ->].
    split; reflexivity. }
  split; [exact Hnn|]. split; [exact Hin|]. split; [exact Hsub|].
  intros Hnull. unfold drop_None. clear -Hnull.
  induction fields as [|[k v] l IH]; [reflexivity|].
  inversion Hnull as [|? ? Hv Hl]; subst. cbn [snd] in Hv. subst v. cbn. auto.
Qed.

(** X12. The definition of [create_event_notification_rule] that the class
    keeps takes the organization group id and UUID before the device events,
    the one it replaced took them after.  Arguments passed by position in the
    order of the replaced definition are therefore sent under the wrong
    names: the device events as [organizationGroupId], the group id as
    [organizationGroupUuid] and the group UUID as [DeviceEvents]. *)
Theorem legacy_argument_order_is_misread (self : System.t)
    (target_name target_url username password format_id is_active
     device_events organization_group_id organization_group_uuid id_value uuid : Json) h :
  exists evs,
    snd (System.create_event_notification_rule self
           [target_name; target_url; username; password; format_id; is_active;
            device_events; organization_group_id; organization_group_uuid;
            id_value; uuid] h) = h ++ evs /\
    Forall (fun call =>
              call_json call = Some (JDict [
                ("TargetName", target_name); ("TargetUrl", target_url);
                ("Username", username); ("Password", password);
                ("Format", format_id); ("IsActive", is_active);
                ("DeviceEvents", organization_group_uuid);
                ("organizationGroupId", device_events);
                ("organizationGroupUuid", organization_group_id);
                ("id", id_value); ("uuid", uuid)]))
           (http_calls evs).
Proof.
  match goal with |- context [System.create_event_notification_rule self ?args h] =>
    assert (Heq : System.create_event_notification_rule self args h
                  = System.create_event_notification_rule_1468 self args h)
      by (unfold System.create_event_notification_rule;
          rewrite namespace_create_event_notification_rule; reflexivity)
  end.
  rewrite Heq. clear Heq. unfold System.create_event_notification_rule_1468.
  match goal with |- context [System._send_request self ?m ?u ?d h] =>
    destruct (System_send_request_trace self m u d h) as (evs & -> & Hall) end.
  exists evs. split; [reflexivity|].
  eapply Forall_impl; [exact Hall|]. intros call [authorization ->]. reflexivity.
Qed.

End SystemMore.

(* ===================================================================== *)
(** * The resource methods of [MDM] and [MAM] *)
(* ===================================================================== *)

Section ResourceMethods.
Context `{Platform}.

Lemma sapp_assoc (a b c : str) : (a +:+ b) +:+ c = a +:+ b +:+ c.
Proof.
  induction a as [|d a IH]; [reflexivity|].
  change (String d ((a +:+ b) +:+ c) = String d (a +:+ b +:+ c)). f_equal. exact IH.
Qed.

Lemma contains_sapp c (a b : str) :
  UrlParse.contains c a = false -> UrlParse.contains c b = false ->
  UrlParse.contains c (a +:+ b) = false.
Proof.
  rewrite !UrlParseFacts.contains_false, UrlParseFacts.find_app.
  intros -> ->. reflexivity.
Qed.

Lemma MDM_api_url_run (self : MDM.t) h :
  MDM_methods.api_url self h
  = (match MDM.aw_environment self !! "api_url" with
     | Some v => Ok (format_value v)
     | None => Raise (AttributeError "object has no attribute 'api_url'")
     end, h).
Proof.
  unfold MDM_methods.api_url, bind, lift, ret, getattr.
  destruct (MDM.aw_environment self !! "api_url"); reflexivity.
Qed.

(** One run of [MDM._send_request]: the authenticator, then at most one
    call, built from the arguments. *)
Lemma MDM_send_request_trace (self : MDM.t) method url data h :
  exists evs,
    snd (MDM._send_request self method url data h)
      = h ++ auth_events (MDM.auth self) url ++ evs /\
    (evs = [] \/
     exists headers, evs = [EvHttp (MDM_call method url headers data)]).
Proof.
  rewrite MDM_send_request_run, MDM_get_headers_run, get_cmsurl_header_events.
  destruct (fst (WorkspaceOneAuth.get_cmsurl_header _ url [])) as [a|e].
  - destruct (MDM.aw_environment self !! "tenant_code") as [t|]; cbn [snd].
    + rewrite <- app_assoc. eexists; split; [reflexivity|]. right. eauto.
    + exists []. rewrite app_nil_r. auto.
  - exists []. rewrite app_nil_r. auto.
Qed.

Lemma run_MDM_op_shape (self : MDM.t) (op : MDM_op) :
  exists method rest data,
    run_MDM_op self op
    = bind (MDM_methods.api_url self)
           (fun base => MDM._send_request self method (base +:+ "/mdm/" +:+ rest) data).
Proof. destruct op; do 3 eexists; reflexivity. Qed.

(** X13. Every resource method of [MDM] reads [api_url] from the environment
    at the time of the call.  Without that attribute it raises
    [AttributeError] before anything is loaded or sent.  With it, the method
    runs the authenticator once and makes at most one call, to a URL under
    [<api_url>/mdm/], outside any session and with a timeout of 90 seconds. *)
Theorem MDM_methods_make_one_request (self : MDM.t) (op : MDM_op) h :
  match MDM.aw_environment self !! "api_url" with
  | None =>
      run_MDM_op self op h
      = (Raise (AttributeError "object has no attribute 'api_url'"), h)
  | Some v =>
      exists rest evs,
        let url := format_value v +:+ "/mdm/" +:+ rest in
        snd (run_MDM_op self op h) = h ++ auth_events (MDM.auth self) url ++ evs /\
        (evs = [] \/
         exists call, evs = [EvHttp call] /\ call_url call = url /\
                      call_session call = None /\ call_files call = None /\
                      call_timeout call = 90)
  end.
Proof.
  destruct (run_MDM_op_shape self op) as (method & rest & data & ->).
  destruct (MDM.aw_environment self !! "api_url") as [v|] eqn:Hv;
    unfold bind at 1; rewrite MDM_api_url_run, Hv; [|reflexivity].
  destruct (MDM_send_request_trace self method (format_value v +:+ "/mdm/" +:+ rest) data h)
    as (evs & Hs & Hevs).
  exists rest, evs. split; [exact Hs|].
  destruct Hevs as [->|[headers ->]]; [left; reflexivity|].
  right. eexists; split; [reflexivity|]. repeat split; reflexivity.
Qed.

Lemma sign_calls_app (h1 h2 : list Event) :
  sign_calls (h1 ++ h2) = sign_calls h1 ++ sign_calls h2.
Proof. apply omap_app. Qed.

Lemma load_events_sign_nothing (a : WorkspaceOneAuth.t) : sign_calls (load_events a) = [].
Proof.
  unfold load_events, p12_source.
  destruct (default false _); destruct (WorkspaceOneAuth.cert_bytes a);
    try destruct (read_file _); reflexivity.
Qed.

(** Two requests whose URLs [urlparse] gives the same path, or refuses both,
    ask for the same signature and carry the same headers. *)
Lemma MDM_same_path (self : MDM.t) method1 method2 url1 url2 data1 data2 h :
  match urlparse url1, urlparse url2 with
  | Ok r1, Ok r2 => UrlParse.path r1 = UrlParse.path r2
  | Raise _, Raise _ => True
  | _, _ => False
  end ->
  sign_calls (snd (MDM._send_request self method1 url1 data1 h))
    = sign_calls (snd (MDM._send_request self method2 url2 data2 h)) /\
  map call_headers (http_calls (snd (MDM._send_request self method1 url1 data1 h)))
    = map call_headers (http_calls (snd (MDM._send_request self method2 url2 data2 h))).
Proof.
  intros Hpath.
  rewrite !MDM_send_request_run, !MDM_get_headers_run, !get_cmsurl_header_run.
  destruct (load_events_quiet (MDM.auth self)) as [Hq _].
  pose proof (load_events_sign_nothing (MDM.auth self)) as Hs.
  destruct (p12_source (MDM.auth self)) as [d|e].
  2: { destruct (MDM.aw_environment self !! "tenant_code"); cbn [snd];
         rewrite ?sign_calls_app, ?http_calls_app, ?map_app, ?Hs, ?Hq; split; reflexivity. }
  destruct (load_key_and_certificates _ _) as [[[k|] [c|]]|e];
    try (destruct (MDM.aw_environment self !! "tenant_code"); cbn [snd];
         rewrite ?sign_calls_app, ?http_calls_app, ?map_app, ?Hs, ?Hq; split; reflexivity).
  destruct (urlparse url1) as [r1|e1], (urlparse url2) as [r2|e2]; try contradiction.
  - rewrite Hpath. cbv zeta.
    destruct (MDM.aw_environment self !! "tenant_code"); cbn [snd];
      rewrite ?sign_calls_app, ?http_calls_app, ?map_app, ?Hs, ?Hq; split; reflexivity.
  - cbn [snd]. split; reflexivity.
Qed.

(** What [MDM._send_request] has signed is the path that [urlparse] gave. *)
Lemma MDM_signs_the_path (self : MDM.t) method url data h :
  exists evs,
    snd (MDM._send_request self method url data h) = h ++ evs /\
    Forall (fun signed => exists r, urlparse url = Ok r /\
                                    signed = Some (encode_utf8 (UrlParse.path r)))
           (signed_data evs).
Proof.
  rewrite MDM_send_request_run, MDM_get_headers_run, get_cmsurl_header_run.
  destruct (load_events_quiet (MDM.auth self)) as [_ Hq].
  destruct (p12_source (MDM.auth self)) as [d|e].
  2: { destruct (MDM.aw_environment self !! "tenant_code"); cbn [snd];
         rewrite <- ?app_assoc; eexists; (split; [reflexivity|]);
         rewrite ?signed_data_app, Hq; constructor. }
  destruct (load_key_and_certificates _ _) as [[[k|] [c|]]|e];
    try (destruct (MDM.aw_environment self !! "tenant_code"); cbn [snd];
         rewrite <- ?app_assoc; eexists; (split; [reflexivity|]);
         rewrite ?signed_data_app, Hq; constructor).
  destruct (urlparse url) as [r|e].
  - cbv zeta.
    destruct (MDM.aw_environment self !! "tenant_code"); cbn [snd];
      rewrite <- ?app_assoc; eexists; (split; [reflexivity|]);
      rewrite ?signed_data_app, Hq; repeat constructor; eauto.
  - cbn [snd]. eexists; split; [reflexivity|]. rewrite Hq. constructor.
Qed.

(** From the model of [urlparse] to the platform: two query strings on a
    URL without [?] and [#] give the path of that URL, or are refused both. *)
Lemma queries_share_the_path chk1 chk2 (p q1 q2 : str) :
  UrlParse.contains "?" p = false -> UrlParse.contains "#" p = false ->
  parses_path_as_modelled chk1 chk2 (p +:+ String "?" q1) ->
  parses_path_as_modelled chk1 chk2 (p +:+ String "?" q2) ->
  match urlparse (p +:+ String "?" q1), urlparse (p +:+ String "?" q2) with
  | Ok r1, Ok r2 => UrlParse.path r1 = UrlParse.path r2
  | Raise _, Raise _ => True
  | _, _ => False
  end /\
  forall r1, urlparse (p +:+ String "?" q1) = Ok r1 ->
             exists r, UrlParse.urlparse chk1 chk2 p = Ok r /\
                       UrlParse.path r1 = UrlParse.path r.
Proof.
  intros Hq%UrlParseFacts.contains_false Hh%UrlParseFacts.contains_false.
  unfold parses_path_as_modelled.
  pose proof (UrlParseFacts.urlparse_path_ignores_query chk1 chk2 p q1 Hq Hh) as H1.
  pose proof (UrlParseFacts.urlparse_path_ignores_query chk1 chk2 p q2 Hq Hh) as H2.
  destruct (UrlParse.urlparse chk1 chk2 (p +:+ String "?" q1)) as [m1|e1];
    destruct (UrlParse.urlparse chk1 chk2 (p +:+ String "?" q2)) as [m2|e2];
    destruct (UrlParse.urlparse chk1 chk2 p) as [m|e];
    cbn [obind] in H1, H2; try discriminate.
  - injection H1 as H1. injection H2 as H2.
    intros (r1 & -> & E1) (r2 & -> & E2). split; [congruence|].
    intros r [= <-]. exists m. split; [reflexivity|congruence].
  - intros (x1 & ->) (x2 & ->). split; [exact I|]. discriminate.
Qed.

(** X14. The signature does not tell a wipe from a passcode reset.  Let
    neither the base URL nor the device id hold [?] or [#], and let
    [urlparse] give for the two URLs the path that the model of CPython's
    gives (or raise where it raises).  Then [clear_device_passcode] and
    [command_device_wipe] for that device ask for the same signature: same
    key, certificate, data, encoding and options.  What is signed is the
    path [<api_url path>/mdm/devices/<id>/commands], without the command.
    The signing call answering the same for the same request, as it does
    here, the headers sent are the same, [Authorization] included. *)
Theorem device_commands_share_a_signature chk1 chk2 (self : MDM.t) v (device_id : str) h :
  let p := format_value v +:+ "/mdm/devices/" +:+ device_id +:+ "/commands" in
  MDM.aw_environment self !! "api_url" = Some v ->
  UrlParse.contains "?" (format_value v) = false ->
  UrlParse.contains "#" (format_value v) = false ->
  UrlParse.contains "?" device_id = false ->
  UrlParse.contains "#" device_id = false ->
  parses_path_as_modelled chk1 chk2 (p +:+ "?command=ClearPasscode") ->
  parses_path_as_modelled chk1 chk2 (p +:+ "?command=DeviceWipe") ->
  let run1 := MDM_methods.clear_device_passcode self device_id h in
  let run2 := MDM_methods.command_device_wipe self device_id h in
  sign_calls (snd run1) = sign_calls (snd run2) /\
  map call_headers (http_calls (snd run1)) = map call_headers (http_calls (snd run2)) /\
  exists evs,
    snd run1 = h ++ evs /\
    Forall (fun signed => exists r, UrlParse.urlparse chk1 chk2 p = Ok r /\
                                    signed = Some (encode_utf8 (UrlParse.path r)))
           (signed_data evs).
Proof.
  intros p Hv Hq Hh Hdq Hdh Hm1 Hm2 run1 run2. subst run1 run2.
  unfold MDM_methods.clear_device_passcode, MDM_methods.command_device_wipe, bind at 1 2 3 4 5.
  rewrite !MDM_api_url_run, Hv.
  assert (E1 : format_value v +:+ "/mdm/devices/" +:+ device_id
               +:+ "/commands?command=ClearPasscode"
               = p +:+ String "?" "command=ClearPasscode")
    by (unfold p; rewrite !sapp_assoc; reflexivity).
  assert (E2 : format_value v +:+ "/mdm/devices/" +:+ device_id
               +:+ "/commands?command=DeviceWipe"
               = p +:+ String "?" "command=DeviceWipe")
    by (unfold p; rewrite !sapp_assoc; reflexivity).
  rewrite E1, E2.
  assert (Hpq : UrlParse.contains "?" p = false)
    by (unfold p; repeat apply contains_sapp; try assumption; reflexivity).
  assert (Hph : UrlParse.contains "#" p = false)
    by (unfold p; repeat apply contains_sapp; try assumption; reflexivity).
  destruct (queries_share_the_path chk1 chk2 p _ _ Hpq Hph Hm1 Hm2) as [Hsame Hmodel].
  destruct (MDM_same_path self "POST" "POST" _ _ None None h Hsame) as [Hsign Hheaders].
  split; [exact Hsign|]. split; [exact Hheaders|].
  destruct (MDM_signs_the_path self "POST" (p +:+ String "?" "command=ClearPasscode") None h)
    as (evs & Hs & Hall).
  exists evs. split; [exact Hs|].
  eapply Forall_impl; [exact Hall|]. intros signed (r1 & Hr1 & ->).
  destruct (Hmodel r1 Hr1) as (r & Hr & Hpath). exists r. rewrite Hpath. auto.
Qed.

(** X15. What a search or a report asks for is not signed.  Let the base
    URL hold neither [?] nor [#].  Any two calls of
    [extensive_search_device_details] for whose URLs [urlparse] gives the
    path that the model of CPython's gives ask for the same signature,
    whatever the identifier and the search type; so do any two such calls of
    [get_device_health_check], whatever the organization group, the page and
    the page size.  The signing call answering the same for the same
    request, as it does here, the headers sent are the same. *)
Theorem search_parameters_are_not_signed chk1 chk2 (self : MDM.t) v h :
  MDM.aw_environment self !! "api_url" = Some v ->
  UrlParse.contains "?" (format_value v) = false ->
  UrlParse.contains "#" (format_value v) = false ->
  (forall identifier1 type1 identifier2 type2,
     let url identifier search_type :=
       format_value v +:+ "/mdm/devices/extensivesearch?" +:+ search_type +:+ "="
       +:+ format_str_or_int identifier in
     parses_path_as_modelled chk1 chk2 (url identifier1 type1) ->
     parses_path_as_modelled chk1 chk2 (url identifier2 type2) ->
     let run1 := MDM_methods.extensive_search_device_details self identifier1 type1 h in
     let run2 := MDM_methods.extensive_search_device_details self identifier2 type2 h in
     sign_calls (snd run1) = sign_calls (snd run2) /\
     map call_headers (http_calls (snd run1)) = map call_headers (http_calls (snd run2))) /\
  (forall group1 size1 page1 group2 size2 page2,
     parses_path_as_modelled chk1 chk2 (page_url (format_value v) group1 size1 page1) ->
     parses_path_as_modelled chk1 chk2 (page_url (format_value v) group2 size2 page2) ->
     let run1 := MDM_methods.get_device_health_check self group1 size1 page1 h in
     let run2 := MDM_methods.get_device_health_check self group2 size2 page2 h in
     sign_calls (snd run1) = sign_calls (snd run2) /\
     map call_headers (http_calls (snd run1)) = map call_headers (http_calls (snd run2))).
Proof.
  intros Hv Hq Hh. split.
  - intros i1 t1 i2 t2 url Hm1 Hm2 run1 run2. subst run1 run2.
    unfold MDM_methods.extensive_search_device_details, bind at 1 2 3 4.
    rewrite !MDM_api_url_run, Hv.
    set (p := format_value v +:+ "/mdm/devices/extensivesearch").
    assert (Hp : forall q, format_value v +:+ "/mdm/devices/extensivesearch?" +:+ q
                           = p +:+ String "?" q).
    { intros q. unfold p. rewrite !sapp_assoc. reflexivity. }
    unfold url in Hm1, Hm2. rewrite !Hp in *.
    apply MDM_same_path.
    apply (queries_share_the_path chk1 chk2 p); try assumption;
      unfold p; repeat apply contains_sapp; try assumption; reflexivity.
  - intros g1 s1 p1 g2 s2 p2 Hm1 Hm2 run1 run2. subst run1 run2.
    unfold MDM_methods.get_device_health_check, bind at 1 2 3 4.
    rewrite !MDM_api_url_run, Hv.
    set (p := format_value v +:+ "/mdm/products/devicehealthcheck").
    assert (Hp : forall q, format_value v
                           +:+ "/mdm/products/devicehealthcheck?organizationgroupid=" +:+ q
                           = p +:+ String "?" ("organizationgroupid=" +:+ q)).
    { intros q. unfold p. rewrite !sapp_assoc. reflexivity. }
    unfold page_url in Hm1, Hm2. rewrite !Hp in *.
    apply MDM_same_path.
    apply (queries_share_the_path chk1 chk2 p); try assumption;
      unfold p; repeat apply contains_sapp; try assumption; reflexivity.
Qed.

(** X16. [upload_blob] opens the file before anything else.  When it cannot
    be opened, the exception of [open] leaves as it is and nothing is loaded
    or sent.  Otherwise the [with] block has ended by the time of the
    request: the authenticator runs and the file object handed to the
    transport is already closed. *)
Theorem upload_blob_hands_over_a_closed_file (open_rb : str -> Outcome unit)
    (self : MAM.t) (filename apk_file_path og_id : str) h :
  let url := format_value (MAM.api_url self) +:+ "/mam/blobs/uploadblob?filename="
             +:+ filename +:+ "&organizationgroupid=" +:+ og_id
             +:+ "&moduleType=Application" in
  match open_rb apk_file_path with
  | Raise e =>
      MAM_methods.upload_blob open_rb self filename apk_file_path og_id h
      = (Raise e, h ++ [EvOpen apk_file_path])
  | Ok _ =>
      exists evs,
        snd (MAM_methods.upload_blob open_rb self filename apk_file_path og_id h)
          = h ++ EvOpen apk_file_path :: auth_events (MAM.auth self) url ++ evs /\
        (evs = [] \/
         exists call, evs = [EvHttp call] /\
           call_method call = "POST" /\ call_url call = url /\ call_json call = None /\
           call_files call
             = Some [("file", {| file_path := apk_file_path; file_closed := true |})])
  end.
Proof.
  intros url. unfold MAM_methods.upload_blob, bind at 1 2, emit, lift.
  destruct (open_rb apk_file_path) as [[]|e]; [|reflexivity].
  fold url. rewrite MAM_send_request_run, MAM_get_headers_run, get_cmsurl_header_events.
  destruct (fst (WorkspaceOneAuth.get_cmsurl_header _ url [])) as [a|e]; cbn [snd].
  - rewrite <- !app_assoc. eexists; split; [reflexivity|]. right.
    eexists; split; [reflexivity|]. repeat split; reflexivity.
  - exists []. rewrite app_nil_r, <- app_assoc. split; [reflexivity|]. left. reflexivity.
Qed.

End ResourceMethods.

(* ===================================================================== *)
(** * The examples *)
(* ===================================================================== *)

Section Examples.
Context `{Platform}.

(** [try: m  except Exception as e: return f(e)] never raises. *)
Lemma try_except_all {A} (m : M A) (f : exn -> A) h :
  try_except m (fun e => Some (ret (f e))) h
  = (Ok (match fst (m h) with Ok a => a | Raise e => f e end), snd (m h)).
Proof. unfold try_except, ret. destruct (m h) as [[a|e] h1]; reflexivity. Qed.

Lemma auth_events_no_http a url : http_calls (auth_events a url) = [].
Proof.
  destruct (get_cmsurl_header_no_http a url []) as (evs & Hs & Hq).
  unfold auth_events. rewrite Hs. exact Hq.
Qed.

(** A run of [MDM._send_request] that returns has made its call; one that
    raises has made at most that call. *)
Lemma MDM_send_request_cases (self : MDM.t) method url data h :
  exists evs,
    snd (MDM._send_request self method url data h) = h ++ evs /\
    ((exists e, fst (MDM._send_request self method url data h) = Raise e /\
                http_calls evs = []) \/
     exists headers, http_calls evs = [MDM_call method url headers data]).
Proof.
  rewrite MDM_send_request_run, MDM_get_headers_run, get_cmsurl_header_events.
  pose proof (auth_events_no_http (MDM.auth self) url) as Hq.
  destruct (fst (WorkspaceOneAuth.get_cmsurl_header _ url [])) as [a|e].
  - destruct (MDM.aw_environment self !! "tenant_code") as [t|]; cbn [fst snd].
    + rewrite <- app_assoc. eexists; split; [reflexivity|]. right.
      rewrite http_calls_app, Hq. eexists. reflexivity.
    + eexists; split; [reflexivity|]. left. eauto.
  - cbn [fst snd]. eexists; split; [reflexivity|]. left. eauto.
Qed.

Lemma extensive_search_run (self : MDM.t) identifier search_type h :
  MDM_methods.extensive_search_device_details self identifier search_type h
  = match MDM.aw_environment self !! "api_url" with
    | Some v =>
        MDM._send_request self "GET"
          (format_value v +:+ "/mdm/devices/extensivesearch?" +:+ search_type +:+ "="
           +:+ format_str_or_int identifier) None h
    | None => (Raise (AttributeError "object has no attribute 'api_url'"), h)
    end.
Proof.
  unfold MDM_methods.extensive_search_device_details, bind at 1.
  rewrite MDM_api_url_run. destruct (MDM.aw_environment self !! "api_url"); reflexivity.
Qed.

Lemma get_device_health_check_run (self : MDM.t) organization_group_id page_size page h :
  MDM_methods.get_device_health_check self organization_group_id page_size page h
  = match MDM.aw_environment self !! "api_url" with
    | Some v =>
        MDM._send_request self "GET"
          (page_url (format_value v) organization_group_id page_size page) None h
    | None => (Raise (AttributeError "object has no attribute 'api_url'"), h)
    end.
Proof.
  unfold MDM_methods.get_device_health_check, bind at 1.
  rewrite MDM_api_url_run. destruct (MDM.aw_environment self !! "api_url"); reflexivity.
Qed.

(** What a lookup adds to the trace: at most one call, a GET of the search
    URL. *)
Lemma extensive_search_trace (self : MDM.t) identifier search_type h :
  exists evs,
    snd (MDM_methods.extensive_search_device_details self identifier search_type h)
      = h ++ evs /\
    (length (http_calls evs) <= 1)%nat /\
    Forall (fun call =>
              call_method call = "GET" /\
              forall v, MDM.aw_environment self !! "api_url" = Some v ->
                call_url call
                = format_value v +:+ "/mdm/devices/extensivesearch?" +:+ search_type
                  +:+ "=" +:+ format_str_or_int identifier)
           (http_calls evs).
Proof.
  rewrite extensive_search_run.
  destruct (MDM.aw_environment self !! "api_url") as [v|].
  - match goal with |- context [MDM._send_request self ?m ?u ?d h] =>
      destruct (MDM_send_request_cases self m u d h) as (evs & Hs & Hc) end.
    exists evs. split; [exact Hs|].
    destruct Hc as [(e & _ & ->)|[headers ->]]; cbn [length].
    + split; [lia|constructor].
    + split; [lia|]. repeat constructor. intros v' [= <-]. reflexivity.
  - exists []. cbn [snd]. rewrite app_nil_r. split; [reflexivity|].
    split; [cbn; lia | constructor].
Qed.

(** X17. A device lookup never raises: it returns a value, and on the way it
    makes at most one call, a GET.  When no call was made, the value is a
    mapping with the single key [error]. *)
Theorem device_lookup_never_raises (self : DeviceExtensiveSearch.t)
    (device_serial_number : option str) (device_id : option Z) h :
  exists j evs,
    DeviceExtensiveSearch.get_device_extensive_search self device_serial_number device_id h
      = (Ok j, h ++ evs) /\
    (length (http_calls evs) <= 1)%nat /\
    Forall (fun call => call_method call = "GET") (http_calls evs) /\
    (http_calls evs = [] -> exists msg, j = JDict [("error", JStr msg)]).
Proof.
  unfold DeviceExtensiveSearch.get_device_extensive_search.
  rewrite try_except_all.
  destruct (opt_str_falsy device_serial_number) eqn:Hs;
    [destruct (opt_int_falsy device_id) eqn:Hi|]; cbn [andb negb].
  - do 2 eexists. cbn [fst snd ret]. rewrite app_nil_r. split; [reflexivity|].
    split; [cbn; lia|]. split; [constructor|]. intros _. eexists. reflexivity.
  - rewrite extensive_search_run.
    destruct (MDM.aw_environment (DeviceExtensiveSearch.mdm self) !! "api_url") as [v|].
    + match goal with |- context [MDM._send_request ?s ?m ?u ?d h] =>
        destruct (MDM_send_request_cases s m u d h) as (evs & Hev & Hc) end.
      rewrite Hev. do 2 eexists. split; [reflexivity|].
      destruct Hc as [(e & -> & ->)|[headers ->]].
      * split; [cbn; lia|]. split; [constructor|]. intros _. eexists. reflexivity.
      * split; [cbn; lia|]. split; [repeat constructor|]. discriminate.
    + cbn [fst snd]. exists (JDict [("error", JStr "object has no attribute 'api_url'")]), [].
      rewrite app_nil_r. split; [reflexivity|].
      split; [cbn; lia|]. split; [constructor|]. intros _. eexists. reflexivity.
  - rewrite extensive_search_run.
    destruct (MDM.aw_environment (DeviceExtensiveSearch.mdm self) !! "api_url") as [v|].
    + match goal with |- context [MDM._send_request ?s ?m ?u ?d h] =>
        destruct (MDM_send_request_cases s m u d h) as (evs & Hev & Hc) end.
      rewrite Hev. do 2 eexists. split; [reflexivity|].
      destruct Hc as [(e & -> & ->)|[headers ->]].
      * split; [cbn; lia|]. split; [constructor|]. intros _. eexists. reflexivity.
      * split; [cbn; lia|]. split; [repeat constructor|]. discriminate.
    + cbn [fst snd]. exists (JDict [("error", JStr "object has no attribute 'api_url'")]), [].
      rewrite app_nil_r. split; [reflexivity|].
      split; [cbn; lia|]. split; [constructor|]. intros _. eexists. reflexivity.
Qed.

(** X18. Which parameter a lookup uses.  With no serial number or an empty
    one, and no device id or the id 0, nothing is asked of the platform and
    the answer is the "no valid parameters" mapping.  A non-empty serial
    number wins: the device id is ignored and the search is by
    [serialNumber].  Only without a serial number is a non-zero id used, as
    [deviceId] and in decimal. *)
Theorem device_lookup_parameters (self : DeviceExtensiveSearch.t) h :
  let lookup := DeviceExtensiveSearch.get_device_extensive_search self in
  let search_url v by_what value :=
    format_value v +:+ "/mdm/devices/extensivesearch?" +:+ by_what +:+ "=" +:+ value in
  let calls_go_to (run : Outcome Json * list Event) by_what value :=
    exists evs, snd run = h ++ evs /\
      Forall (fun call =>
                forall v, MDM.aw_environment (DeviceExtensiveSearch.mdm self) !! "api_url"
                          = Some v ->
                          call_url call = search_url v by_what value)
             (http_calls evs) in
  (forall device_serial_number device_id,
     device_serial_number = None \/ device_serial_number = Some "" ->
     device_id = None \/ device_id = Some 0 ->
     lookup device_serial_number device_id h
     = (Ok DeviceExtensiveSearch.no_parameters, h)) /\
  (forall serial device_id,
     serial <> "" ->
     lookup (Some serial) device_id h = lookup (Some serial) None h /\
     calls_go_to (lookup (Some serial) device_id h) "serialNumber" serial) /\
  (forall device_serial_number n,
     device_serial_number = None \/ device_serial_number = Some "" ->
     n <> 0 ->
     calls_go_to (lookup device_serial_number (Some n) h) "deviceId" (pretty n)).
Proof.
  intros lookup search_url calls_go_to. unfold lookup, calls_go_to, search_url.
  split; [|split].
  - intros sn id [->| ->] [->| ->]; reflexivity.
  - intros serial id Hne.
    assert (Hf : opt_str_falsy (Some serial) = false)
      by (destruct serial; [contradiction|reflexivity]).
    unfold DeviceExtensiveSearch.get_device_extensive_search.
    rewrite !try_except_all, Hf. cbn [andb negb option.default default].
    split; [reflexivity|]. cbn [snd].
    destruct (extensive_search_trace (DeviceExtensiveSearch.mdm self)
                (AStr serial) "serialNumber" h) as (evs & Hs & _ & Hall).
    exists evs. split; [exact Hs|].
    eapply Forall_impl; [exact Hall|]. intros call [_ Hu]. exact Hu.
  - intros sn n Hsn Hn.
    assert (Hf : opt_str_falsy sn = true) by (destruct Hsn as [->| ->]; reflexivity).
    assert (Hi : opt_int_falsy (Some n) = false) by (cbn; lia).
    unfold DeviceExtensiveSearch.get_device_extensive_search.
    rewrite !try_except_all, Hf, Hi. cbn [andb negb option.default default snd].
    destruct (extensive_search_trace (DeviceExtensiveSearch.mdm self)
                (AnInt n) "deviceId" h) as (evs & Hs & _ & Hall).
    exists evs. split; [exact Hs|].
    eapply Forall_impl; [exact Hall|]. intros call [_ Hu]. exact Hu.
Qed.

(** ** The paged report *)

Lemma pages_from_S first count :
  pages_from first (S count) = first :: pages_from (first + 1) count.
Proof.
  unfold pages_from. cbn [seq map]. f_equal; [lia|].
  rewrite <- seq_shift, map_map. apply map_ext. intros i. lia.
Qed.

Lemma turns_left_increment (tracker : DeviceHealthReportTracker.t) :
  DeviceHealthReportTracker.make_next_call tracker = true ->
  turns_left tracker
  = S (turns_left (DeviceHealthReportTracker.increment_page tracker)).
Proof.
  intros Hm. unfold turns_left, DeviceHealthReportTracker.increment_page. rewrite Hm.
  destruct (Z.ltb_spec (DeviceHealthReportTracker.page_counter tracker)
                       (DeviceHealthReportTracker.max_amount_of_pages tracker)); cbn.
  - f_equal. lia.
  - f_equal. lia.
Qed.

(** One turn of the loop: the page at the counter is asked for; the turn
    either appends and moves the tracker on, or keeps the exception. *)
Lemma fetch_page_cases (self : DeviceHealthReport.t) org_id
    (tracker : DeviceHealthReportTracker.t) (all_device_data : list DeviceHealthReport.item) h :
  exists turn evs,
    DeviceHealthReport.fetch_page self org_id tracker all_device_data h
      = (Ok turn, h ++ evs) /\
    ((exists more,
        turn = inl (all_device_data ++ map DeviceHealthReport.Data more,
                    DeviceHealthReportTracker.increment_page tracker) /\
        forall v, MDM.aw_environment (DeviceHealthReport.mdm self) !! "api_url" = Some v ->
          map call_url (http_calls evs)
          = [page_url (format_value v) org_id
               (DeviceHealthReportTracker.page_size tracker)
               (DeviceHealthReportTracker.page_counter tracker)]) \/
     (exists e,
        turn = inr e /\
        forall v, MDM.aw_environment (DeviceHealthReport.mdm self) !! "api_url" = Some v ->
          map call_url (http_calls evs) = [] \/
          map call_url (http_calls evs)
          = [page_url (format_value v) org_id
               (DeviceHealthReportTracker.page_size tracker)
               (DeviceHealthReportTracker.page_counter tracker)])).
Proof.
  unfold DeviceHealthReport.fetch_page, try_except, bind at 1.
  rewrite get_device_health_check_run.
  unfold DeviceHealthReportTracker.get_page_size, DeviceHealthReportTracker.get_page_counter.
  destruct (MDM.aw_environment (DeviceHealthReport.mdm self) !! "api_url") as [v|].
  - match goal with |- context [MDM._send_request ?s ?m ?u ?d h] =>
      destruct (MDM_send_request_cases s m u d h) as (evs & Hev & Hc);
      destruct (MDM._send_request s m u d h) as [[api_response|e] h1] end;
    cbn [fst snd] in Hev, Hc; subst h1.
    + destruct Hc as [(e & He & _)|[headers Hcalls]]; [discriminate|].
      unfold bind, lift, ret.
      destruct (json_get api_response "Devices" (JList [])) as [devices|e].
      * destruct (json_iter devices) as [more|e].
        -- do 2 eexists. split; [reflexivity|]. left. exists more.
           split; [reflexivity|]. intros v' [= <-]. rewrite Hcalls. reflexivity.
        -- do 2 eexists. split; [reflexivity|]. right. exists e.
           split; [reflexivity|]. intros v' [= <-]. right. rewrite Hcalls. reflexivity.
      * do 2 eexists. split; [reflexivity|]. right. exists e.
        split; [reflexivity|]. intros v' [= <-]. right. rewrite Hcalls. reflexivity.
    + unfold ret. do 2 eexists. split; [reflexivity|]. right. exists e.
      split; [reflexivity|]. intros v' [= <-].
      destruct Hc as [(e' & _ & ->)|[headers ->]]; [left|right]; reflexivity.
  - unfold ret. exists (inr (AttributeError "object has no attribute 'api_url'")), [].
    rewrite app_nil_r. split; [reflexivity|]. right. eexists. split; [reflexivity|].
    intros v' [=].
Qed.

(** The loop, from any tracker state, given fuel for the turns left. *)
Lemma fetch_pages_spec fuel (self : DeviceHealthReport.t) org_id :
  forall (tracker : DeviceHealthReportTracker.t) all_device_data h,
    (turns_left tracker < fuel)%nat ->
    exists r evs,
      DeviceHealthReport.fetch_pages fuel self org_id tracker all_device_data h
        = (Ok (Some r), h ++ evs) /\
      forall v, MDM.aw_environment (DeviceHealthReport.mdm self) !! "api_url" = Some v ->
        (exists more,
           r = all_device_data ++ map DeviceHealthReport.Data more /\
           map call_url (http_calls evs)
           = map (page_url (format_value v) org_id
                    (DeviceHealthReportTracker.page_size tracker))
                 (pages_from (DeviceHealthReportTracker.page_counter tracker)
                             (turns_left tracker))) \/
        (exists e k,
           r = [DeviceHealthReport.Failure e] /\ (k < turns_left tracker)%nat /\
           (map call_url (http_calls evs)
            = map (page_url (format_value v) org_id
                     (DeviceHealthReportTracker.page_size tracker))
                  (pages_from (DeviceHealthReportTracker.page_counter tracker) k) \/
            map call_url (http_calls evs)
            = map (page_url (format_value v) org_id
                     (DeviceHealthReportTracker.page_size tracker))
                  (pages_from (DeviceHealthReportTracker.page_counter tracker) (S k)))).
Proof.
  induction fuel as [|fuel IH]; intros tracker acc h Hfuel; [lia|].
  cbn [DeviceHealthReport.fetch_pages].
  unfold DeviceHealthReportTracker.get_make_next_call.
  destruct (DeviceHealthReportTracker.make_next_call tracker) eqn:Hm.
  - destruct (fetch_page_cases self org_id tracker acc h) as (turn & evs1 & Hrun & Hturn).
    unfold bind at 1. rewrite Hrun.
    destruct Hturn as [(more & -> & Hcalls)|(e & -> & Hcalls)].
    + pose proof (turns_left_increment tracker Hm) as Hturns.
      destruct (IH (DeviceHealthReportTracker.increment_page tracker)
                  (acc ++ map DeviceHealthReport.Data more) (h ++ evs1))
        as (r & evs2 & Hrest & Hspec); [lia|].
      rewrite Hrest, <- app_assoc. exists r, (evs1 ++ evs2). split; [reflexivity|].
      intros v Hv. specialize (Hcalls v Hv). specialize (Hspec v Hv).
      set (url := page_url (format_value v) org_id
                    (DeviceHealthReportTracker.page_size tracker)) in *.
      set (first := DeviceHealthReportTracker.page_counter tracker) in *.
      assert (Hsize : DeviceHealthReportTracker.page_size
                        (DeviceHealthReportTracker.increment_page tracker)
                      = DeviceHealthReportTracker.page_size tracker)
        by (unfold DeviceHealthReportTracker.increment_page;
            destruct (_ <? _); reflexivity).
      rewrite http_calls_app, map_app, Hcalls.
      rewrite Hsize in Hspec. fold url in Hspec.
      destruct (Z.ltb_spec (DeviceHealthReportTracker.page_counter tracker)
                           (DeviceHealthReportTracker.max_amount_of_pages tracker)) as [Hlt|Hge].
      * assert (Hcount : DeviceHealthReportTracker.page_counter
                           (DeviceHealthReportTracker.increment_page tracker) = first + 1).
        { unfold DeviceHealthReportTracker.increment_page.
          destruct (Z.ltb_spec (DeviceHealthReportTracker.page_counter tracker)
                      (DeviceHealthReportTracker.max_amount_of_pages tracker));
            [reflexivity|lia]. }
        rewrite Hcount in Hspec.
        destruct Hspec as [(more' & -> & Hu)|(e & k & -> & Hk & Hu)].
        -- left. exists (more ++ more'). rewrite map_app, app_assoc. split; [reflexivity|].
           rewrite Hu, Hturns, pages_from_S. reflexivity.
        -- right. exists e, (S k). split; [reflexivity|]. split; [lia|].
           destruct Hu as [Hu|Hu]; rewrite Hu; [left|right];
             rewrite (pages_from_S first); reflexivity.
      * assert (Hlast : turns_left (DeviceHealthReportTracker.increment_page tracker) = O).
        { unfold turns_left, DeviceHealthReportTracker.increment_page.
          destruct (Z.ltb_spec (DeviceHealthReportTracker.page_counter tracker)
                      (DeviceHealthReportTracker.max_amount_of_pages tracker));
            [lia|reflexivity]. }
        rewrite Hlast in Hspec. rewrite Hturns, Hlast.
        destruct Hspec as [(more' & -> & Hu)|(e & k & _ & Hk & _)]; [|lia].
        left. exists (more ++ more'). rewrite map_app, app_assoc. split; [reflexivity|].
        rewrite Hu, (pages_from_S first). reflexivity.
    + exists [DeviceHealthReport.Failure e], evs1. split; [reflexivity|].
      intros v Hv. right. exists e, O.
      split; [reflexivity|]. split; [unfold turns_left; rewrite Hm; lia|].
      destruct (Hcalls v Hv) as [-> | ->]; [left; reflexivity|right].
      rewrite pages_from_S. reflexivity.
  - exists acc, []. rewrite app_nil_r. split; [reflexivity|].
    intros v Hv. left. exists []. rewrite app_nil_r. split; [reflexivity|].
    unfold turns_left. rewrite Hm. reflexivity.
Qed.

(** Any two amounts of fuel above the turns left give the same run. *)
Lemma fetch_pages_enough (self : DeviceHealthReport.t) org_id fuel1 :
  forall fuel2 (tracker : DeviceHealthReportTracker.t) all_device_data h,
    (turns_left tracker < fuel1)%nat -> (turns_left tracker < fuel2)%nat ->
    DeviceHealthReport.fetch_pages fuel1 self org_id tracker all_device_data h
    = DeviceHealthReport.fetch_pages fuel2 self org_id tracker all_device_data h.
Proof.
  induction fuel1 as [|fuel1 IH]; intros fuel2 tracker acc h H1 H2; [lia|].
  destruct fuel2 as [|fuel2]; [lia|]. cbn [DeviceHealthReport.fetch_pages].
  unfold DeviceHealthReportTracker.get_make_next_call.
  destruct (DeviceHealthReportTracker.make_next_call tracker) eqn:Hm; [|reflexivity].
  unfold bind.
  destruct (DeviceHealthReport.fetch_page self org_id tracker acc h) as [[turn|e] h1] eqn:Hrun;
    [|reflexivity].
  destruct turn as [[acc' tracker']|e]; [|reflexivity].
  destruct (fetch_page_cases self org_id tracker acc h) as (turn & evs & Hrun' & Hturn).
  rewrite Hrun in Hrun'. injection Hrun' as <- ->.
  destruct Hturn as [(more & [= -> ->] & _)|(e & [=] & _)].
  pose proof (turns_left_increment tracker Hm). apply IH; lia.
Qed.

(** What a request returns or raises does not depend on what happened
    before. *)
Lemma MDM_result_any_trace (self : MDM.t) method url data h :
  fst (MDM._send_request self method url data h)
  = fst (MDM._send_request self method url data []).
Proof.
  rewrite !MDM_send_request_run, !MDM_get_headers_run.
  rewrite (get_cmsurl_header_events _ _ h), (get_cmsurl_header_events _ _ []).
  destruct (fst (WorkspaceOneAuth.get_cmsurl_header _ url [])); [|reflexivity].
  destruct (MDM.aw_environment self !! "tenant_code"); reflexivity.
Qed.

Lemma health_check_result_any_trace (self : MDM.t) organization_group_id page_size page h :
  fst (MDM_methods.get_device_health_check self organization_group_id page_size page h)
  = fst (MDM_methods.get_device_health_check self organization_group_id page_size page []).
Proof.
  rewrite !get_device_health_check_run.
  destruct (MDM.aw_environment self !! "api_url"); [|reflexivity].
  apply MDM_result_any_trace.
Qed.

(** What one turn of the loop yields: the devices of the page at the
    counter, appended, or the exception that page ended with. *)
Lemma fetch_page_turn (self : DeviceHealthReport.t) org_id
    (tracker : DeviceHealthReportTracker.t) (all_device_data : list DeviceHealthReport.item) h :
  fst (DeviceHealthReport.fetch_page self org_id tracker all_device_data h)
  = Ok (match page_devices self org_id (DeviceHealthReportTracker.page_size tracker)
                (DeviceHealthReportTracker.page_counter tracker) with
        | Ok more => inl (all_device_data ++ map DeviceHealthReport.Data more,
                          DeviceHealthReportTracker.increment_page tracker)
        | Raise e => inr e
        end).
Proof.
  unfold DeviceHealthReport.fetch_page. rewrite try_except_all. cbn [fst]. f_equal.
  unfold DeviceHealthReportTracker.get_page_size, DeviceHealthReportTracker.get_page_counter.
  unfold page_devices, bind at 1.
  pose proof (health_check_result_any_trace (DeviceHealthReport.mdm self) org_id
                (DeviceHealthReportTracker.page_size tracker)
                (DeviceHealthReportTracker.page_counter tracker) h) as Hresult.
  destruct (MDM_methods.get_device_health_check _ _ _ _ h) as [[api_response|e] h1].
  - cbn [fst] in Hresult. rewrite <- Hresult. cbn [obind].
    unfold bind, lift, ret.
    destruct (json_get api_response "Devices" (JList [])) as [devices|e]; [|reflexivity].
    cbn [obind]. destruct (json_iter devices); reflexivity.
  - cbn [fst] in Hresult. rewrite <- Hresult. reflexivity.
Qed.

(** The loop, from any tracker state, with the devices it collects. *)
Lemma fetch_pages_devices fuel (self : DeviceHealthReport.t) org_id v :
  MDM.aw_environment (DeviceHealthReport.mdm self) !! "api_url" = Some v ->
  forall (tracker : DeviceHealthReportTracker.t) all_device_data h,
    (turns_left tracker < fuel)%nat ->
    exists r evs,
      DeviceHealthReport.fetch_pages fuel self org_id tracker all_device_data h
        = (Ok (Some r), h ++ evs) /\
      ((exists pages_data,
          Forall2 (fun page devices =>
                     page_devices self org_id
                       (DeviceHealthReportTracker.page_size tracker) page = Ok devices)
                  (pages_from (DeviceHealthReportTracker.page_counter tracker)
                              (turns_left tracker))
                  pages_data /\
          r = all_device_data ++ map DeviceHealthReport.Data (concat pages_data) /\
          map call_url (http_calls evs)
          = map (page_url (format_value v) org_id
                   (DeviceHealthReportTracker.page_size tracker))
                (pages_from (DeviceHealthReportTracker.page_counter tracker)
                            (turns_left tracker))) \/
       (exists e k,
          (k < turns_left tracker)%nat /\
          Forall (fun page => exists devices,
                    page_devices self org_id
                      (DeviceHealthReportTracker.page_size tracker) page = Ok devices)
                 (pages_from (DeviceHealthReportTracker.page_counter tracker) k) /\
          page_devices self org_id (DeviceHealthReportTracker.page_size tracker)
            (DeviceHealthReportTracker.page_counter tracker + Z.of_nat k) = Raise e /\
          r = [DeviceHealthReport.Failure e] /\
          (map call_url (http_calls evs)
           = map (page_url (format_value v) org_id
                    (DeviceHealthReportTracker.page_size tracker))
                 (pages_from (DeviceHealthReportTracker.page_counter tracker) k) \/
           map call_url (http_calls evs)
           = map (page_url (format_value v) org_id
                    (DeviceHealthReportTracker.page_size tracker))
                 (pages_from (DeviceHealthReportTracker.page_counter tracker) (S k))))).
Proof.
  intros Hv. induction fuel as [|fuel IH]; intros tracker acc h Hfuel; [lia|].
  cbn [DeviceHealthReport.fetch_pages].
  unfold DeviceHealthReportTracker.get_make_next_call.
  destruct (DeviceHealthReportTracker.make_next_call tracker) eqn:Hm.
  2: { exists acc, []. rewrite app_nil_r. split; [reflexivity|]. left. exists [].
       unfold turns_left. rewrite Hm. cbn. rewrite app_nil_r.
       split; [constructor|]. split; reflexivity. }
  destruct (fetch_page_cases self org_id tracker acc h) as (turn & evs1 & Hrun & Hturn).
  pose proof (fetch_page_turn self org_id tracker acc h) as Hyield.
  rewrite Hrun in Hyield. cbn [fst] in Hyield. injection Hyield as Hyield.
  unfold bind at 1. rewrite Hrun.
  set (size := DeviceHealthReportTracker.page_size tracker) in *.
  set (first := DeviceHealthReportTracker.page_counter tracker) in *.
  set (url := page_url (format_value v) org_id size).
  pose proof (turns_left_increment tracker Hm) as Hturns.
  destruct (page_devices self org_id size first) as [devices|e] eqn:Hpage.
  - subst turn.
    assert (Hcalls : map call_url (http_calls evs1) = [url first]).
    { destruct Hturn as [(more & _ & Hc)|(e & [=] & _)]. exact (Hc v Hv). }
    destruct (IH (DeviceHealthReportTracker.increment_page tracker)
                (acc ++ map DeviceHealthReport.Data devices) (h ++ evs1))
      as (r & evs2 & Hrest & Hspec); [lia|].
    rewrite Hrest, <- app_assoc. exists r, (evs1 ++ evs2). split; [reflexivity|].
    assert (Hsize : DeviceHealthReportTracker.page_size
                      (DeviceHealthReportTracker.increment_page tracker) = size)
      by (unfold DeviceHealthReportTracker.increment_page;
          destruct (_ <? _); reflexivity).
    rewrite Hsize in Hspec. fold url in Hspec.
    rewrite http_calls_app, map_app, Hcalls, Hturns.
    destruct (Z.ltb_spec first (DeviceHealthReportTracker.max_amount_of_pages tracker))
      as [Hlt|Hge].
    + assert (Hcount : DeviceHealthReportTracker.page_counter
                         (DeviceHealthReportTracker.increment_page tracker) = first + 1).
      { unfold DeviceHealthReportTracker.increment_page. fold first.
        destruct (Z.ltb_spec first (DeviceHealthReportTracker.max_amount_of_pages tracker));
          [reflexivity|lia]. }
      rewrite Hcount in Hspec.
      destruct Hspec as [(pages_data & Hall & -> & Hu)|(e & k & Hk & Hall & Hbad & -> & Hu)].
      * left. exists (devices :: pages_data). rewrite pages_from_S.
        split; [constructor; assumption|].
        split; [cbn [concat]; rewrite map_app, app_assoc; reflexivity|].
        rewrite Hu. reflexivity.
      * right. exists e, (S k). split; [lia|].
        split; [rewrite pages_from_S; constructor; eauto|].
        split; [replace (first + Z.of_nat (S k)) with (first + 1 + Z.of_nat k) by lia;
                exact Hbad|].
        split; [reflexivity|].
        destruct Hu as [Hu|Hu]; rewrite Hu; [left|right];
          rewrite (pages_from_S first); reflexivity.
    + assert (Hlast : turns_left (DeviceHealthReportTracker.increment_page tracker) = O).
      { unfold turns_left, DeviceHealthReportTracker.increment_page. fold first.
        destruct (Z.ltb_spec first (DeviceHealthReportTracker.max_amount_of_pages tracker));
          [lia|reflexivity]. }
      rewrite Hlast in Hspec. rewrite Hlast.
      destruct Hspec as [(pages_data & Hall & -> & Hu)|(e & k & Hk & _)]; [|lia].
      left. cbn [pages_from seq map] in Hall. inversion Hall; subst.
      exists [devices]. rewrite pages_from_S.
      split; [repeat constructor; assumption|].
      split; [cbn [concat]; rewrite !app_nil_r; reflexivity|].
      rewrite Hu. reflexivity.
  - subst turn. exists [DeviceHealthReport.Failure e], evs1. split; [reflexivity|].
    right. exists e, O. split; [lia|]. split; [constructor|].
    split; [replace (first + Z.of_nat 0) with first by lia; exact Hpage|].
    split; [reflexivity|].
    destruct Hturn as [(more & [=] & _)|(e' & _ & Hc)].
    destruct (Hc v Hv) as [-> | ->]; [left; reflexivity|right].
    rewrite pages_from_S. reflexivity.
Qed.

(** X19. The paging loop asks for the pages from the counter up to and
    including [max_amount_of_pages], one more than that many pages, each at
    the tracker's page size, and stops.  A run in which no page failed
    returns what it was given followed by the devices of those pages, page
    after page, the devices of a page being the ["Devices"] entry of what
    [get_device_health_check] returns for it; a run in which a page failed
    returns the exception of that page alone, whatever had been collected,
    and asks for no further page. *)
Theorem paging_loop fuel (self : DeviceHealthReport.t) org_id
    (tracker : DeviceHealthReportTracker.t)
    (all_device_data : list DeviceHealthReport.item) h v :
  MDM.aw_environment (DeviceHealthReport.mdm self) !! "api_url" = Some v ->
  (turns_left tracker < fuel)%nat ->
  let url := page_url (format_value v) org_id
               (DeviceHealthReportTracker.page_size tracker) in
  let devices_of := page_devices self org_id
                      (DeviceHealthReportTracker.page_size tracker) in
  let first := DeviceHealthReportTracker.page_counter tracker in
  exists r evs,
    DeviceHealthReport.fetch_pages fuel self org_id tracker all_device_data h
      = (Ok (Some r), h ++ evs) /\
    ((exists pages_data,
        Forall2 (fun page devices => devices_of page = Ok devices)
                (pages_from first (turns_left tracker)) pages_data /\
        r = all_device_data ++ map DeviceHealthReport.Data (concat pages_data) /\
        map call_url (http_calls evs) = map url (pages_from first (turns_left tracker))) \/
     (exists e k,
        (k < turns_left tracker)%nat /\
        Forall (fun page => exists devices, devices_of page = Ok devices)
               (pages_from first k) /\
        devices_of (first + Z.of_nat k) = Raise e /\
        r = [DeviceHealthReport.Failure e] /\
        (map call_url (http_calls evs) = map url (pages_from first k) \/
         map call_url (http_calls evs) = map url (pages_from first (S k))))).
Proof.
  intros Hv Hfuel url devices_of first.
  exact (fetch_pages_devices fuel self org_id v Hv tracker all_device_data h Hfuel).
Qed.

(** X20. The report always comes back: with fuel for the pages to fetch,
    [run_airwatch_device_health_check] returns a list and never raises,
    whatever the platform answers, and more fuel changes nothing.  When the
    counting request raises, that list is empty and no page is asked for. *)
Theorem health_check_always_returns (ceil_div : Json -> Z -> Outcome Z)
    (self : DeviceHealthReport.t) (organization_group_id : Z) h :
  exists n r evs,
    (forall fuel, (n <= fuel)%nat ->
       DeviceHealthReport.run_airwatch_device_health_check ceil_div fuel self
         organization_group_id h = (Ok (Some r), h ++ evs)) /\
    (forall e,
       fst (MDM_methods.get_device_health_check (DeviceHealthReport.mdm self)
              organization_group_id 1 0 h) = Raise e ->
       r = [] /\
       h ++ evs = snd (MDM_methods.get_device_health_check (DeviceHealthReport.mdm self)
                         organization_group_id 1 0 h)).
Proof.
  unfold DeviceHealthReport.run_airwatch_device_health_check.
  unfold DeviceHealthReportTracker.get_organization_group_id,
    DeviceHealthReportTracker.get_page_size.
  cbn [DeviceHealthReportTracker.__init__ DeviceHealthReportTracker.set_success
       DeviceHealthReportTracker.organization_group_id
       DeviceHealthReportTracker.page_size DeviceHealthReportTracker.error_message].
  assert (Hcount : exists evs0,
            snd (MDM_methods.get_device_health_check (DeviceHealthReport.mdm self)
                   organization_group_id 1 0 h) = h ++ evs0).
  { rewrite get_device_health_check_run.
    destruct (MDM.aw_environment (DeviceHealthReport.mdm self) !! "api_url") as [v|].
    - match goal with |- context [MDM._send_request ?s ?m ?u ?d h] =>
        destruct (MDM_send_request_cases s m u d h) as (evs & Hev & _) end. eauto.
    - exists []. rewrite app_nil_r. reflexivity. }
  destruct Hcount as (evs0 & Hev0).
  unfold bind at 1, try_except at 1, bind at 1.
  destruct (MDM_methods.get_device_health_check (DeviceHealthReport.mdm self)
              organization_group_id 1 0 h) as [[request|e0] h1].
  - cbn [snd] in Hev0. subst h1. unfold bind at 1, lift at 1.
    destruct (json_get request "Total" (JInt 0)) as [total_devices|e1].
    + unfold bind at 1, lift at 1.
      destruct (DeviceHealthReportTracker.set_max_amount_of_pages ceil_div _ total_devices _)
        as [tracker|e2].
      * unfold ret at 1.
        destruct (fetch_pages_spec (S (turns_left tracker)) self organization_group_id
                    tracker [] (h ++ evs0)) as (r & evs & Hrun & _); [lia|].
        exists (S (turns_left tracker)), r, (evs0 ++ evs). split.
        -- intros fuel Hfuel.
           rewrite (fetch_pages_enough self organization_group_id fuel
                      (S (turns_left tracker))) by lia.
           rewrite Hrun, app_assoc. reflexivity.
        -- intros e [=].
      * unfold ret. exists O, [], evs0. split; [reflexivity|]. intros e [=].
    + unfold ret. exists O, [], evs0. split; [reflexivity|]. intros e [=].
  - cbn [snd] in Hev0. subst h1. unfold ret. exists O, [], evs0.
    split; [reflexivity|]. intros e _. split; reflexivity.
Qed.

End Examples.

(** ** The constructors of the examples *)

(** X21. The two example classes are constructed from four environment
    variables.  Construction succeeds exactly when [CN00_API_URL],
    [CN00_TENANT_CODE], [CN00_CERT_PATH] and [CN00_CERT_PW] are all set and
    non-empty; the object then holds their values, and a page size of 5000
    for the report.  Otherwise both constructors raise the same [ValueError]. *)
Theorem example_constructors_need_four_variables (environ : Environ) (environment : str) :
  let given k := exists s, environ !! k = Some s /\ s <> "" in
  let all_given := given "CN00_API_URL" /\ given "CN00_TENANT_CODE" /\
                   given "CN00_CERT_PATH" /\ given "CN00_CERT_PW" in
  match DeviceHealthReport.__init__ environ with
  | Ok report =>
      all_given /\
      DeviceHealthReport.page_size report = 5000 /\
      MDM.aw_environment (DeviceHealthReport.mdm report) !! "api_url"
        = PyStr <$> environ !! "CN00_API_URL" /\
      MDM.aw_environment (DeviceHealthReport.mdm report) !! "tenant_code"
        = PyStr <$> environ !! "CN00_TENANT_CODE" /\
      Some (WorkspaceOneAuth.cert_path (MDM.auth (DeviceHealthReport.mdm report)))
        = environ !! "CN00_CERT_PATH" /\
      Some (WorkspaceOneAuth.cert_pw (MDM.auth (DeviceHealthReport.mdm report)))
        = environ !! "CN00_CERT_PW" /\
      DeviceExtensiveSearch.__init__ environ environment
        = Ok {| DeviceExtensiveSearch.aw_environment :=
                  DeviceHealthReport.aw_environment report;
                DeviceExtensiveSearch.auth := DeviceHealthReport.auth report;
                DeviceExtensiveSearch.mdm := DeviceHealthReport.mdm report |}
  | Raise e =>
      ~ all_given /\
      (exists msg, e = ValueError msg) /\
      DeviceExtensiveSearch.__init__ environ environment = Raise e
  end.
Proof.
  intros given all_given. subst all_given given. cbv beta.
  unfold DeviceHealthReport.__init__, DeviceExtensiveSearch.__init__.
  assert (Hfalsy : forall o, opt_str_falsy o = true ->
                     ~ exists s : str, o = Some s /\ s <> "").
  { intros [[|c s]|] Hf (s' & [= <-] & Hne); try discriminate. contradiction. }
  assert (Htruthy : forall o, opt_str_falsy o = false ->
                      exists c s, o = Some (String c s)).
  { intros [[|c s]|] Hf; try discriminate. eauto. }
  destruct (opt_str_falsy (environ !! "CN00_API_URL")) eqn:Hu; cbn [orb].
  { split; [|split; [eauto|reflexivity]]. intros (Hg & _). exact (Hfalsy _ Hu Hg). }
  destruct (opt_str_falsy (environ !! "CN00_TENANT_CODE")) eqn:Ht; cbn [orb].
  { split; [|split; [eauto|reflexivity]]. intros (_ & Hg & _). exact (Hfalsy _ Ht Hg). }
  destruct (Htruthy _ Hu) as (cu & su & Eu). destruct (Htruthy _ Ht) as (ct & st & Et).
  rewrite Eu, Et. cbn [option.default default]. unfold AWEnvironment.__init__.
  cbn [str_falsy orb obind].
  destruct (opt_str_falsy (environ !! "CN00_CERT_PATH")) eqn:Hp; cbn [orb].
  { split; [|split; [eauto|reflexivity]]. intros (_ & _ & Hg & _). exact (Hfalsy _ Hp Hg). }
  destruct (opt_str_falsy (environ !! "CN00_CERT_PW")) eqn:Hw; cbn [orb].
  { split; [|split; [eauto|reflexivity]]. intros (_ & _ & _ & Hg). exact (Hfalsy _ Hw Hg). }
  destruct (Htruthy _ Hp) as (cp & sp & Ep). destruct (Htruthy _ Hw) as (cw & sw & Ew).
  rewrite Ep, Ew.
  cbv beta iota delta
    [option.default default id obind WorkspaceOneAuth.__init__ MDM.__init__
     DeviceHealthReport.page_size DeviceHealthReport.mdm DeviceHealthReport.auth
     DeviceHealthReport.aw_environment MDM.aw_environment MDM.auth
     WorkspaceOneAuth.cert_path WorkspaceOneAuth.cert_pw].
  split; [repeat split; eexists; (split; [eassumption|discriminate])|].
  split; [reflexivity|].
  split; [rewrite lookup_insert_ne, lookup_insert_ne, lookup_insert by discriminate;
          reflexivity|].
  split; [rewrite lookup_insert_ne, lookup_insert by discriminate; reflexivity|].
  repeat split; reflexivity.
Qed.

(* ===================================================================== *)
(** * The code on concrete inputs *)
(* ===================================================================== *)

Import Sample.

(** C1, refuted as stated: with a certificate file that does not exist the
    authenticator produces no header, and the request is sent all the same,
    its [Authorization] header being [None]. *)
Lemma request_sent_without_header :
  fst (WorkspaceOneAuth.get_cmsurl_header Sample.missing_file_auth url_x1 []) = Ok None /\
  http_calls (snd (MDM._send_request (Sample.mdm Sample.missing_file_auth)
                     "GET" url_x1 None []))
  = [MDM_call "GET" url_x1 unsigned_headers None].
Proof. split; vm_compute; reflexivity. Qed.

Lemma send_request_with_missing_header_witness :
  http_calls (snd (MDM._send_request (Sample.mdm Sample.missing_file_auth)
                     "GET" url_x1 None []))
    = [MDM_call "GET" url_x1 unsigned_headers None] /\
  http_calls (snd (MAM._send_request (Sample.mam Sample.wrong_password_auth)
                     "GET" url_x1 None None []))
    = [MAM_call "GET" url_x1 unsigned_headers None None] /\
  http_calls (snd (System._send_request (Sample.system Sample.missing_file_auth)
                     "GET" url_x1 None []))
    = [System_call (Sample.system Sample.missing_file_auth) "GET" url_x1
         unsigned_headers None].
Proof.
  destruct (@send_request_with_missing_header Sample.platform "GET" url_x1 [])
    as (Hmdm & Hmam & Hsys).
  split; [|split].
  - apply (Hmdm (Sample.mdm Sample.missing_file_auth) None (PyStr "tenant-1"));
      vm_compute; reflexivity.
  - apply (Hmam (Sample.mam Sample.wrong_password_auth) None None);
      vm_compute; reflexivity.
  - apply (Hsys (Sample.system Sample.missing_file_auth) None);
      vm_compute; reflexivity.
Defined.

Lemma get_cmsurl_header_signed_value_witness :
  fst (WorkspaceOneAuth.get_cmsurl_header Sample.good_auth url_x1 [])
  = Ok (Some ("CMSURL`1 " +:+ b64encode (encode_utf8 "der:/a/b"))).
Proof.
  apply (@get_cmsurl_header_signed_value Sample.platform Sample.good_auth url_x1 []
           Sample.p12_bundle Sample.the_key Sample.the_cert parsed_x1
           (encode_utf8 "der:/a/b")); reflexivity.
Defined.

Lemma signing_input_is_the_path_witness :
  WorkspaceOneAuth.get_cmsurl_header Sample.good_auth url_x1 []
    = WorkspaceOneAuth.get_cmsurl_header Sample.good_auth url_x2 [] /\
  exists evs,
    snd (WorkspaceOneAuth.get_cmsurl_header Sample.good_auth url_x1 []) = [] ++ evs /\
    forall data, data ∈ signed_data evs -> data = Some (encode_utf8 "/a/b").
Proof.
  apply (@signing_input_is_the_path Sample.platform Sample.good_auth
           url_x1 url_x2 parsed_x1 parsed_x2 []); reflexivity.
Defined.

Lemma load_failure_yields_no_header_witness :
  (exists msg,
     fst (WorkspaceOneAuth._load_p12_cert Sample.wrong_password_auth "cert.p12" "guess" [])
     = Raise (CMSURLError msg)) /\
  exists evs,
    WorkspaceOneAuth.get_cmsurl_header Sample.wrong_password_auth url_x1 []
      = (Ok None, [] ++ evs) /\
    signed_data evs = [].
Proof.
  apply (@load_failure_yields_no_header Sample.platform Sample.wrong_password_auth url_x1 []).
  right. exists Sample.p12_bundle, (ValueError "Invalid password or PKCS12 data.").
  split; reflexivity.
Defined.

(** C5 at a failing input: the server answers 404; [MAM._send_request]
    raises an error without status code. *)
Lemma MAM_send_request_drops_status_code_witness :
  fst (MAM._send_request (Sample.mam Sample.good_auth) "GET" "https://host/missing"
         None None [])
  = Raise (APIRequestError {| message := "HTTP error for url";
                              error_status_code := None |}).
Proof.
  apply (@MAM_send_request_drops_status_code Sample.platform
           (Sample.mam Sample.good_auth) "GET" "https://host/missing" None None []
           (Some "CMSURL`1 ZGVyOi9taXNzaW5n")
           {| status_code := 404; text := "Not Found" |}).
  - reflexivity.
  - reflexivity.
  - simpl. lia.
Defined.

(** The same exchange through [MDM._send_request] keeps the status code. *)
Example MDM_send_request_keeps_status_code :
  fst (MDM._send_request (Sample.mdm Sample.good_auth) "GET" "https://host/missing" None [])
  = Raise (APIRequestError {| message := "API request to https://host/missing failed";
                              error_status_code := Some 404 |}).
Proof. reflexivity. Qed.

(** C6, refuted as stated: under the policy of [System] a GET that is
    answered 503 every time is attempted four times, after sleeps of 0, 2
    and 4 seconds; a 429 with a [Retry-After] header is retried; and a POST
    that is answered 503 is not retried at all. *)
Lemma four_attempts_and_a_retried_429 :
  Urllib3.urlopen System.retries "GET" (fun _ => Urllib3.Answered 503 None "")
    = Some (inr (Urllib3.TooManyResponses 503), [0; 2; 4]) /\
  Urllib3.urlopen System.retries "GET"
    (fun n => if (n =? 0)%nat then Urllib3.Answered 429 (Some 1) ""
              else Urllib3.Answered 200 None "{}")
    = Some (inl (200, "{}"), [1]) /\
  Urllib3.urlopen System.retries "POST" (fun _ => Urllib3.Answered 503 None "")
    = Some (inl (503, ""), []).
Proof. repeat split; vm_compute; reflexivity. Qed.

(** The sample platform sends through the adapters of the session. *)
Lemma sample_sends_through_adapters :
  @sends_through_adapters Sample.platform (fun _ => Sample.sample_describe)
                          Sample.sample_wire.
Proof.
  intros c s Hsession.
  destruct (Session_request_returns Sample.sample_describe s (call_method c) (call_url c)
              (Sample.sample_wire c)) as [[result sleeps] Hrun].
  exists sleeps. rewrite Hrun. f_equal. f_equal.
  change (@http_request Sample.platform c) with (Sample.sample_http c).
  unfold Sample.sample_http. rewrite Hsession, Hrun. reflexivity.
Qed.

(** [/busy] answers 503 at every attempt: the GET of [System._send_request]
    ends after four attempts, with no status code in the error. *)
Lemma retry_policy_and_timeout_witness :
  fst (System._send_request (Sample.system Sample.good_auth) "GET" "https://host/busy"
         None [])
  = Raise (APIRequestError {| message := "API request to https://host/busy failed";
                              error_status_code := None |}).
Proof.
  destruct (@retry_policy_and_timeout Sample.platform) as (_ & _ & _ & _ & _ & Hsend & _).
  eapply (Hsend (fun _ => Sample.sample_describe) Sample.sample_wire
            sample_sends_through_adapters
            Sample.env_with_environment Sample.good_auth (Sample.system Sample.good_auth)
            "GET" "host/busy" None []).
  - reflexivity.
  - reflexivity.
  - reflexivity.
  - intros n Hn. exists None, "". reflexivity.
Defined.

Lemma create_event_notification_rule_is_V1_witness :
  exists payload,
    http_calls (snd (System.create_event_notification_rule
                       (Sample.system Sample.good_auth) rule_args []))
    = [System_call (Sample.system Sample.good_auth) "POST"
         "https://host/API/system/eventnotifications/V1/eventnotifications"
         (headers_dict (Some "CMSURL`1 ZGVyOi9BUEkvc3lzdGVtL2V2ZW50bm90aWZpY2F0aW9ucy9WMS9ldmVudG5vdGlmaWNhdGlvbnM=")
            (PyStr "tenant-1"))
         (Some payload)].
Proof.
  destruct (@create_event_notification_rule_is_V1 Sample.platform) as (_ & _ & _ & Hcall).
  destruct (Hcall (Sample.system Sample.good_auth) rule_args []) as (_ & evs & Hs & _ & Hone).
  destruct (Hone (Some "CMSURL`1 ZGVyOi9BUEkvc3lzdGVtL2V2ZW50bm90aWZpY2F0aW9ucy9WMS9ldmVudG5vdGlmaWNhdGlvbnM=")
              eq_refl eq_refl) as (payload & Hp).
  exists payload. rewrite Hs. exact Hp.
Defined.

(** C7, refuted as stated: an authenticator is constructed from a path that
    cannot be read, and the failure shows only when a header is asked for. *)
Lemma authenticator_accepts_unreadable_certificate :
  exists a,
    WorkspaceOneAuth.__init__ "nowhere.p12" "secret" = Ok a /\
    read_file "nowhere.p12" = Raise (OSError "[Errno 2] No such file or directory") /\
    fst (WorkspaceOneAuth.get_cmsurl_header a url_x1 []) = Ok None.
Proof. eexists. split; [reflexivity|]. split; reflexivity. Qed.

Lemma configuration_errors_witness :
  (exists msg, AWEnvironment.__init__ "https://host/API" "" None = Raise (ValueError msg)) /\
  fst (WorkspaceOneAuth.get_cmsurl_header Sample.wrong_password_auth url_x1 []) = Ok None.
Proof.
  destruct (@configuration_errors Sample.platform) as (Henv & _ & _ & Hcall).
  split.
  - apply (Henv "https://host/API" "" None). right. reflexivity.
  - apply (Hcall "cert.p12" "guess" Sample.wrong_password_auth url_x1 [] eq_refl).
    right. exists Sample.p12_bundle, (ValueError "Invalid password or PKCS12 data.").
    split; reflexivity.
Defined.

(** Another scheme, host and port, the same path: the same bytes are signed
    and the same header comes out. *)
Example other_host_same_header :
  WorkspaceOneAuth.get_cmsurl_header Sample.good_auth "http://other.example:8080/a/b#top" []
  = WorkspaceOneAuth.get_cmsurl_header Sample.good_auth url_x1 [].
Proof. reflexivity. Qed.

(** On the sample platform no query string reaches the signature. *)
Example sample_query_string_is_not_signed (q1 q2 : str) h :
  WorkspaceOneAuth.get_cmsurl_header Sample.good_auth ("https://host/a/b" +:+ String "?" q1) h
  = WorkspaceOneAuth.get_cmsurl_header Sample.good_auth ("https://host/a/b" +:+ String "?" q2) h.
Proof.
  apply (query_string_is_not_signed (fun _ => None) (fun _ => None)); reflexivity.
Qed.

(** ** Further runs on concrete inputs *)

Lemma from_memory_needs_no_file_witness :
  exists evs,
    snd (WorkspaceOneAuth.get_cmsurl_header SampleReport.memory_auth url_x1 []) = [] ++ evs /\
    opened_files evs = [] /\
    p12_loads evs = [(Sample.p12_bundle, encode_utf8 "secret")].
Proof.
  apply (@from_memory_needs_no_file Sample.platform Sample.p12_bundle "secret"
           SampleReport.memory_auth url_x1 []).
  reflexivity.
Defined.

Lemma certificate_reloaded_on_every_call_witness :
  exists evs,
    snd (WorkspaceOneAuth.get_cmsurl_header Sample.good_auth url_x1 []) = [] ++ evs /\
    opened_files evs = ["cert.p12"] /\
    p12_loads evs = match read_file "cert.p12" with
                    | Ok d => [(d, encode_utf8 "secret")]
                    | Raise _ => []
                    end.
Proof.
  apply (@certificate_reloaded_on_every_call Sample.platform "cert.p12" "secret"
           Sample.good_auth url_x1 []).
  reflexivity.
Defined.

Lemma get_cmsurl_header_raises_only_from_urlparse_witness :
  urlparse SampleReport.bad_url = Raise (ValueError "Invalid IPv6 URL") /\
  exists d private_key certificate,
    p12_source Sample.good_auth = Ok d /\
    load_key_and_certificates d (encode_utf8 (WorkspaceOneAuth.cert_pw Sample.good_auth))
      = Ok (Some private_key, Some certificate).
Proof.
  apply (@get_cmsurl_header_raises_only_from_urlparse Sample.platform Sample.good_auth
           SampleReport.bad_url [] (ValueError "Invalid IPv6 URL")).
  reflexivity.
Defined.

(** The server answers 404: what leaves the three dispatchers is an
    [APIRequestError]. *)
Lemma send_request_lets_no_RequestException_out_witness :
  let e := APIRequestError {| message := "API request to https://host/missing failed";
                              error_status_code := Some 404 |} in
  (forall (self : MDM.t) data,
     fst (MDM._send_request self "GET" "https://host/missing" data []) = Raise e ->
     is_RequestException e = false) /\
  (forall (self : MAM.t) json_data files,
     fst (MAM._send_request self "GET" "https://host/missing" json_data files [])
       = Raise e ->
     is_RequestException e = false) /\
  (forall (self : System.t) json_data,
     fst (System._send_request self "GET" "https://host/missing" json_data []) = Raise e ->
     is_RequestException e = false).
Proof.
  apply (@send_request_lets_no_RequestException_out Sample.platform
           "GET" "https://host/missing" []).
  intros e' Hparse. vm_compute in Hparse. discriminate Hparse.
Defined.

(** A URL that does not parse: the [ValueError] of [urlparse] leaves
    [MDM._send_request] as it is, and nothing is sent. *)
Lemma send_request_stops_when_the_header_step_raises_witness :
  fst (MDM._send_request (Sample.mdm Sample.good_auth) "GET" SampleReport.bad_url None [])
    = Raise (ValueError "Invalid IPv6 URL") /\
  http_calls (snd (MDM._send_request (Sample.mdm Sample.good_auth) "GET"
                     SampleReport.bad_url None [])) = http_calls [].
Proof.
  apply (@send_request_stops_when_the_header_step_raises Sample.platform
           "GET" SampleReport.bad_url [] (ValueError "Invalid IPv6 URL")).
  reflexivity.
Defined.

Lemma device_commands_share_a_signature_witness :
  let p := "https://host/API/mdm/devices/42/commands" in
  let run1 := MDM_methods.clear_device_passcode (Sample.mdm Sample.good_auth) "42" [] in
  let run2 := MDM_methods.command_device_wipe (Sample.mdm Sample.good_auth) "42" [] in
  sign_calls (snd run1) = sign_calls (snd run2) /\
  map call_headers (http_calls (snd run1)) = map call_headers (http_calls (snd run2)) /\
  exists evs,
    snd run1 = [] ++ evs /\
    Forall (fun signed =>
              exists r, UrlParse.urlparse (fun _ => None) (fun _ => None) p = Ok r /\
                        signed = Some (encode_utf8 (UrlParse.path r)))
           (signed_data evs).
Proof.
  apply (@device_commands_share_a_signature Sample.platform (fun _ => None) (fun _ => None)
           (Sample.mdm Sample.good_auth) (PyStr Sample.base) "42" []);
    try reflexivity;
    (eexists; split; reflexivity).
Defined.

(** On the sample server the two commands do reach the transport, and what
    is signed for each is the path [/API/mdm/devices/42/commands]. *)
Example device_commands_are_sent :
  map call_url
      (http_calls (snd (MDM_methods.clear_device_passcode (Sample.mdm Sample.good_auth)
                          "42" [])))
    = ["https://host/API/mdm/devices/42/commands?command=ClearPasscode"] /\
  map call_url
      (http_calls (snd (MDM_methods.command_device_wipe (Sample.mdm Sample.good_auth)
                          "42" [])))
    = ["https://host/API/mdm/devices/42/commands?command=DeviceWipe"] /\
  signed_data (snd (MDM_methods.command_device_wipe (Sample.mdm Sample.good_auth) "42" []))
    = [Some (encode_utf8 "/API/mdm/devices/42/commands")].
Proof. repeat split; vm_compute; reflexivity. Qed.

Lemma search_parameters_are_not_signed_witness :
  (let run1 := MDM_methods.extensive_search_device_details (Sample.mdm Sample.good_auth)
                 (AStr "SN-1") "serialNumber" [] in
   let run2 := MDM_methods.extensive_search_device_details (Sample.mdm Sample.good_auth)
                 (AnInt 7) "deviceId" [] in
   sign_calls (snd run1) = sign_calls (snd run2) /\
   map call_headers (http_calls (snd run1)) = map call_headers (http_calls (snd run2))) /\
  (let run1 := MDM_methods.get_device_health_check (Sample.mdm Sample.good_auth)
                 570 5000 0 [] in
   let run2 := MDM_methods.get_device_health_check (Sample.mdm Sample.good_auth)
                 571 100 3 [] in
   sign_calls (snd run1) = sign_calls (snd run2) /\
   map call_headers (http_calls (snd run1)) = map call_headers (http_calls (snd run2))).
Proof.
  destruct (@search_parameters_are_not_signed Sample.platform (fun _ => None) (fun _ => None)
              (Sample.mdm Sample.good_auth) (PyStr Sample.base) [])
    as [Hsearch Hreport]; try reflexivity.
  split.
  - apply (Hsearch (AStr "SN-1") "serialNumber" (AnInt 7) "deviceId");
      (eexists; split; vm_compute; reflexivity).
  - apply (Hreport 570 5000 0 571 100 3);
      (eexists; split; vm_compute; reflexivity).
Defined.

Lemma paging_loop_witness :
  let url := page_url Sample.base 570 5000 in
  let devices_of := @page_devices SampleReport.platform SampleReport.report 570 5000 in
  exists r evs,
    @DeviceHealthReport.fetch_pages SampleReport.platform 3 SampleReport.report 570
      SampleReport.tracker [] []
      = (Ok (Some r), [] ++ evs) /\
    ((exists pages_data,
        Forall2 (fun page devices => devices_of page = Ok devices)
                (pages_from 0 (turns_left SampleReport.tracker)) pages_data /\
        r = [] ++ map DeviceHealthReport.Data (concat pages_data) /\
        map call_url (@http_calls SampleReport.platform evs)
        = map url (pages_from 0 (turns_left SampleReport.tracker))) \/
     (exists e k,
        (k < turns_left SampleReport.tracker)%nat /\
        Forall (fun page => exists devices, devices_of page = Ok devices)
               (pages_from 0 k) /\
        devices_of (0 + Z.of_nat k) = Raise e /\
        r = [DeviceHealthReport.Failure e] /\
        (map call_url (@http_calls SampleReport.platform evs) = map url (pages_from 0 k) \/
         map call_url (@http_calls SampleReport.platform evs)
         = map url (pages_from 0 (S k))))).
Proof.
  apply (@paging_loop SampleReport.platform 3 SampleReport.report 570
           SampleReport.tracker [] [] (PyStr Sample.base)).
  - reflexivity.
  - vm_compute. lia.
Defined.

(** The whole report on that server: the count, then pages 0 and 1, for the
    one device. *)
Example report_of_one_device :
  let run := @DeviceHealthReport.run_airwatch_device_health_check SampleReport.platform
               SampleReport.ceil_div 3 SampleReport.report 570 [] in
  fst run = Ok (Some [DeviceHealthReport.Data SampleReport.device]) /\
  map call_url (@http_calls SampleReport.platform (snd run))
  = [page_url Sample.base 570 1 0; page_url Sample.base 570 5000 0;
     page_url Sample.base 570 5000 1].
Proof. split; vm_compute; reflexivity. Qed.

(** With the four variables set, both examples are constructed. *)
Example examples_are_constructed :
  DeviceHealthReport.__init__ SampleReport.environ = Ok SampleReport.report /\
  DeviceExtensiveSearch.__init__ SampleReport.environ "prod"
  = Ok {| DeviceExtensiveSearch.aw_environment := Sample.env;
          DeviceExtensiveSearch.auth := Sample.good_auth;
          DeviceExtensiveSearch.mdm := Sample.mdm Sample.good_auth |}.
Proof. split; vm_compute; reflexivity. Qed.
